(** * CivicSense: the priority / SLA engine

    A shallow embedding of the stored procedures of the enhanced schema
    migration (calculate_priority_score, check_and_update_rate_limit,
    set_sla_due_date, check_duplicate_report), of the check-sla-escalations
    edge function and of the report handlers of ReportsList.tsx and
    ReportForm.tsx, followed by the properties the specification states
    about them. Part III adds the role helpers and row-level policies of
    the migration, the queries and page controls of Dashboard.tsx, the role
    lookup of AuthContext.tsx, the badge of ReportsList.tsx and the feedback
    handler, with properties read off the code.

    Conventions.
    - SQL [numeric] is exact decimal arithmetic: it is embedded as [Q], and
      results are compared with [==].
    - SQL [timestamptz] is a count of microseconds since the epoch: [Z].
      The session time zone is UTC, so [date_trunc('hour', t)] and
      [CURRENT_DATE] are plain divisions.
    - A nullable column is an [option]; SQL's three-valued comparisons are
      written out where a NULL can reach them.
    - SQL [double precision] (duplicate detection) is IEEE 754 binary64,
      the kernel's [float]: sums, products and comparisons are the
      processor's, with the range checks the server adds to them. [cos],
      [sin], [acos] and the conversion from [numeric] belong to the
      platform; they are a parameter, of which only what Annex F of the C
      standard fixes is used. A call that raises returns [None].
    - JavaScript numbers that hold hours are taken as exact rationals;
      instants in the browser are whole milliseconds. A score the browser
      passes from the scorer to the table is carried by [json_number], a
      parameter of the form.
    - Reads of the store succeed. The two writes of the escalation loop can
      fail, as the source provides for. An insert through the REST
      interface is refused when it names a column the table does not have;
      the columns of the table are a parameter of the form, and
      [civic_reports_columns] are those of the repository's migrations.
    - The store is the hosted database; the in-browser stand-in of local
      mode (mockSupabase) is not part of the model. *)

From Stdlib Require Import PrimFloat FloatOps SpecFloat.
From Stdlib Require Uint63.
From Stdlib Require Import ZArith QArith Qround List String Bool Lia Lqa.
From Stdlib Require Import DecimalString.
Import ListNotations.

Local Open Scope Z_scope.
Local Open Scope Z_scope.

(* ================================================================= *)
(** * Part I: the embedding                                           *)
(* ================================================================= *)

(** ** Shared column types *)

Definition uuid := string.
Bind Scope string_scope with uuid.
Definition timestamptz := Z.
Bind Scope Z_scope with timestamptz.

Definition usec_per_second : Z := 1000000.
Definition usec_per_hour : Z := 3600 * usec_per_second.
Definition usec_per_day : Z := 24 * usec_per_hour.

(** [(n || ' hours')::interval] *)
Definition hours_interval (n : Z) : Z := n * usec_per_hour.

(** [date_trunc('hour', t)] *)
Definition date_trunc_hour (t : timestamptz) : timestamptz :=
  t - t mod usec_per_hour.

(** [CURRENT_DATE] at instant [t], as a day number. *)
Definition current_date (t : timestamptz) : Z := t / usec_per_day.

(** [EXTRACT(HOUR FROM t)] *)
Definition extract_hour (t : timestamptz) : Z := (t / usec_per_hour) mod 24.

(** database.types.ts: [Priority] and [ReportStatus]. *)
Inductive Priority := low | medium | high | critical.
Inductive ReportStatus := pending | in_progress | resolved | rejected | reopened.

Definition ReportStatus_eqb (a b : ReportStatus) : bool :=
  match a, b with
  | pending, pending | in_progress, in_progress | resolved, resolved
  | rejected, rejected | reopened, reopened => true
  | _, _ => false
  end.

(** ** 4. Priority rules and [calculate_priority_score] *)

(** A row of [priority_rules]. [is_active boolean DEFAULT true] is
    nullable. *)
Record priority_rule := mk_priority_rule {
  pr_factor_type : string;
  pr_factor_value : string;
  pr_priority_weight : Q;
  pr_is_active : option bool
}.

(** [CHECK (priority_weight >= 0 AND priority_weight <= 1)] *)
Definition priority_weight_check (r : priority_rule) : Prop :=
  (0 <= pr_priority_weight r /\ pr_priority_weight r <= 1)%Q.

(** The rows inserted by the migration. *)
Definition default_priority_rules : list priority_rule :=
  [ mk_priority_rule "issue_type" "pothole" 0.7 (Some true);
    mk_priority_rule "issue_type" "streetlight" 0.8 (Some true);
    mk_priority_rule "issue_type" "drainage" 0.6 (Some true);
    mk_priority_rule "issue_type" "garbage" 0.4 (Some true);
    mk_priority_rule "issue_type" "road_damage" 0.75 (Some true);
    mk_priority_rule "issue_type" "other" 0.3 (Some true) ].

(** The WHERE clause of the lookup:
    [factor_type = 'issue_type' AND factor_value = p_issue_type
     AND is_active = true]. *)
Definition rule_matches (p_issue_type : string) (r : priority_rule) : bool :=
  (pr_factor_type r =? "issue_type")%string
  && (pr_factor_value r =? p_issue_type)%string
  && match pr_is_active r with Some true => true | _ => false end.

(** [SELECT priority_weight INTO v_base_score ...]: the first row found,
    NULL when there is none. *)
Definition select_priority_weight
    (rules : list priority_rule) (p_issue_type : string) : option Q :=
  option_map pr_priority_weight (find (rule_matches p_issue_type) rules).

(** [COALESCE(x, d)] *)
Definition COALESCE {A} (x : option A) (d : A) : A :=
  match x with Some v => v | None => d end.

(** [h NOT BETWEEN 6 AND 18]: BETWEEN includes both ends. *)
Definition not_between_6_and_18 (h : Z) : bool :=
  negb ((6 <=? h) && (h <=? 18)).

(** The IF that sets [v_time_multiplier], as a function of the issue type
    and of [EXTRACT(HOUR FROM now())]. *)
Definition time_multiplier (p_issue_type : string) (hour : Z) : Q :=
  if (p_issue_type =? "streetlight")%string && not_between_6_and_18 hour
  then 1.3%Q else 1.0%Q.

(** [LEAST(a, b)] on two values, the first possibly NULL: LEAST ignores
    NULL arguments. *)
Definition LEAST (a : option Q) (b : Q) : Q :=
  match a with
  | Some x => if Qle_bool x b then x else b
  | None => b
  end.

(** The CASE that maps the final score to a tier. *)
Definition score_to_priority (v_final_score : Q) : Priority :=
  if Qle_bool 0.75 v_final_score then critical
  else if Qle_bool 0.55 v_final_score then high
  else if Qle_bool 0.35 v_final_score then medium
  else low.

(** [calculate_priority_score(p_issue_type, p_lat, p_lng, p_ai_confidence)]
    evaluated at instant [now]. The coordinates are accepted and unused, as
    in the source. A NULL confidence makes the product NULL, which [LEAST]
    then replaces by 1.0. *)
Definition calculate_priority_score
    (rules : list priority_rule) (now : timestamptz)
    (p_issue_type : string) (p_lat p_lng : option Q)
    (p_ai_confidence : option Q) : Q * Priority :=
  let v_base_score := COALESCE (select_priority_weight rules p_issue_type) 0.5%Q in
  let v_time_multiplier := time_multiplier p_issue_type (extract_hour now) in
  let v_final_score :=
    option_map
      (fun c => (v_base_score * v_time_multiplier * (0.5 + c * 0.5))%Q)
      p_ai_confidence in
  let v_final_score := LEAST v_final_score 1.0%Q in
  (v_final_score, score_to_priority v_final_score).

(** ** 3. SLA configuration *)

(** A row of [sla_config]; [priority] is free text with a UNIQUE
    constraint. *)
Record sla_config := mk_sla_config {
  sla_priority : string;
  sla_response_time_hours : Z;
  sla_resolution_time_hours : Z;
  sla_escalation_level_1_hours : Z;
  sla_escalation_level_2_hours : Z
}.

(** The rows inserted by the migration. *)
Definition default_sla_config : list sla_config :=
  [ mk_sla_config "critical" 2 24 4 12;
    mk_sla_config "high" 8 72 24 48;
    mk_sla_config "medium" 24 168 72 120;
    mk_sla_config "low" 72 336 168 240 ].

(** The text stored in a [priority] column. *)
Definition priority_text (p : Priority) : string :=
  match p with
  | low => "low" | medium => "medium" | high => "high" | critical => "critical"
  end.

(** ** 7. The [civic_reports] table *)

(** The columns of [civic_reports] the engine reads or writes, typed as the
    [Row] of database.types.ts. *)
Record civic_report := mk_civic_report {
  cr_id : uuid;
  cr_user_id : uuid;
  cr_issue_type : string;
  cr_title : string;
  cr_latitude : option Q;
  cr_longitude : option Q;
  cr_status : ReportStatus;
  cr_priority : Priority;
  cr_priority_score : option Q;
  cr_ai_confidence : Q;
  cr_sla_due_at : option timestamptz;
  cr_escalation_level : Z;
  cr_is_duplicate : bool;
  cr_duplicate_of : option uuid;
  cr_duplicate_count : Z;
  cr_resolved_at : option timestamptz;
  cr_created_at : timestamptz;
  cr_updated_at : timestamptz
}.

Definition set_priority (r : civic_report) (p : Priority) (s : option Q) : civic_report :=
  mk_civic_report (cr_id r) (cr_user_id r) (cr_issue_type r) (cr_title r)
    (cr_latitude r) (cr_longitude r) (cr_status r) p s (cr_ai_confidence r)
    (cr_sla_due_at r) (cr_escalation_level r) (cr_is_duplicate r)
    (cr_duplicate_of r) (cr_duplicate_count r) (cr_resolved_at r)
    (cr_created_at r) (cr_updated_at r).

Definition set_sla_due_at (r : civic_report) (d : option timestamptz) : civic_report :=
  mk_civic_report (cr_id r) (cr_user_id r) (cr_issue_type r) (cr_title r)
    (cr_latitude r) (cr_longitude r) (cr_status r) (cr_priority r)
    (cr_priority_score r) (cr_ai_confidence r)
    d (cr_escalation_level r) (cr_is_duplicate r)
    (cr_duplicate_of r) (cr_duplicate_count r) (cr_resolved_at r)
    (cr_created_at r) (cr_updated_at r).

Definition set_escalation_level (r : civic_report) (l : Z) : civic_report :=
  mk_civic_report (cr_id r) (cr_user_id r) (cr_issue_type r) (cr_title r)
    (cr_latitude r) (cr_longitude r) (cr_status r) (cr_priority r)
    (cr_priority_score r) (cr_ai_confidence r)
    (cr_sla_due_at r) l (cr_is_duplicate r)
    (cr_duplicate_of r) (cr_duplicate_count r) (cr_resolved_at r)
    (cr_created_at r) (cr_updated_at r).

Definition set_status (r : civic_report) (s : ReportStatus) : civic_report :=
  mk_civic_report (cr_id r) (cr_user_id r) (cr_issue_type r) (cr_title r)
    (cr_latitude r) (cr_longitude r) s (cr_priority r)
    (cr_priority_score r) (cr_ai_confidence r)
    (cr_sla_due_at r) (cr_escalation_level r) (cr_is_duplicate r)
    (cr_duplicate_of r) (cr_duplicate_count r) (cr_resolved_at r)
    (cr_created_at r) (cr_updated_at r).

Definition set_resolved_at (r : civic_report) (t : option timestamptz) : civic_report :=
  mk_civic_report (cr_id r) (cr_user_id r) (cr_issue_type r) (cr_title r)
    (cr_latitude r) (cr_longitude r) (cr_status r) (cr_priority r)
    (cr_priority_score r) (cr_ai_confidence r)
    (cr_sla_due_at r) (cr_escalation_level r) (cr_is_duplicate r)
    (cr_duplicate_of r) (cr_duplicate_count r) t
    (cr_created_at r) (cr_updated_at r).

Definition set_updated_at (r : civic_report) (t : timestamptz) : civic_report :=
  mk_civic_report (cr_id r) (cr_user_id r) (cr_issue_type r) (cr_title r)
    (cr_latitude r) (cr_longitude r) (cr_status r) (cr_priority r)
    (cr_priority_score r) (cr_ai_confidence r)
    (cr_sla_due_at r) (cr_escalation_level r) (cr_is_duplicate r)
    (cr_duplicate_of r) (cr_duplicate_count r) (cr_resolved_at r)
    (cr_created_at r) t.

(** [SELECT resolution_time_hours INTO v_resolution_hours
     FROM sla_config WHERE priority = NEW.priority] *)
Definition select_sla_config (sla : list sla_config) (p : Priority) : option sla_config :=
  find (fun s => (sla_priority s =? priority_text p)%string) sla.

Definition select_resolution_time_hours (sla : list sla_config) (p : Priority) : option Z :=
  option_map sla_resolution_time_hours (select_sla_config sla p).

(** The BEFORE INSERT trigger [tr_set_sla_due_date]: it fills in priority and
    score when the score is NULL, then the SLA due date when the tier is
    configured, and returns the row. It has no failing path. *)
Definition set_sla_due_date
    (rules : list priority_rule) (sla : list sla_config) (now : timestamptz)
    (NEW : civic_report) : civic_report :=
  let NEW :=
    match cr_priority_score NEW with
    | None =>
        let v_priority_result :=
          calculate_priority_score rules now (cr_issue_type NEW)
            (cr_latitude NEW) (cr_longitude NEW) (Some (cr_ai_confidence NEW)) in
        set_priority NEW (snd v_priority_result) (Some (fst v_priority_result))
    | Some _ => NEW
    end in
  match select_resolution_time_hours sla (cr_priority NEW) with
  | Some v_resolution_hours =>
      set_sla_due_at NEW (Some (cr_created_at NEW + hours_interval v_resolution_hours))
  | None => NEW
  end.

(** The BEFORE UPDATE trigger [update_civic_reports_updated_at]. *)
Definition update_updated_at_column (now : timestamptz) (NEW : civic_report) : civic_report :=
  set_updated_at NEW now.

(** The constraints an INSERT into [civic_reports] can violate. *)
Inductive insert_error :=
  | unique_violation
  | check_violation
  | foreign_key_violation.

(** [CHECK (issue_type IN (...))] of the initial schema. *)
Definition issue_type_check (s : string) : bool :=
  existsb (String.eqb s)
    ["pothole"; "garbage"; "streetlight"; "drainage"; "road_damage"; "other"]%string.

(** [CHECK (ai_confidence >= 0 AND ai_confidence <= 1)] *)
Definition ai_confidence_check (c : Q) : bool :=
  Qle_bool 0 c && Qle_bool c 1.

Definition has_id (db : list civic_report) (i : uuid) : bool :=
  existsb (fun r => (cr_id r =? i)%string) db.

(** [INSERT INTO civic_reports]: the BEFORE INSERT trigger runs, then the
    row is checked (CHECK constraints, primary key, the self-referencing
    foreign key [duplicate_of]) and appended. *)
Definition insert_civic_report
    (rules : list priority_rule) (sla : list sla_config) (now : timestamptz)
    (db : list civic_report) (NEW : civic_report)
    : insert_error + list civic_report :=
  let row := set_sla_due_date rules sla now NEW in
  if negb (issue_type_check (cr_issue_type row) && ai_confidence_check (cr_ai_confidence row))
  then inl check_violation
  else if has_id db (cr_id row) then inl unique_violation
  else
    match cr_duplicate_of row with
    | Some d =>
        if has_id (db ++ [row]) d then inr (db ++ [row])
        else inl foreign_key_violation
    | None => inr (db ++ [row])
    end.

(** [UPDATE civic_reports SET ... WHERE id = i]: every matching row is
    changed by [f] and passes through the BEFORE UPDATE trigger. *)
Definition update_civic_report
    (now : timestamptz) (db : list civic_report) (i : uuid)
    (f : civic_report -> civic_report) : list civic_report :=
  map (fun r => if (cr_id r =? i)%string
                then update_updated_at_column now (f r) else r) db.

(** ** 6. Rate limiting *)

(** A row of [user_rate_limits] (the columns the function reads or
    writes). *)
Record user_rate_limit := mk_user_rate_limit {
  url_user_id : uuid;
  url_reports_today : Z;
  url_reports_this_hour : Z;
  url_last_report_at : option timestamptz;
  url_daily_reset_at : Z;
  url_hourly_reset_at : timestamptz;
  url_is_trusted : bool;
  url_is_blocked : bool;
  url_blocked_until : option timestamptz
}.

(** The jsonb objects the function builds, one constructor per shape. *)
Inductive rate_limit_result :=
  | rl_allowed (remaining_hourly remaining_daily : Z)
  | rl_blocked (reason : string) (blocked_until : option timestamptz)
  | rl_hourly_limit (reason : string) (reset_at : timestamptz)
  | rl_daily_limit (reason : string) (reset_at : Z).

(** The ['allowed'] key. *)
Definition rl_is_allowed (r : rate_limit_result) : bool :=
  match r with rl_allowed _ _ => true | _ => false end.

(** The ['reason'] key. *)
Definition rl_reason (r : rate_limit_result) : option string :=
  match r with
  | rl_allowed _ _ => None
  | rl_blocked s _ | rl_hourly_limit s _ | rl_daily_limit s _ => Some s
  end.

(** [SELECT * INTO v_limits FROM user_rate_limits WHERE user_id = p_user_id] *)
Definition select_rate_limit (tbl : list user_rate_limit) (p_user_id : uuid)
    : option user_rate_limit :=
  find (fun r => (url_user_id r =? p_user_id)%string) tbl.

(** [UPDATE user_rate_limits SET ... WHERE user_id = p_user_id] *)
Definition update_rate_limit (tbl : list user_rate_limit) (p_user_id : uuid)
    (f : user_rate_limit -> user_rate_limit) : list user_rate_limit :=
  map (fun r => if (url_user_id r =? p_user_id)%string then f r else r) tbl.

(** [INSERT INTO user_rate_limits (user_id) VALUES (p_user_id)]: every other
    column takes its DEFAULT. *)
Definition default_rate_limit (now : timestamptz) (p_user_id : uuid) : user_rate_limit :=
  mk_user_rate_limit p_user_id 0 0 None (current_date now) (date_trunc_hour now)
    false false None.

Definition reset_daily (today : Z) (r : user_rate_limit) : user_rate_limit :=
  mk_user_rate_limit (url_user_id r) 0 (url_reports_this_hour r)
    (url_last_report_at r) today (url_hourly_reset_at r)
    (url_is_trusted r) (url_is_blocked r) (url_blocked_until r).

Definition reset_hourly (hour_start : timestamptz) (r : user_rate_limit) : user_rate_limit :=
  mk_user_rate_limit (url_user_id r) (url_reports_today r) 0
    (url_last_report_at r) (url_daily_reset_at r) hour_start
    (url_is_trusted r) (url_is_blocked r) (url_blocked_until r).

Definition bump_counters (now : timestamptz) (r : user_rate_limit) : user_rate_limit :=
  mk_user_rate_limit (url_user_id r) (url_reports_today r + 1)
    (url_reports_this_hour r + 1)
    (Some now) (url_daily_reset_at r) (url_hourly_reset_at r)
    (url_is_trusted r) (url_is_blocked r) (url_blocked_until r).

(** [v_limits.reports_today := 0] and [v_limits.reports_this_hour := 0] on
    the local copy of the row. *)
Definition with_reports_today (r : user_rate_limit) (n : Z) : user_rate_limit :=
  mk_user_rate_limit (url_user_id r) n (url_reports_this_hour r)
    (url_last_report_at r) (url_daily_reset_at r) (url_hourly_reset_at r)
    (url_is_trusted r) (url_is_blocked r) (url_blocked_until r).

Definition with_reports_this_hour (r : user_rate_limit) (n : Z) : user_rate_limit :=
  mk_user_rate_limit (url_user_id r) (url_reports_today r) n
    (url_last_report_at r) (url_daily_reset_at r) (url_hourly_reset_at r)
    (url_is_trusted r) (url_is_blocked r) (url_blocked_until r).

(** [check_and_update_rate_limit(p_user_id)] called at instant [now]: the
    new table and the returned object. The statements follow the source in
    order; [now()] and [CURRENT_DATE] are those of the one transaction. *)
Definition check_and_update_rate_limit
    (now : timestamptz) (tbl : list user_rate_limit) (p_user_id : uuid)
    : list user_rate_limit * rate_limit_result :=
  match select_rate_limit tbl p_user_id with
  | None =>
      (tbl ++ [default_rate_limit now p_user_id], rl_allowed 3 10)
  | Some v_limits =>
      if url_is_blocked v_limits
         && match url_blocked_until v_limits with
            | None => true
            | Some u => now <? u
            end
      then (tbl, rl_blocked "User is blocked" (url_blocked_until v_limits))
      else
        let '(tbl, v_limits) :=
          if url_daily_reset_at v_limits <? current_date now
          then (update_rate_limit tbl p_user_id (reset_daily (current_date now)),
                with_reports_today v_limits 0)
          else (tbl, v_limits) in
        let '(tbl, v_limits) :=
          if url_hourly_reset_at v_limits <? date_trunc_hour now
          then (update_rate_limit tbl p_user_id (reset_hourly (date_trunc_hour now)),
                with_reports_this_hour v_limits 0)
          else (tbl, v_limits) in
        let '(v_max_hourly, v_max_daily) :=
          if url_is_trusted v_limits then (10, 50) else (3, 10) in
        if v_max_hourly <=? url_reports_this_hour v_limits
        then (tbl, rl_hourly_limit "Hourly limit reached"
                     (date_trunc_hour now + hours_interval 1))
        else if v_max_daily <=? url_reports_today v_limits
        then (tbl, rl_daily_limit "Daily limit reached" (current_date now + 1))
        else
          (update_rate_limit tbl p_user_id (bump_counters now),
           rl_allowed (v_max_hourly - url_reports_this_hour v_limits - 1)
                      (v_max_daily - url_reports_today v_limits - 1))
  end.

(** Successive calls by one submitter at the given instants: the final table
    and the results in call order. *)
Fixpoint rate_limit_calls
    (tbl : list user_rate_limit) (p_user_id : uuid) (times : list timestamptz)
    : list user_rate_limit * list rate_limit_result :=
  match times with
  | [] => (tbl, [])
  | t :: times' =>
      let '(tbl1, r) := check_and_update_rate_limit t tbl p_user_id in
      let '(tbl2, rs) := rate_limit_calls tbl1 p_user_id times' in
      (tbl2, r :: rs)
  end.

(** ** 8. Duplicate detection *)

(** *** [double precision] *)

(** What the server takes from the platform it runs on: [cos], [sin] and
    [acos] of the C library, and the conversion of a [numeric] to [double
    precision], which goes through [strtod] and raises 22003 out of the
    range of the type. [cos] and [sin] return [None] when the call sets
    [errno], which the server checks. Annex F of the C standard fixes
    [cos(0) = 1], [sin(0) = 0] and [acos(1) = 0] exactly, the standard has
    [acos] return a value of the interval from 0 to pi or NaN, and zero
    converts to zero; everything else about these functions is the
    platform's. *)
Record float8_platform := mk_float8_platform {
  libm_cos : float -> option float;
  libm_sin : float -> option float;
  libm_acos : float -> float;
  numeric_float8 : Q -> option float;
  libm_cos_0 : libm_cos 0%float = Some 1%float;
  libm_sin_0 : libm_sin 0%float = Some 0%float;
  libm_acos_1 : libm_acos 1%float = 0%float;
  libm_acos_range :
    forall x,
      is_nan (libm_acos x)
      || ((0 <=? libm_acos x)%float && (libm_acos x <=? 4)%float) = true;
  numeric_float8_0 : numeric_float8 0%Q = Some 0%float
}.

(** A [double precision] function either returns or raises
    [numeric_value_out_of_range] (22003), which is [None] here: "input is
    out of range", "value out of range: overflow" and "value out of range:
    underflow" all carry that code. *)
Definition bind {A B} (x : option A) (f : A -> option B) : option B :=
  match x with
  | Some a => f a
  | None => None
  end.

Notation "'do' x <- e ; k" := (bind e (fun x => k))
  (at level 10, x name, e at level 100, k at level 200).

(** [float8_mul(val1, val2)] of float.h: the product, checked for overflow
    and for underflow to zero. *)
Definition float8_mul (val1 val2 : float) : option float :=
  let result := (val1 * val2)%float in
  if is_infinity result && negb (is_infinity val1) && negb (is_infinity val2)
  then None
  else if (result =? 0)%float && negb (val1 =? 0)%float && negb (val2 =? 0)%float
  then None
  else Some result.

(** [float8_pl] and [float8_mi]: sum and difference, checked for overflow. *)
Definition float8_pl (val1 val2 : float) : option float :=
  let result := (val1 + val2)%float in
  if is_infinity result && negb (is_infinity val1) && negb (is_infinity val2)
  then None
  else Some result.

Definition float8_mi (val1 val2 : float) : option float :=
  let result := (val1 - val2)%float in
  if is_infinity result && negb (is_infinity val1) && negb (is_infinity val2)
  then None
  else Some result.

(** [float8_le(val1, val2)]: NaN sorts after every number. *)
Definition float8_le (val1 val2 : float) : bool :=
  is_nan val2 || (negb (is_nan val1) && (val1 <=? val2)%float).

(** [RADIANS_PER_DEGREE], 0.0174532925199432957692 as a double. *)
Definition RADIANS_PER_DEGREE : float := 0x1.1df46a2529d39p-6%float.

(** [radians(arg1)] *)
Definition radians (arg1 : float) : option float :=
  float8_mul arg1 RADIANS_PER_DEGREE.

(** [dcos], [dsin]: NaN for NaN; "input is out of range" when the call
    sets [errno] or the input is infinite. *)
Definition dcos (m : float8_platform) (arg1 : float) : option float :=
  if is_nan arg1 then Some nan
  else
    match libm_cos m arg1 with
    | None => None
    | Some result =>
        if is_infinity arg1 then None
        else if is_infinity result then None
        else Some result
    end.

Definition dsin (m : float8_platform) (arg1 : float) : option float :=
  if is_nan arg1 then Some nan
  else
    match libm_sin m arg1 with
    | None => None
    | Some result =>
        if is_infinity arg1 then None
        else if is_infinity result then None
        else Some result
    end.

(** [dacos]: "input is out of range" when the argument is below -1 or
    above 1, by however little. *)
Definition dacos (m : float8_platform) (arg1 : float) : option float :=
  if is_nan arg1 then Some nan
  else if (arg1 <? -1)%float || (1 <? arg1)%float then None
  else
    let result := libm_acos m arg1 in
    if is_infinity result then None else Some result.

(** The cast of an [int] to [double precision], which is exact: an [int]
    has 32 bits. *)
Definition i4tod (z : Z) : float :=
  if z <? 0 then PrimFloat.opp (PrimFloat.of_uint63 (Uint63.of_Z (- z)))
  else PrimFloat.of_uint63 (Uint63.of_Z z).

(** [ROUND(x)::numeric] on [double precision]: [rint], the nearest integer
    with an exact half going to the even neighbour, then the cast, which is
    exact below 10^15; a distance is below 6371000 * 4. Infinities and NaN
    do not get here. *)
Definition dround_numeric (x : float) : Z :=
  match Prim2SF x with
  | S754_finite s m e =>
      let v :=
        if 0 <=? e then Z.pos m * 2 ^ e
        else
          let d := 2 ^ (- e) in
          let q := Z.pos m / d in
          let r := Z.pos m mod d in
          if 2 * r <? d then q
          else if d <? 2 * r then q + 1
          else if Z.even q then q else q + 1 in
      if s then - v else v
  | _ => 0
  end.

(** [ROUND(q)] on numeric: the nearest integer, halves away from zero. *)
Definition ROUND_numeric (q : Q) : Z :=
  if Qle_bool 0 q then Qfloor (q + (1 # 2))%Q else Qceiling (q - (1 # 2))%Q.

(** *** The query *)

(** The part of the distance expression that depends on the arguments
    alone: [cos(radians(p_lat))], [sin(radians(p_lat))] and
    [radians(p_lng)]. The [numeric] arguments of [radians] are cast to
    [double precision]. *)
Definition query_point (m : float8_platform) (p_lat p_lng : Q)
    : option (float * float * float) :=
  do f_p_lat <- numeric_float8 m p_lat;
  do r_p_lat <- radians f_p_lat;
  do c1 <- dcos m r_p_lat;
  do s1 <- dsin m r_p_lat;
  do f_p_lng <- numeric_float8 m p_lng;
  do r_p_lng <- radians f_p_lng;
  Some (c1, s1, r_p_lng).

(** The distance expression of the query, in metres, as the server
    evaluates it:
    [6371000 * acos(cos(radians(p_lat)) * cos(radians(cr.latitude)) *
     cos(radians(cr.longitude) - radians(p_lng)) +
     sin(radians(p_lat)) * sin(radians(cr.latitude)))]. *)
Definition great_circle_m (m : float8_platform) (p_lat p_lng latitude longitude : Q)
    : option float :=
  do q <- query_point m p_lat p_lng;
  let '(c1, s1, r_p_lng) := q in
  do f_latitude <- numeric_float8 m latitude;
  do r_latitude <- radians f_latitude;
  do c2 <- dcos m r_latitude;
  do c12 <- float8_mul c1 c2;
  do f_longitude <- numeric_float8 m longitude;
  do r_longitude <- radians f_longitude;
  do dlng <- float8_mi r_longitude r_p_lng;
  do c3 <- dcos m dlng;
  do c123 <- float8_mul c12 c3;
  do s2 <- dsin m r_latitude;
  do s12 <- float8_mul s1 s2;
  do sum <- float8_pl c123 s12;
  do a <- dacos m sum;
  float8_mul 6371000%float a.

(** A row of the function's result table. *)
Record duplicate_row := mk_duplicate_row {
  dup_is_duplicate : bool;
  dup_existing_report_id : uuid;
  dup_existing_title : string;
  dup_distance_meters : Z;
  dup_hours_ago : Z
}.

(** [cr.status NOT IN ('resolved', 'rejected')] *)
Definition status_not_closed (s : ReportStatus) : bool :=
  negb (ReportStatus_eqb s resolved || ReportStatus_eqb s rejected).

(** The conditions of the WHERE clause that come before the distance: the
    planner orders the conditions by cost, and the distance, by far the
    costliest, is the last a row meets. *)
Definition duplicate_scope
    (now : timestamptz) (p_issue_type : string) (p_time_window_hours : Z)
    (cr : civic_report) : bool :=
  (cr_issue_type cr =? p_issue_type)%string
  && status_not_closed (cr_status cr)
  && (now - hours_interval p_time_window_hours <? cr_created_at cr)
  && match cr_latitude cr, cr_longitude cr with
     | Some _, Some _ => true
     | _, _ => false
     end.

(** The distance of a row from the query point: [None] when its evaluation
    raises. A row without coordinates never gets there. *)
Definition row_distance (m : float8_platform) (p_lat p_lng : Q) (cr : civic_report)
    : option float :=
  match cr_latitude cr, cr_longitude cr with
  | Some latitude, Some longitude => great_circle_m m p_lat p_lng latitude longitude
  | _, _ => Some nan
  end.

(** The scan: the rows that pass the WHERE clause, in scan order, each with
    its distance; [None] when the distance of a row in scope raises, which
    ends the statement. *)
Fixpoint duplicate_scan
    (m : float8_platform) (now : timestamptz) (p_lat p_lng : Q)
    (p_issue_type : string) (p_radius_meters p_time_window_hours : Z)
    (rows : list civic_report) : option (list (civic_report * float)) :=
  match rows with
  | [] => Some []
  | cr :: rows' =>
      if duplicate_scope now p_issue_type p_time_window_hours cr then
        do d <- row_distance m p_lat p_lng cr;
        do rest <- duplicate_scan m now p_lat p_lng p_issue_type
                     p_radius_meters p_time_window_hours rows';
        Some (if float8_le d (i4tod p_radius_meters)
              then (cr, d) :: rest else rest)
      else
        duplicate_scan m now p_lat p_lng p_issue_type
          p_radius_meters p_time_window_hours rows'
  end.

(** The output column [dist_meters], which is also the sort key. *)
Definition dist_meters (row : civic_report * float) : Z :=
  dround_numeric (snd row).

(** The output column [hrs_ago]:
    [ROUND(EXTRACT(EPOCH FROM (now() - cr.created_at)) / 3600)]. *)
Definition hrs_ago (now : timestamptz) (cr : civic_report) : Z :=
  ROUND_numeric
    ((inject_Z (now - cr_created_at cr) / inject_Z usec_per_second) / 3600)%Q.

(** [ORDER BY key LIMIT 1]: a row with the least key; among rows with equal
    keys the one the scan meets first. SQL leaves that choice open, a
    sequential scan in table order makes it the earliest row. *)
Fixpoint order_by_limit_1 {A} (key : A -> Z) (rows : list A) : list A :=
  match rows with
  | [] => []
  | x :: rows' =>
      match order_by_limit_1 key rows' with
      | [] => [x]
      | y :: _ => if key x <=? key y then [x] else [y]
      end
  end.

(** [check_duplicate_report(p_lat, p_lng, p_issue_type, p_user_id,
    p_radius_meters, p_time_window_hours)] evaluated at instant [now] on the
    table [db]: the rows returned, or [None] when the call raises 22003.
    The query is planned with the arguments as constants, and the planner
    evaluates what depends on them alone, [query_point], before any row is
    read; a plan kept from earlier calls of the session evaluates it with
    the first row in scope instead. The two differ when [query_point]
    raises and no row is in scope; the properties below are stated for
    query points on which it does not. [p_user_id] is accepted and never
    read, as in the source. *)
Definition check_duplicate_report
    (m : float8_platform) (now : timestamptz) (db : list civic_report)
    (p_lat p_lng : Q) (p_issue_type : string) (p_user_id : uuid)
    (p_radius_meters p_time_window_hours : Z) : option (list duplicate_row) :=
  do _ <- query_point m p_lat p_lng;
  do found <- duplicate_scan m now p_lat p_lng p_issue_type
                p_radius_meters p_time_window_hours db;
  Some (map (fun row =>
               mk_duplicate_row true (cr_id (fst row)) (cr_title (fst row))
                 (dist_meters row) (hrs_ago now (fst row)))
          (order_by_limit_1 dist_meters found)).

(** ** The check-sla-escalations edge function *)

(** A row of [escalations], also the [EscalationResult] of the function. *)
Record escalation := mk_escalation {
  esc_report_id : uuid;
  esc_from_level : Z;
  esc_to_level : Z;
  esc_reason : string
}.

(** [new Date(ts).getTime()]: a JavaScript Date keeps milliseconds. *)
Definition getTime (t : timestamptz) : Z := t / 1000.

(** [slaMap = new Map(slaConfigs.map(s => [s.priority, s]))] followed by
    [slaMap.get(key)]: on a repeated key the later entry replaces the
    earlier one. *)
Definition slaMap_get (slaConfigs : list sla_config) (key : string) : option sla_config :=
  find (fun s => (sla_priority s =? key)%string) (rev slaConfigs).

(** [(now.getTime() - createdAt.getTime()) / (1000 * 60 * 60)] *)
Definition hoursElapsed (now_ms : Z) (report : civic_report) : Q :=
  (inject_Z (now_ms - getTime (cr_created_at report)) / inject_Z (1000 * 60 * 60))%Q.

(** [a > b] on numbers. *)
Definition Qgt_bool (a b : Q) : bool := negb (Qle_bool a b).

(** [Math.round(x)] *)
Definition Math_round (x : Q) : Z := Qfloor (x + (1 # 2))%Q.

(** The threshold check that computes [newLevel]. *)
Definition newLevel (slaConfig : sla_config) (now_ms : Z) (report : civic_report) : Z :=
  if Qgt_bool (hoursElapsed now_ms report)
              (inject_Z (sla_escalation_level_2_hours slaConfig))
     && (cr_escalation_level report <? 2)
  then 2
  else if Qgt_bool (hoursElapsed now_ms report)
                   (inject_Z (sla_escalation_level_1_hours slaConfig))
          && (cr_escalation_level report <? 1)
  then 1
  else cr_escalation_level report.

(** The template literal that becomes [reason]. *)
Definition string_of_Z (z : Z) : string := NilZero.string_of_int (Z.to_int z).

Definition breach_reason (level : Z) (hours : Q) (threshold : Z) : string :=
  ("SLA Level " ++ string_of_Z level ++ " breach - "
   ++ string_of_Z (Math_round hours) ++ "h elapsed (threshold: "
   ++ string_of_Z threshold ++ "h)")%string.

(** What one run has done so far: the two tables it writes and the
    [escalations] array it returns. *)
Record sweep_state := mk_sweep_state {
  sw_reports : list civic_report;
  sw_escalations : list escalation;
  sw_result : list escalation
}.

(** The query that fetches [activeReports]:
    [.in('status', ['pending', 'in_progress', 'reopened'])
     .not('sla_due_at', 'is', null)]. *)
Definition is_active_report (r : civic_report) : bool :=
  (ReportStatus_eqb (cr_status r) pending
   || ReportStatus_eqb (cr_status r) in_progress
   || ReportStatus_eqb (cr_status r) reopened)
  && match cr_sla_due_at r with Some _ => true | None => false end.

Section EscalationSweep.

  (** Whether the two writes of the loop body succeed for a given report:
      [updateError] and [escalationError] are null exactly when these answer
      [true]. *)
Variable update_ok : uuid -> bool.
Variable insert_ok : uuid -> bool.

Variable slaConfigs : list sla_config.

  (** The instant of the run; the function's [now] is [getTime now]. *)
Variable now : timestamptz.

  (** The body of [for (const report of activeReports)]. [report] is the row
      as fetched before the loop. *)
Definition sweep_report (st : sweep_state) (report : civic_report) : sweep_state :=
    match slaMap_get slaConfigs (priority_text (cr_priority report)) with
    | None => st
    | Some slaConfig =>
        let newLevel := newLevel slaConfig (getTime now) report in
        if cr_escalation_level report <? newLevel then
          if update_ok (cr_id report) then
            let reports :=
              update_civic_report now (sw_reports st) (cr_id report)
                (fun r => set_escalation_level r newLevel) in
            let reason :=
              if newLevel =? 2
              then breach_reason 2 (hoursElapsed (getTime now) report)
                     (sla_escalation_level_2_hours slaConfig)
              else breach_reason 1 (hoursElapsed (getTime now) report)
                     (sla_escalation_level_1_hours slaConfig) in
            let e := mk_escalation (cr_id report) (cr_escalation_level report)
                       newLevel reason in
            if insert_ok (cr_id report) then
              mk_sweep_state reports (sw_escalations st ++ [e]) (sw_result st ++ [e])
            else mk_sweep_state reports (sw_escalations st) (sw_result st)
          else st
        else st
    end.

  (** One run of the function on the tables [reports] and [escalations]. *)
Definition check_sla_escalations
      (reports : list civic_report) (escalations : list escalation) : sweep_state :=
    let activeReports := filter is_active_report reports in
    fold_left sweep_report activeReports (mk_sweep_state reports escalations []).

End EscalationSweep.

(** ** ReportsList.tsx: status updates and reopening *)

(** [x || 0] on a number. *)
Definition or_zero (x : Z) : Z := if x =? 0 then 0 else x.

(** The statuses the "Update Status" select offers to an officer, besides
    the empty selection. *)
Definition update_status_options : list ReportStatus :=
  [pending; in_progress; resolved; rejected].

(** [handleUpdateReport(reportId, report)] with the component state
    [user] and [updateStatus] (the empty selection is [None]). [report] is
    the row the list was rendered from. The comment row written to
    [report_updates] is left out. *)
Definition handleUpdateReport
    (now : timestamptz) (db : list civic_report)
    (user : option uuid) (updateStatus : option ReportStatus)
    (reportId : uuid) (report : civic_report) : list civic_report :=
  match user, updateStatus with
  | Some _, Some s =>
      update_civic_report now db reportId
        (fun r =>
           match s with
           | resolved => set_resolved_at (set_status r s) (Some now)
           | reopened =>
               set_escalation_level (set_resolved_at (set_status r s) None)
                 (or_zero (cr_escalation_level report) + 1)
           | _ => set_status r s
           end)
  | _, _ => db
  end.

(** [handleReopenReport(reportId)], the submitter's reopen button. *)
Definition handleReopenReport
    (now : timestamptz) (db : list civic_report)
    (user : option uuid) (reportId : uuid) : list civic_report :=
  match user with
  | Some _ =>
      update_civic_report now db reportId
        (fun r => set_resolved_at (set_status r reopened) None)
  | None => db
  end.

(** [canReopenReport(report)]: when the reopen button is shown. *)
Definition canReopenReport (user : option uuid) (report : civic_report) : bool :=
  match user with
  | Some u => (u =? cr_user_id report)%string && ReportStatus_eqb (cr_status report) resolved
  | None => false
  end.

(** ** issueConfig.ts: categories *)

(** [ISSUE_CATEGORIES], each with its [id] and the [value]s of its
    [issues]. *)
Definition ISSUE_CATEGORIES : list (string * list string) :=
  [ ("road_transport",
     ["pothole"; "road_damage"; "broken_footpath"; "speed_breaker"; "missing_signboard"]);
    ("sanitation", ["garbage"; "illegal_dumping"; "dead_animal"; "public_toilet"]);
    ("electricity", ["streetlight"; "power_outage"; "loose_wires"; "transformer_fault"]);
    ("water_drainage", ["drainage"; "water_leak"; "sewer_overflow"; "flooding"]);
    ("environment", ["fallen_tree"; "park_damage"; "tree_cutting"; "encroachment"]);
    ("traffic", ["traffic_signal"; "parking_violation"; "accident_prone"]);
    ("emergency", ["fire_hazard"; "gas_leak"; "building_collapse"]) ]%string.

Definition getCategoryByIssue (issueValue : string) : option (string * list string) :=
  find (fun cat => existsb (fun v => (v =? issueValue)%string) (snd cat)) ISSUE_CATEGORIES.

Definition isEmergencyIssue (issueValue : string) : bool :=
  match getCategoryByIssue issueValue with
  | Some cat => (fst cat =? "emergency")%string
  | None => false
  end.

(** ** ReportForm.tsx: duplicate warning and submission *)

Record DuplicateWarning := mk_DuplicateWarning {
  dw_show : bool;
  dw_existingId : option uuid;
  dw_existingTitle : option string;
  dw_distance : option Z;
  dw_hoursAgo : option Z
}.

(** [{ show: false }] *)
Definition no_warning : DuplicateWarning :=
  mk_DuplicateWarning false None None None None.

(** The component state that [handleSubmit] reads. The empty issue type is
    the empty string; [f_selectedCategory] holds the category id. *)
Record form_state := mk_form_state {
  f_selectedCategory : option string;
  f_issueType : string;
  f_title : string;
  f_location : option (Q * Q);
  f_aiClassification : option Q;
  f_duplicateWarning : DuplicateWarning;
  f_forceSubmit : bool
}.

Definition initial_form : form_state :=
  mk_form_state None "" "" None None no_warning false.

Definition with_duplicateWarning (f : form_state) (dw : DuplicateWarning) : form_state :=
  mk_form_state (f_selectedCategory f) (f_issueType f) (f_title f) (f_location f)
    (f_aiClassification f) dw (f_forceSubmit f).

Definition with_forceSubmit (f : form_state) (b : bool) : form_state :=
  mk_form_state (f_selectedCategory f) (f_issueType f) (f_title f) (f_location f)
    (f_aiClassification f) (f_duplicateWarning f) b.

(** [checkForDuplicates(lat, lng, type)]: the new [duplicateWarning]. The
    radius is 100 m and the window 72 h. When the call raises, [data] is
    null and [data?.length > 0] is false, as for an empty answer. *)
Definition checkForDuplicates
    (m : float8_platform) (now : timestamptz) (db : list civic_report)
    (user : option uuid) (dw : DuplicateWarning) (lat lng : Q) (type : string)
    : DuplicateWarning :=
  match user with
  | None => dw
  | Some u =>
      match check_duplicate_report m now db lat lng type u 100 72 with
      | Some (d :: _) =>
          mk_DuplicateWarning true (Some (dup_existing_report_id d))
            (Some (dup_existing_title d)) (Some (dup_distance_meters d))
            (Some (dup_hours_ago d))
      | Some [] | None => no_warning
      end
  end.

(** The columns of [civic_reports] in the repository: those of the initial
    schema, then those the enhanced-schema migration adds. *)
Definition civic_reports_columns : list string :=
  [ "id"; "user_id"; "issue_type"; "title"; "description"; "image_url";
    "latitude"; "longitude"; "address"; "status"; "priority"; "ai_confidence";
    "resolved_at"; "created_at"; "updated_at";
    "sla_due_at"; "escalation_level"; "assigned_to"; "assigned_at"; "ward_id";
    "department"; "validation_status"; "validation_issues"; "ai_detected_type";
    "image_hash"; "priority_score"; "is_duplicate"; "duplicate_of";
    "duplicate_count" ]%string.

(** The keys of the object [handleSubmit] passes to [insert]. *)
Definition handleSubmit_keys : list string :=
  [ "user_id"; "issue_type"; "title"; "description"; "image_url";
    "latitude"; "longitude"; "address"; "municipality";
    "priority"; "priority_score"; "is_duplicate"; "duplicate_of" ]%string.

(** What [from('civic_reports').insert(...)] can answer besides success:
    the request names a column the table does not have (PGRST204, nothing
    reaches the table), or the INSERT ran and raised. *)
Inductive postgrest_error :=
  | PGRST204 (column : string)
  | sql_error (e : insert_error).

(** [supabase.from('civic_reports').insert(row)] on a table with the
    columns [columns], [keys] being the keys of [row]. *)
Definition postgrest_insert
    (columns keys : list string)
    (rules : list priority_rule) (sla : list sla_config) (now : timestamptz)
    (db : list civic_report) (NEW : civic_report)
    : postgrest_error + list civic_report :=
  match find (fun k => negb (existsb (String.eqb k) columns)) keys with
  | Some k => inl (PGRST204 k)
  | None =>
      match insert_civic_report rules sla now db NEW with
      | inl e => inl (sql_error e)
      | inr db' => inr db'
      end
  end.

(** The row [handleSubmit] asks the table to insert: [None] when the
    handler returns before the insert. [new_id] is the value
    [gen_random_uuid()] takes for the row; the columns the form does not
    send take their DEFAULT. The call of [calculate_priority_score] returns
    its row, so the fallback ('medium', 0.5) of a failed call is not
    reached. The image upload is left out.

    The score of the scorer reaches the table through the browser: it is
    printed as JSON, parsed to the nearest double, printed again as the
    shortest decimal that gives that double back, and read as a [numeric].
    [json_number] is that journey; it returns a [numeric] of at most 15
    significant digits as it was, and may change the last digits of a
    longer one. *)
Definition handleSubmit_row
    (json_number : Q -> Q)
    (rules : list priority_rule) (now : timestamptz) (new_id : uuid)
    (user : option uuid) (can_create_report : bool) (f : form_state)
    : option civic_report :=
  match user, f_selectedCategory f with
  | Some u, Some _ =>
      if (f_issueType f =? "")%string then None
      else if negb can_create_report then None
      else if dw_show (f_duplicateWarning f) && negb (f_forceSubmit f) then None
      else
        let aiConfidence := COALESCE (f_aiClassification f) 0.5%Q in
        let isEmergency := isEmergencyIssue (f_issueType f) in
        let '(priorityScore, priority) :=
          if isEmergency then (1.0%Q, critical)
          else
            let priorityData :=
              calculate_priority_score rules now (f_issueType f)
                (option_map fst (f_location f)) (option_map snd (f_location f))
                (Some aiConfidence) in
            (json_number (fst priorityData), snd priorityData) in
        Some (mk_civic_report new_id u (f_issueType f) (f_title f)
                (option_map fst (f_location f)) (option_map snd (f_location f))
                pending priority (Some priorityScore) 0%Q None 0
                (dw_show (f_duplicateWarning f))
                (if dw_show (f_duplicateWarning f)
                 then dw_existingId (f_duplicateWarning f) else None)
                0 None now now)
  | _, _ => None
  end.

(** [handleSubmit] on a table with the columns [columns]: [None] when the
    handler returns before the insert, otherwise the outcome of the
    insert. *)
Definition handleSubmit
    (json_number : Q -> Q) (columns : list string)
    (rules : list priority_rule) (sla : list sla_config)
    (now : timestamptz) (new_id : uuid) (db : list civic_report)
    (user : option uuid) (can_create_report : bool) (f : form_state)
    : option (postgrest_error + list civic_report) :=
  match handleSubmit_row json_number rules now new_id user can_create_report f with
  | Some NEW => Some (postgrest_insert columns handleSubmit_keys rules sla now db NEW)
  | None => None
  end.

(** What the user does with the form between two renderings. *)
Inductive form_event :=
  | EvEdit (category : option string) (issueType title : string)
           (location : option (Q * Q)) (ai : option Q)
  | EvCheck (now : timestamptz) (lat lng : Q) (type : string)
  | EvForce
  | EvSubmit (now : timestamptz) (new_id : uuid).

Section FormSession.

Variable m : float8_platform.
Variable json_number : Q -> Q.
Variable columns : list string.
Variable rules : list priority_rule.
Variable sla : list sla_config.
Variable user : option uuid.
Variable can_create_report : bool.

  (** One event on the table and the form. A successful submit ends with
      [resetForm]; a failed or refused one leaves both as they were. *)
Definition form_step (s : list civic_report * form_state) (ev : form_event)
      : list civic_report * form_state :=
    let '(db, f) := s in
    match ev with
    | EvEdit category issueType title location ai =>
        (db, mk_form_state category issueType title location ai
               (f_duplicateWarning f) (f_forceSubmit f))
    | EvCheck now lat lng type =>
        (db, with_duplicateWarning f
               (checkForDuplicates m now db user (f_duplicateWarning f) lat lng type))
    | EvForce => (db, with_forceSubmit f true)
    | EvSubmit now new_id =>
        match handleSubmit json_number columns rules sla now new_id db user
                can_create_report f with
        | Some (inr db') => (db', initial_form)
        | _ => (db, f)
        end
    end.

Definition form_run (s : list civic_report * form_state) (evs : list form_event)
      : list civic_report * form_state :=
    fold_left form_step evs s.

End FormSession.

(** ** ReportsList.tsx: the SLA badge and the buttons of a report *)

(** The [status] of the object [getSLAStatus] returns. *)
Inductive sla_status := sla_overdue | sla_urgent | sla_ok.

(** [a < b] on numbers. *)
Definition Qlt_bool (a b : Q) : bool := negb (Qle_bool b a).

(** [(new Date(report.sla_due_at).getTime() - Date.now()) / (1000 * 60 * 60)] *)
Definition hoursRemaining (now_ms : Z) (due : timestamptz) : Q :=
  (inject_Z (getTime due - now_ms) / inject_Z (1000 * 60 * 60))%Q.

(** [getSLAStatus(report)] with [Date.now()] equal to [now_ms]: [None] for
    [null], otherwise the status and the hours shown. *)
Definition getSLAStatus (now_ms : Z) (report : civic_report) : option (sla_status * Z) :=
  match cr_sla_due_at report with
  | None => None
  | Some due =>
      if ReportStatus_eqb (cr_status report) resolved
         || ReportStatus_eqb (cr_status report) rejected
      then None
      else
        let hoursRemaining := hoursRemaining now_ms due in
        if Qlt_bool hoursRemaining 0
        then Some (sla_overdue, Z.abs (Math_round hoursRemaining))
        else if Qlt_bool hoursRemaining 24
        then Some (sla_urgent, Math_round hoursRemaining)
        else Some (sla_ok, Math_round hoursRemaining)
  end.

(** [canProvideFeedback(report)] *)
Definition canProvideFeedback (user : option uuid) (report : civic_report) : bool :=
  match user with
  | Some u => (u =? cr_user_id report)%string && ReportStatus_eqb (cr_status report) resolved
  | None => false
  end.

(** ** Dashboard.tsx: statistics, filters and pages *)

(** [byPriority]: an object with the four tiers as keys. *)
Record ByPriority := mk_ByPriority {
  bp_low : Z; bp_medium : Z; bp_high : Z; bp_critical : Z
}.

(** [Stats]; [byType] keeps its keys in the order they were first set. *)
Record Stats := mk_Stats {
  st_total : Z;
  st_pending : Z;
  st_inProgress : Z;
  st_resolved : Z;
  st_rejected : Z;
  st_reopened : Z;
  st_overdueSLA : Z;
  st_byType : list (string * Z);
  st_byPriority : ByPriority
}.

(** [byType[k] = (byType[k] || 0) + 1] *)
Fixpoint byType_incr (byType : list (string * Z)) (k : string) : list (string * Z) :=
  match byType with
  | [] => [(k, or_zero 0 + 1)]
  | (k', n) :: rest =>
      if (k' =? k)%string then (k', or_zero n + 1) :: rest
      else (k', n) :: byType_incr rest k
  end.

(** [byPriority[p]++] *)
Definition byPriority_incr (b : ByPriority) (p : Priority) : ByPriority :=
  match p with
  | low => mk_ByPriority (bp_low b + 1) (bp_medium b) (bp_high b) (bp_critical b)
  | medium => mk_ByPriority (bp_low b) (bp_medium b + 1) (bp_high b) (bp_critical b)
  | high => mk_ByPriority (bp_low b) (bp_medium b) (bp_high b + 1) (bp_critical b)
  | critical => mk_ByPriority (bp_low b) (bp_medium b) (bp_high b) (bp_critical b + 1)
  end.

(** [report.sla_due_at && new Date(report.sla_due_at) < now &&
     !['resolved', 'rejected'].includes(report.status)] *)
Definition stats_overdue (now_ms : Z) (report : civic_report) : bool :=
  match cr_sla_due_at report with
  | Some due => (getTime due <? now_ms) && status_not_closed (cr_status report)
  | None => false
  end.

(** The body of [data.forEach] in [fetchStats]. *)
Definition count_report (now_ms : Z) (s : Stats) (report : civic_report) : Stats :=
  let bump (st : ReportStatus) (n : Z) :=
    if ReportStatus_eqb (cr_status report) st then n + 1 else n in
  mk_Stats (st_total s)
    (bump pending (st_pending s)) (bump in_progress (st_inProgress s))
    (bump resolved (st_resolved s)) (bump rejected (st_rejected s))
    (bump reopened (st_reopened s))
    (if stats_overdue now_ms report then st_overdueSLA s + 1 else st_overdueSLA s)
    (byType_incr (st_byType s) (cr_issue_type report))
    (byPriority_incr (st_byPriority s) (cr_priority report)).

(** The part of both queries that does not depend on the filters:
    [.eq('is_duplicate', false)], and [.eq('user_id', user.id)] when
    [!isOfficer && user]. *)
Definition dashboard_scope (isOfficer : bool) (user : option uuid)
    (r : civic_report) : bool :=
  negb (cr_is_duplicate r)
  && match user with
     | Some u => if isOfficer then true else (cr_user_id r =? u)%string
     | None => true
     end.

(** [fetchStats()] with [new Date()] equal to [now_ms]. *)
Definition fetchStats (now_ms : Z) (isOfficer : bool) (user : option uuid)
    (db : list civic_report) : Stats :=
  let data := filter (dashboard_scope isOfficer user) db in
  fold_left (count_report now_ms) data
    (mk_Stats (Z.of_nat (List.length data)) 0 0 0 0 0 0 []
       (mk_ByPriority 0 0 0 0)).

(** The filter controls of the dashboard; [None] stands for 'all'. The
    municipality filter is taken at 'all'. *)
Record dashboard_filters := mk_dashboard_filters {
  statusFilter : option ReportStatus;
  typeFilter : option string;
  priorityFilter : option Priority;
  showOverdueOnly : bool
}.

Definition Priority_eqb (a b : Priority) : bool :=
  match a, b with
  | low, low | medium, medium | high, high | critical, critical => true
  | _, _ => false
  end.

(** [.lt('sla_due_at', new Date().toISOString())
     .not('status', 'in', '("resolved","rejected")')]: the database compares
    the stored instant with the millisecond the client sent. *)
Definition query_overdue (now_ms : Z) (r : civic_report) : bool :=
  match cr_sla_due_at r with
  | Some due => (due <? now_ms * 1000) && status_not_closed (cr_status r)
  | None => false
  end.

(** The WHERE clause [fetchReports] builds. *)
Definition reports_where (now_ms : Z) (isOfficer : bool) (user : option uuid)
    (fl : dashboard_filters) (r : civic_report) : bool :=
  dashboard_scope isOfficer user r
  && match statusFilter fl with
     | Some s => ReportStatus_eqb (cr_status r) s
     | None => true
     end
  && match typeFilter fl with
     | Some t => (cr_issue_type r =? t)%string
     | None => true
     end
  && match priorityFilter fl with
     | Some p => Priority_eqb (cr_priority r) p
     | None => true
     end
  && (if showOverdueOnly fl then query_overdue now_ms r else true).

(** [.order('created_at', { ascending: false })]; rows created at the same
    instant keep their scan order. *)
Fixpoint insert_desc (r : civic_report) (l : list civic_report) : list civic_report :=
  match l with
  | [] => [r]
  | x :: l' =>
      if cr_created_at x <? cr_created_at r then r :: l else x :: insert_desc r l'
  end.

Definition order_by_created_at_desc (l : list civic_report) : list civic_report :=
  fold_left (fun acc r => insert_desc r acc) l [].

(** [.range(from, to)]: the rows at positions [from] to [to], both
    included. *)
Definition range {A} (from to : Z) (l : list A) : list A :=
  firstn (Z.to_nat (to - from + 1)) (skipn (Z.to_nat from) l).

Record PaginationState := mk_PaginationState {
  pg_page : Z;
  pg_pageSize : Z;
  pg_totalCount : Z;
  pg_totalPages : Z
}.

(** [useState<PaginationState>({ page: 1, pageSize: 10, ... })] *)
Definition initial_pagination : PaginationState := mk_PaginationState 1 10 0 0.

(** [Math.ceil(count / pageSize)] for a positive page size. *)
Definition Math_ceil_div (count pageSize : Z) : Z :=
  Qceiling (inject_Z count / inject_Z pageSize)%Q.

(** [fetchReports(page)] with [new Date()] equal to [now_ms], when the
    query succeeds: the rows shown and the new pagination state. The
    properties below concern the pages [handlePageChange] lets through. *)
Definition fetchReports (now_ms : Z) (isOfficer : bool) (user : option uuid)
    (fl : dashboard_filters) (pagination : PaginationState) (page : Z)
    (db : list civic_report) : list civic_report * PaginationState :=
  let rows :=
    order_by_created_at_desc (filter (reports_where now_ms isOfficer user fl) db) in
  let from := (page - 1) * pg_pageSize pagination in
  let to := from + pg_pageSize pagination - 1 in
  let count := Z.of_nat (List.length rows) in
  (range from to rows,
   mk_PaginationState page (pg_pageSize pagination) (or_zero count)
     (Math_ceil_div (or_zero count) (pg_pageSize pagination))).

(** [handlePageChange(newPage)]: whether the page is fetched. *)
Definition handlePageChange (pagination : PaginationState) (newPage : Z) : bool :=
  (1 <=? newPage) && (newPage <=? pg_totalPages pagination).

(** The number on the [i]-th page button. *)
Definition pageNum (pagination : PaginationState) (i : Z) : Z :=
  if pg_totalPages pagination <=? 5 then i + 1
  else if pg_page pagination <=? 3 then i + 1
  else if pg_totalPages pagination - 2 <=? pg_page pagination
  then pg_totalPages pagination - 4 + i
  else pg_page pagination - 2 + i.

(** [Array.from({ length: Math.min(5, totalPages) }, (_, i) => ...)] *)
Definition page_buttons (pagination : PaginationState) : list Z :=
  map (fun i => pageNum pagination (Z.of_nat i))
    (seq 0 (Z.to_nat (Z.min 5 (pg_totalPages pagination)))).

(** The two numbers of "Showing a to b of n". *)
Definition showing (pagination : PaginationState) : Z * Z :=
  ((pg_page pagination - 1) * pg_pageSize pagination + 1,
   Z.min (pg_page pagination * pg_pageSize pagination) (pg_totalCount pagination)).

(** ** Roles: the database helpers and the client's view *)

(** A row of [user_roles]; [is_active] and [created_at] have defaults but
    are nullable. *)
Record user_role := mk_user_role {
  ur_user_id : uuid;
  ur_role : string;
  ur_is_active : option bool;
  ur_created_at : option timestamptz
}.

(** [CHECK (role IN ('citizen', 'ward_officer', 'dept_admin', 'city_admin'))] *)
Definition role_check (r : user_role) : Prop :=
  In (ur_role r) ["citizen"; "ward_officer"; "dept_admin"; "city_admin"]%string.

(** [user_id = uid AND is_active = true] *)
Definition active_role_of (uid : uuid) (r : user_role) : bool :=
  (ur_user_id r =? uid)%string
  && match ur_is_active r with Some true => true | _ => false end.

(** [user_has_role(p_role)] for the caller [auth.uid()]; a NULL caller
    matches no row. *)
Definition user_has_role (tbl : list user_role) (auth_uid : option uuid)
    (p_role : string) : bool :=
  match auth_uid with
  | Some uid =>
      existsb (fun r => active_role_of uid r && (ur_role r =? p_role)%string) tbl
  | None => false
  end.

(** The CASE of the ORDER BY in [get_user_role]. *)
Definition role_order (role : string) : Z :=
  if (role =? "city_admin")%string then 1
  else if (role =? "dept_admin")%string then 2
  else if (role =? "ward_officer")%string then 3
  else 4.

(** [get_user_role()] for the caller [auth.uid()]. *)
Definition get_user_role (tbl : list user_role) (auth_uid : option uuid) : string :=
  let v_role :=
    match auth_uid with
    | Some uid =>
        match order_by_limit_1 (fun r => role_order (ur_role r))
                (filter (active_role_of uid) tbl) with
        | r :: _ => Some (ur_role r)
        | [] => None
        end
    | None => None
    end in
  COALESCE v_role "citizen"%string.

(** [ORDER BY created_at DESC]: whether [a] may come before [b]. NULLs come
    first in descending order. *)
Definition created_desc_le (a b : user_role) : bool :=
  match ur_created_at a, ur_created_at b with
  | None, _ => true
  | Some _, None => false
  | Some x, Some y => y <=? x
  end.

(** [ORDER BY ... LIMIT 1] for an order given by a test: the first row of
    the scan that may come before all others. *)
Fixpoint first_by {A} (le : A -> A -> bool) (rows : list A) : option A :=
  match rows with
  | [] => None
  | x :: rows' =>
      match first_by le rows' with
      | None => Some x
      | Some y => if le x y then Some x else Some y
      end
  end.

(** [fetchUserRole(userId)] when the queries succeed: the role the client
    keeps in its state. [.single()] on no row gives PGRST116 and no data. *)
Definition fetchUserRole (tbl : list user_role) (userId : uuid) : string :=
  match first_by created_desc_le (filter (active_role_of userId) tbl) with
  | Some roleData =>
      if (ur_role roleData =? "")%string then "citizen"%string else ur_role roleData
  | None => "citizen"%string
  end.

(** [isOfficer] and [isAdmin] *)
Definition isOfficer (role : string) : bool :=
  (role =? "ward_officer")%string || (role =? "dept_admin")%string
  || (role =? "city_admin")%string.

Definition isAdmin (role : string) : bool :=
  (role =? "dept_admin")%string || (role =? "city_admin")%string.

(** The USING clause of "Users can update reports based on role". *)
Definition update_policy (tbl : list user_role) (auth_uid : uuid)
    (report : civic_report) : bool :=
  (auth_uid =? cr_user_id report)%string
  || user_has_role tbl (Some auth_uid) "ward_officer"
  || user_has_role tbl (Some auth_uid) "dept_admin"
  || user_has_role tbl (Some auth_uid) "city_admin".

(** The USING clause of "Officers can delete reports". *)
Definition delete_policy (tbl : list user_role) (auth_uid : uuid) : bool :=
  user_has_role tbl (Some auth_uid) "dept_admin"
  || user_has_role tbl (Some auth_uid) "city_admin".

(** ** ReportForm.tsx: the rate limit around the form *)

(** [checkRateLimit()] at instant [now] when the rpc answers: the table
    after the call and the new [rateLimitInfo], of which only [allowed] is
    read ([None] is [null]). *)
Definition checkRateLimit
    (now : timestamptz) (tbl : list user_rate_limit) (user : option uuid)
    (rateLimitInfo : option bool) : list user_rate_limit * option bool :=
  match user with
  | None => (tbl, rateLimitInfo)
  | Some u =>
      let '(tbl', data) := check_and_update_rate_limit now tbl u in
      (tbl', Some (rl_is_allowed data))
  end.

(** [rateLimitInfo && !rateLimitInfo.allowed] replaces the form by the
    limit notice. *)
Definition form_shown (rateLimitInfo : option bool) : bool :=
  match rateLimitInfo with
  | Some false => false
  | _ => true
  end.

(** What happens to the mounted component: the effect that runs
    [checkRateLimit] on mount, and a submission that went through, which
    ends with [await checkRateLimit()]. *)
Inductive rate_event :=
  | RlMount (now : timestamptz)
  | RlSubmitted (now : timestamptz).

Definition rate_event_time (ev : rate_event) : timestamptz :=
  match ev with RlMount now => now | RlSubmitted now => now end.

(** The rate-limit table, [rateLimitInfo] and the number of reports
    submitted so far. A submission needs the form on screen and a user. *)
Definition rate_session_step (user : option uuid)
    (s : list user_rate_limit * option bool * Z) (ev : rate_event)
    : list user_rate_limit * option bool * Z :=
  let '(tbl, rateLimitInfo, submitted) := s in
  match ev with
  | RlMount now =>
      let '(tbl', info') := checkRateLimit now tbl user rateLimitInfo in
      (tbl', info', submitted)
  | RlSubmitted now =>
      match user with
      | Some _ =>
          if form_shown rateLimitInfo
          then
            let '(tbl', info') := checkRateLimit now tbl user rateLimitInfo in
            (tbl', info', submitted + 1)
          else s
      | None => s
      end
  end.

Definition rate_session (user : option uuid)
    (s : list user_rate_limit * option bool * Z) (evs : list rate_event)
    : list user_rate_limit * option bool * Z :=
  fold_left (rate_session_step user) evs s.

(** ** Citizen feedback *)

(** A row of [citizen_feedback] (the columns the list writes, the text
    apart). *)
Record citizen_feedback := mk_citizen_feedback {
  fb_report_id : uuid;
  fb_user_id : uuid;
  fb_rating : option Z;
  fb_is_satisfied : option bool
}.

(** [CHECK (rating >= 1 AND rating <= 5)]; a NULL passes. *)
Definition rating_check (rating : option Z) : bool :=
  match rating with
  | Some n => (1 <=? n) && (n <=? 5)
  | None => true
  end.

(** The WITH CHECK of "Users can create feedback for own reports". *)
Definition feedback_insert_policy (reports : list civic_report) (auth_uid : uuid)
    (NEW : citizen_feedback) : bool :=
  (auth_uid =? fb_user_id NEW)%string
  && existsb (fun r => (cr_id r =? fb_report_id NEW)%string
                       && (cr_user_id r =? auth_uid)%string) reports.

(** [INSERT INTO citizen_feedback] by [auth_uid]: the new table when the
    row passes the policy, the CHECK, the foreign key to [civic_reports] and
    [UNIQUE(report_id)], [None] when any of them refuses it. *)
Definition insert_citizen_feedback (reports : list civic_report) (auth_uid : uuid)
    (tbl : list citizen_feedback) (NEW : citizen_feedback)
    : option (list citizen_feedback) :=
  if feedback_insert_policy reports auth_uid NEW
     && rating_check (fb_rating NEW)
     && has_id reports (fb_report_id NEW)
     && negb (existsb (fun f => (fb_report_id f =? fb_report_id NEW)%string) tbl)
  then Some (tbl ++ [NEW])
  else None.

(** [handleSubmitFeedback(reportId)] with the component state: the
    feedback table afterwards. A refused insert is swallowed by the
    handler. *)
Definition handleSubmitFeedback (reports : list civic_report)
    (tbl : list citizen_feedback) (user : option uuid)
    (feedbackRating : Z) (feedbackSatisfied : option bool) (reportId : uuid)
    : list citizen_feedback :=
  match user with
  | Some u =>
      if feedbackRating =? 0 then tbl
      else
        match insert_citizen_feedback reports u tbl
                (mk_citizen_feedback reportId u (Some feedbackRating)
                   feedbackSatisfied) with
        | Some tbl' => tbl'
        | None => tbl
        end
  | None => tbl
  end.

(* ================================================================= *)
(** * Part II: properties                                             *)
(* ================================================================= *)

(** ** Priority scorer *)

(** A row is an active rule for an issue type. *)
Definition active_rule_for (p_issue_type : string) (r : priority_rule) : Prop :=
  pr_factor_type r = "issue_type"%string
  /\ pr_factor_value r = p_issue_type
  /\ pr_is_active r = Some true.

(** [UNIQUE(factor_type, factor_value)] *)
Definition priority_rules_unique (rules : list priority_rule) : Prop :=
  forall r1 r2, In r1 rules -> In r2 rules ->
    pr_factor_type r1 = pr_factor_type r2 ->
    pr_factor_value r1 = pr_factor_value r2 -> r1 = r2.

Lemma rule_matches_iff p_issue_type r :
  rule_matches p_issue_type r = true <-> active_rule_for p_issue_type r.
Proof.
  unfold rule_matches, active_rule_for.
  rewrite !andb_true_iff, !String.eqb_eq.
  destruct (pr_is_active r) as [[|]|]; intuition congruence.
Qed.

Lemma select_priority_weight_none rules p_issue_type :
  select_priority_weight rules p_issue_type = None <->
  (forall r, In r rules -> ~ active_rule_for p_issue_type r).
Proof.
  unfold select_priority_weight.
  destruct (find (rule_matches p_issue_type) rules) as [r0|] eqn:E; simpl.
  - split; [discriminate|].
    intros H. apply find_some in E as [Hin Hm].
    apply rule_matches_iff in Hm. elim (H r0 Hin Hm).
  - split; [|reflexivity].
    intros _ r Hin Hr. apply rule_matches_iff in Hr.
    pose proof (find_none _ _ E r Hin). congruence.
Qed.

Lemma select_priority_weight_some rules p_issue_type r :
  priority_rules_unique rules ->
  In r rules -> active_rule_for p_issue_type r ->
  select_priority_weight rules p_issue_type = Some (pr_priority_weight r).
Proof.
  intros U Hin Hr. unfold select_priority_weight.
  destruct (find (rule_matches p_issue_type) rules) as [r0|] eqn:E; simpl.
  - apply find_some in E as [Hin0 Hm0]. apply rule_matches_iff in Hm0.
    destruct Hr as (a & b & _), Hm0 as (a0 & b0 & _).
    rewrite (U r0 r Hin0 Hin); congruence.
  - apply rule_matches_iff in Hr.
    pose proof (find_none _ _ E r Hin). congruence.
Qed.

Lemma select_priority_weight_bounds rules p_issue_type w :
  (forall r, In r rules -> priority_weight_check r) ->
  select_priority_weight rules p_issue_type = Some w ->
  (0 <= w <= 1)%Q.
Proof.
  intros C. unfold select_priority_weight.
  destruct (find (rule_matches p_issue_type) rules) as [r0|] eqn:E; simpl; [|discriminate].
  intros [= <-]. apply find_some in E as [Hin _]. exact (C r0 Hin).
Qed.

Lemma base_score_bounds rules p_issue_type :
  (forall r, In r rules -> priority_weight_check r) ->
  (0 <= COALESCE (select_priority_weight rules p_issue_type) 0.5 <= 1)%Q.
Proof.
  intros C.
  destruct (select_priority_weight rules p_issue_type) as [w|] eqn:E; simpl.
  - eapply select_priority_weight_bounds; eauto.
  - split; discriminate.
Qed.

Lemma time_multiplier_cases p_issue_type hour :
  time_multiplier p_issue_type hour = 1.3%Q \/ time_multiplier p_issue_type hour = 1.0%Q.
Proof.
  unfold time_multiplier.
  destruct ((p_issue_type =? "streetlight")%string && not_between_6_and_18 hour); auto.
Qed.

Lemma LEAST_some_cases x b :
  (x <= b /\ LEAST (Some x) b = x)%Q \/ (b < x /\ LEAST (Some x) b = b)%Q.
Proof.
  unfold LEAST. destruct (Qle_bool x b) eqn:E.
  - left. split; [now apply Qle_bool_iff|reflexivity].
  - right. split; [|reflexivity].
    apply Qnot_le_lt. intros H. apply Qle_bool_iff in H. congruence.
Qed.

Lemma score_to_priority_spec s :
  ((0.75 <= s)%Q -> score_to_priority s = critical)
  /\ ((0.55 <= s)%Q /\ (s < 0.75)%Q -> score_to_priority s = high)
  /\ ((0.35 <= s)%Q /\ (s < 0.55)%Q -> score_to_priority s = medium)
  /\ ((s < 0.35)%Q -> score_to_priority s = low).
Proof.
  unfold score_to_priority.
  destruct (Qle_bool 0.75 s) eqn:E1;
  destruct (Qle_bool 0.55 s) eqn:E2;
  destruct (Qle_bool 0.35 s) eqn:E3;
  try apply Qle_bool_iff in E1; try apply Qle_bool_iff in E2;
  try apply Qle_bool_iff in E3;
  repeat split; intros; try reflexivity; exfalso;
  repeat match goal with
         | H : Qle_bool ?a ?b = false |- _ =>
             assert (b < a)%Q by
               (apply Qnot_le_lt; intros X; apply Qle_bool_iff in X; congruence);
             clear H
         end; Lqa.lra.
Qed.

Lemma default_priority_rules_check :
  forall r, In r default_priority_rules -> priority_weight_check r.
Proof.
  intros r H. simpl in H.
  repeat (destruct H as [<-|H]; [split; discriminate|]). elim H.
Qed.

Lemma default_priority_rules_unique : priority_rules_unique default_priority_rules.
Proof.
  intros r1 r2 H1 H2. simpl in H1, H2.
  repeat (destruct H1 as [<-|H1]);
    try (elim H1);
    repeat (destruct H2 as [<-|H2]); try (elim H2);
    simpl; intros; try reflexivity; discriminate.
Qed.

(** C1. With the table constraints of [priority_rules] in force and a
    confidence in [0,1], the scorer returns the base weight (the active
    rule's weight, 0.5 when the issue type has none) times the time
    multiplier times (0.5 + confidence * 0.5), capped at 1.0; the score lies
    in [0,1]; and the tier is critical from 0.75, high from 0.55, medium
    from 0.35 and low below. *)
Theorem calculate_priority_score_spec :
  forall rules now p_issue_type p_lat p_lng c,
    (forall r, In r rules -> priority_weight_check r) ->
    priority_rules_unique rules ->
    (0 <= c <= 1)%Q ->
    exists baseWeight : Q,
      ((forall r, In r rules -> ~ active_rule_for p_issue_type r) ->
       baseWeight = 0.5%Q)
      /\ (forall r, In r rules -> active_rule_for p_issue_type r ->
          baseWeight = pr_priority_weight r)
      /\ let raw :=
           (baseWeight * time_multiplier p_issue_type (extract_hour now)
            * (0.5 + c * 0.5))%Q in
         let result :=
           calculate_priority_score rules now p_issue_type p_lat p_lng (Some c) in
         ((raw <= 1)%Q -> fst result == raw)
         /\ ((1 <= raw)%Q -> fst result == 1)
         /\ (0 <= fst result <= 1)%Q
         /\ ((0.75 <= fst result)%Q -> snd result = critical)
         /\ ((0.55 <= fst result)%Q /\ (fst result < 0.75)%Q -> snd result = high)
         /\ ((0.35 <= fst result)%Q /\ (fst result < 0.55)%Q -> snd result = medium)
         /\ ((fst result < 0.35)%Q -> snd result = low).
Proof.
  intros rules now ty p_lat p_lng c Hcheck Huniq Hc.
  exists (COALESCE (select_priority_weight rules ty) 0.5%Q).
  split; [|split].
  - intros Hnone. apply select_priority_weight_none in Hnone.
    now rewrite Hnone.
  - intros r Hin Hr.
    now rewrite (select_priority_weight_some rules ty r Huniq Hin Hr).
  - cbv zeta. unfold calculate_priority_score. cbn [fst snd option_map].
    pose proof (base_score_bounds rules ty Hcheck) as Hb.
    set (b := COALESCE (select_priority_weight rules ty) 0.5%Q) in *.
    set (m := time_multiplier ty (extract_hour now)).
    assert (Hraw : (0 <= b * m * (0.5 + c * 0.5))%Q).
    { apply Qmult_le_0_compat; [apply Qmult_le_0_compat|]; [tauto| |Lqa.lra].
      subst m. destruct (time_multiplier_cases ty (extract_hour now)) as [-> | ->];
        discriminate. }
    destruct (LEAST_some_cases (b * m * (0.5 + c * 0.5)) 1.0) as [[Hle ->]|[Hlt ->]].
    + pose proof (score_to_priority_spec (b * m * (0.5 + c * 0.5))) as (T1 & T2 & T3 & T4).
      repeat split; auto; try Lqa.lra.
    + pose proof (score_to_priority_spec 1.0) as (T1 & T2 & T3 & T4).
      repeat split; auto; try Lqa.lra; try discriminate.
Qed.

Lemma calculate_priority_score_spec_witness :
  exists baseWeight : Q,
    ((forall r, In r default_priority_rules -> ~ active_rule_for "pothole" r) ->
     baseWeight = 0.5%Q)
    /\ (forall r, In r default_priority_rules -> active_rule_for "pothole" r ->
        baseWeight = pr_priority_weight r)
    /\ let raw :=
         (baseWeight * time_multiplier "pothole" (extract_hour 0%Z)
          * (0.5 + 1 * 0.5))%Q in
       let result :=
         calculate_priority_score default_priority_rules 0 "pothole" None None (Some 1%Q) in
       ((raw <= 1)%Q -> fst result == raw)
       /\ ((1 <= raw)%Q -> fst result == 1)
       /\ (0 <= fst result <= 1)%Q
       /\ ((0.75 <= fst result)%Q -> snd result = critical)
       /\ ((0.55 <= fst result)%Q /\ (fst result < 0.75)%Q -> snd result = high)
       /\ ((0.35 <= fst result)%Q /\ (fst result < 0.55)%Q -> snd result = medium)
       /\ ((fst result < 0.35)%Q -> snd result = low).
Proof.
  apply (calculate_priority_score_spec default_priority_rules 0 "pothole" None None 1%Q).
  - exact default_priority_rules_check.
  - exact default_priority_rules_unique.
  - split; discriminate.
Defined.

(** C8, as stated, fails at hour 18: the hour lies outside [6,18), yet the
    multiplier of a streetlight report is 1.0 there. *)
Lemma time_multiplier_streetlight_hour_18 :
  time_multiplier "streetlight" 18 = 1.0%Q /\ ~ (6 <= 18 < 18).
Proof. split; [reflexivity|lia]. Qed.

Lemma time_multiplier_night p_issue_type h :
  p_issue_type = "streetlight"%string -> h < 6 \/ 18 < h ->
  time_multiplier p_issue_type h = 1.3%Q.
Proof.
  intros -> Hh. unfold time_multiplier, not_between_6_and_18. simpl.
  destruct (6 <=? h) eqn:E1, (h <=? 18) eqn:E2; simpl; try reflexivity.
  apply Z.leb_le in E1, E2. lia.
Qed.

Lemma time_multiplier_day p_issue_type h :
  ~ (p_issue_type = "streetlight"%string /\ (h < 6 \/ 18 < h)) ->
  time_multiplier p_issue_type h = 1.0%Q.
Proof.
  intros Hn. unfold time_multiplier, not_between_6_and_18.
  destruct (String.eqb_spec p_issue_type "streetlight") as [->|]; simpl; [|reflexivity].
  destruct (6 <=? h) eqn:E1, (h <=? 18) eqn:E2; simpl; try reflexivity;
    exfalso; apply Hn; split; try reflexivity;
    try apply Z.leb_gt in E1; try apply Z.leb_gt in E2; lia.
Qed.

(** C8, amended. The multiplier is 1.3 exactly when the issue type is
    "streetlight" and the hour is below 6 or above 18 (BETWEEN 6 AND 18
    includes hour 18), and 1.0 otherwise. Consequently, whenever the base
    weight of "streetlight" lies strictly between 0 and 1, as the seeded 0.8
    does, a streetlight report with confidence 1.0 scores strictly higher at
    hour 2 than at hour 14. *)
Theorem time_multiplier_spec :
  (forall p_issue_type h,
     (p_issue_type = "streetlight"%string /\ (h < 6 \/ 18 < h) ->
      time_multiplier p_issue_type h = 1.3%Q)
     /\ (~ (p_issue_type = "streetlight"%string /\ (h < 6 \/ 18 < h)) ->
         time_multiplier p_issue_type h = 1.0%Q))
  /\ (forall rules night day p_lat p_lng,
        extract_hour night = 2 -> extract_hour day = 14 ->
        (0 < COALESCE (select_priority_weight rules "streetlight") 0.5)%Q ->
        (COALESCE (select_priority_weight rules "streetlight") 0.5 < 1)%Q ->
        (fst (calculate_priority_score rules day "streetlight" p_lat p_lng (Some 1%Q))
         < fst (calculate_priority_score rules night "streetlight" p_lat p_lng (Some 1%Q)))%Q).
Proof.
  split.
  - intros ty h. split.
    + intros [Hs Hh]. now apply time_multiplier_night.
    + apply time_multiplier_day.
  - intros rules night day p_lat p_lng Hn Hd Hb0 Hb1.
    unfold calculate_priority_score. cbn [fst option_map].
    rewrite Hn, Hd.
    rewrite (time_multiplier_night "streetlight" 2) by (auto; lia).
    rewrite (time_multiplier_day "streetlight" 14) by (intros [_ H]; lia).
    set (b := COALESCE (select_priority_weight rules "streetlight") 0.5%Q) in *.
    destruct (LEAST_some_cases (b * 1.0 * (0.5 + 1 * 0.5)) 1.0) as [[Hd1 ->]|[Hd1 ->]];
    destruct (LEAST_some_cases (b * 1.3 * (0.5 + 1 * 0.5)) 1.0) as [[Hn1 ->]|[Hn1 ->]];
      Lqa.lra.
Qed.

Lemma time_multiplier_spec_witness :
  (fst (calculate_priority_score default_priority_rules (14 * usec_per_hour)%Z
          "streetlight" None None (Some 1%Q))
   < fst (calculate_priority_score default_priority_rules (2 * usec_per_hour)%Z
            "streetlight" None None (Some 1%Q)))%Q.
Proof.
  apply (proj2 time_multiplier_spec); reflexivity.
Defined.

(** ** SLA calculator *)

(** [priority text NOT NULL UNIQUE] on [sla_config]. *)
Definition sla_config_unique (sla : list sla_config) : Prop :=
  forall c1 c2, In c1 sla -> In c2 sla -> sla_priority c1 = sla_priority c2 -> c1 = c2.

Lemma default_sla_config_unique : sla_config_unique default_sla_config.
Proof.
  intros c1 c2 H1 H2. simpl in H1, H2.
  repeat (destruct H1 as [<-|H1]);
    try (elim H1);
    repeat (destruct H2 as [<-|H2]); try (elim H2);
    simpl; intros; try reflexivity; discriminate.
Qed.

Lemma select_sla_config_some sla p cfg :
  sla_config_unique sla -> In cfg sla -> sla_priority cfg = priority_text p ->
  select_sla_config sla p = Some cfg.
Proof.
  intros U Hin Hp. unfold select_sla_config.
  destruct (find _ sla) as [c0|] eqn:E.
  - apply find_some in E as [Hin0 Hm0]. apply String.eqb_eq in Hm0.
    f_equal. apply U; congruence.
  - pose proof (find_none _ _ E cfg Hin) as Hn. simpl in Hn.
    apply String.eqb_neq in Hn. congruence.
Qed.

Lemma select_sla_config_none sla p :
  (forall cfg, In cfg sla -> sla_priority cfg <> priority_text p) ->
  select_sla_config sla p = None.
Proof.
  intros Hn. unfold select_sla_config.
  destruct (find _ sla) as [c0|] eqn:E; [|reflexivity].
  apply find_some in E as [Hin0 Hm0]. apply String.eqb_eq in Hm0.
  elim (Hn c0 Hin0 Hm0).
Qed.

(** The row after the priority step of the trigger. *)
Definition with_computed_priority
    (rules : list priority_rule) (now : timestamptz) (NEW : civic_report) : civic_report :=
  match cr_priority_score NEW with
  | None =>
      let v := calculate_priority_score rules now (cr_issue_type NEW)
                 (cr_latitude NEW) (cr_longitude NEW) (Some (cr_ai_confidence NEW)) in
      set_priority NEW (snd v) (Some (fst v))
  | Some _ => NEW
  end.

Lemma set_sla_due_date_unfold rules sla now NEW :
  set_sla_due_date rules sla now NEW =
  let N := with_computed_priority rules now NEW in
  match select_resolution_time_hours sla (cr_priority N) with
  | Some h => set_sla_due_at N (Some (cr_created_at N + hours_interval h))
  | None => N
  end.
Proof. reflexivity. Qed.

Lemma with_computed_priority_keeps rules now NEW :
  let N := with_computed_priority rules now NEW in
  cr_created_at N = cr_created_at NEW
  /\ cr_sla_due_at N = cr_sla_due_at NEW
  /\ cr_id N = cr_id NEW
  /\ cr_issue_type N = cr_issue_type NEW
  /\ cr_ai_confidence N = cr_ai_confidence NEW
  /\ cr_duplicate_of N = cr_duplicate_of NEW
  /\ cr_is_duplicate N = cr_is_duplicate NEW
  /\ (cr_priority_score NEW <> None -> N = NEW).
Proof.
  unfold with_computed_priority.
  destruct (cr_priority_score NEW); simpl; repeat split; congruence.
Qed.

Lemma set_sla_due_date_priority rules sla now NEW :
  cr_priority (set_sla_due_date rules sla now NEW)
  = cr_priority (with_computed_priority rules now NEW).
Proof.
  rewrite set_sla_due_date_unfold. cbv zeta.
  destruct (select_resolution_time_hours sla _); reflexivity.
Qed.

(** C2. The trigger that runs once, before the insert, sets [sla_due_at] to
    the creation instant plus the tier's [resolution_time_hours] when
    [sla_config] has a row for the (final) tier of the report. When it has
    none, [sla_due_at] keeps the inserted value (NULL from the form), and
    the insert of a row that meets the table constraints succeeds all the
    same. No later update goes through this trigger: the update trigger and
    the two update handlers leave [sla_due_at] as it is. *)
Theorem set_sla_due_date_spec :
  forall rules sla now NEW,
    sla_config_unique sla ->
    let row := set_sla_due_date rules sla now NEW in
    (cr_priority_score NEW <> None -> cr_priority row = cr_priority NEW)
    /\ (forall cfg, In cfg sla -> sla_priority cfg = priority_text (cr_priority row) ->
        cr_sla_due_at row
        = Some (cr_created_at NEW + sla_resolution_time_hours cfg * usec_per_hour))
    /\ ((forall cfg, In cfg sla -> sla_priority cfg <> priority_text (cr_priority row)) ->
        cr_sla_due_at row = cr_sla_due_at NEW
        /\ forall db,
             issue_type_check (cr_issue_type NEW) = true ->
             ai_confidence_check (cr_ai_confidence NEW) = true ->
             has_id db (cr_id NEW) = false ->
             (forall d, cr_duplicate_of NEW = Some d -> has_id db d = true) ->
             insert_civic_report rules sla now db NEW = inr (db ++ [row]))
    /\ (forall t r, cr_sla_due_at (update_updated_at_column t r) = cr_sla_due_at r)
    /\ (forall t db user s i report,
          map cr_sla_due_at (handleUpdateReport t db user s i report)
          = map cr_sla_due_at db)
    /\ (forall t db user i,
          map cr_sla_due_at (handleReopenReport t db user i) = map cr_sla_due_at db).
Proof.
  intros rules sla now NEW U row.
  pose proof (with_computed_priority_keeps rules now NEW) as K. cbv zeta in K.
  destruct K as (Kc & Ks & Kid & Kty & Kai & Kdo & Kdu & Ksame).
  assert (Hprio : cr_priority row = cr_priority (with_computed_priority rules now NEW))
    by apply set_sla_due_date_priority.
  split; [|split; [|split; [|split; [|split]]]].
  - intros Hs. rewrite Hprio, (Ksame Hs). reflexivity.
  - intros cfg Hin Hp. rewrite Hprio in Hp.
    subst row. rewrite set_sla_due_date_unfold. cbv zeta.
    unfold select_resolution_time_hours.
    rewrite (select_sla_config_some sla _ cfg U Hin Hp). simpl.
    unfold hours_interval. now rewrite Kc.
  - intros Hnone. rewrite Hprio in Hnone.
    assert (E : row = with_computed_priority rules now NEW).
    { subst row. rewrite set_sla_due_date_unfold. cbv zeta.
      unfold select_resolution_time_hours.
      now rewrite (select_sla_config_none sla _ Hnone). }
    split; [now rewrite E|].
    intros db Hty Hai Hid Hfk. unfold insert_civic_report. fold row.
    rewrite E, Kty, Kai, Kid, Kdo, Hty, Hai, Hid. simpl.
    destruct (cr_duplicate_of NEW) as [d|] eqn:Ed; [|reflexivity].
    unfold has_id in *. rewrite existsb_app, (Hfk d eq_refl). reflexivity.
  - reflexivity.
  - intros t db user s i report. unfold handleUpdateReport.
    destruct user as [u|], s as [st|]; try reflexivity; unfold update_civic_report;
      rewrite map_map; apply map_ext; intros x;
      destruct (cr_id x =? i)%string; try reflexivity; destruct st; reflexivity.
  - intros t db user i. unfold handleReopenReport.
    destruct user; try reflexivity. unfold update_civic_report.
    rewrite map_map. apply map_ext. intros r.
    destruct (cr_id r =? i)%string; reflexivity.
Qed.

(** A report as the form inserts it: tier high, score given. *)
Definition sample_high_report : civic_report :=
  mk_civic_report "r1" "u1" "pothole" "Pothole on Main St"
    (Some 0%Q) (Some 0%Q) pending high (Some 0.7%Q) 0%Q None 0 false None 0 None
    (5 * usec_per_hour) (5 * usec_per_hour).

Lemma set_sla_due_date_spec_witness :
  cr_sla_due_at
    (set_sla_due_date default_priority_rules default_sla_config
       (5 * usec_per_hour) sample_high_report)
  = Some (cr_created_at sample_high_report + 72 * usec_per_hour).
Proof.
  apply (proj1 (proj2 (set_sla_due_date_spec default_priority_rules
                         default_sla_config (5 * usec_per_hour)
                         sample_high_report default_sla_config_unique))
           (mk_sla_config "high" 8 72 24 48)).
  - simpl. auto.
  - reflexivity.
Defined.

(** ** Rate limiter *)

Lemma same_hour_same_day t1 t2 :
  date_trunc_hour t1 = date_trunc_hour t2 -> current_date t1 = current_date t2.
Proof.
  unfold date_trunc_hour, current_date, usec_per_day.
  intros H.
  assert (Hq : t1 / usec_per_hour = t2 / usec_per_hour).
  { assert (0 < usec_per_hour) by reflexivity.
    pose proof (Z.div_mod t1 usec_per_hour).
    pose proof (Z.div_mod t2 usec_per_hour).
    nia. }
  assert (E : forall t, t / (24 * usec_per_hour) = t / usec_per_hour / 24).
  { intros t. rewrite (Z.mul_comm 24). symmetry. apply Z.div_div; [discriminate|reflexivity]. }
  now rewrite !E, Hq.
Qed.

Lemma select_rate_limit_app_fresh tbl p_user_id row :
  select_rate_limit tbl p_user_id = None ->
  url_user_id row = p_user_id ->
  select_rate_limit (tbl ++ [row]) p_user_id = Some row.
Proof.
  unfold select_rate_limit. intros Hn Hid.
  induction tbl as [|x tbl IH]; simpl in *.
  - rewrite Hid, String.eqb_refl. reflexivity.
  - destruct (url_user_id x =? p_user_id)%string; [discriminate|auto].
Qed.

Lemma select_update_rate_limit tbl p_user_id f row :
  (forall r, url_user_id (f r) = url_user_id r) ->
  select_rate_limit tbl p_user_id = Some row ->
  select_rate_limit (update_rate_limit tbl p_user_id f) p_user_id = Some (f row).
Proof.
  unfold select_rate_limit, update_rate_limit. intros Hf.
  induction tbl as [|x tbl IH]; simpl; [discriminate|].
  destruct (url_user_id x =? p_user_id)%string eqn:E.
  - intros [= ->]. rewrite Hf, E. reflexivity.
  - rewrite E. auto.
Qed.

(** What a call does to the caller's own row: the per-submitter state
    machine behind the table operations. *)
Definition rate_limit_row_step (now : timestamptz) (row : user_rate_limit)
    : user_rate_limit * rate_limit_result :=
  if url_is_blocked row
     && match url_blocked_until row with None => true | Some u => now <? u end
  then (row, rl_blocked "User is blocked" (url_blocked_until row))
  else
    let row1 := if url_daily_reset_at row <? current_date now
                then reset_daily (current_date now) row else row in
    let row2 := if url_hourly_reset_at row1 <? date_trunc_hour now
                then reset_hourly (date_trunc_hour now) row1 else row1 in
    let '(v_max_hourly, v_max_daily) :=
      if url_is_trusted row2 then (10, 50) else (3, 10) in
    if v_max_hourly <=? url_reports_this_hour row2
    then (row2, rl_hourly_limit "Hourly limit reached"
                  (date_trunc_hour now + hours_interval 1))
    else if v_max_daily <=? url_reports_today row2
    then (row2, rl_daily_limit "Daily limit reached" (current_date now + 1))
    else (bump_counters now row2,
          rl_allowed (v_max_hourly - url_reports_this_hour row2 - 1)
                     (v_max_daily - url_reports_today row2 - 1)).

Lemma check_and_update_existing now tbl p_user_id row :
  select_rate_limit tbl p_user_id = Some row ->
  select_rate_limit (fst (check_and_update_rate_limit now tbl p_user_id)) p_user_id
    = Some (fst (rate_limit_row_step now row))
  /\ snd (check_and_update_rate_limit now tbl p_user_id)
     = snd (rate_limit_row_step now row).
Proof.
  intros Hsel. unfold check_and_update_rate_limit, rate_limit_row_step.
  rewrite Hsel.
  destruct (url_is_blocked row && _); [split; [exact Hsel|reflexivity]|].
  destruct (url_daily_reset_at row <? current_date now) eqn:Ed;
  [ pose proof (select_update_rate_limit tbl p_user_id (reset_daily (current_date now))
                  row (fun _ => eq_refl) Hsel) as Hsel1
  | pose proof Hsel as Hsel1 ];
  cbn [url_hourly_reset_at with_reports_today reset_daily];
  (destruct (url_hourly_reset_at row <? date_trunc_hour now) eqn:Eh;
   [ pose proof (select_update_rate_limit _ p_user_id (reset_hourly (date_trunc_hour now))
                   _ (fun _ => eq_refl) Hsel1) as Hsel2
   | pose proof Hsel1 as Hsel2 ]);
  cbn [url_is_trusted with_reports_this_hour with_reports_today reset_hourly reset_daily
       url_reports_this_hour url_reports_today];
  destruct (url_is_trusted row);
  cbn [url_is_trusted with_reports_this_hour with_reports_today reset_hourly reset_daily
       url_reports_this_hour url_reports_today];
  repeat match goal with
         | |- context [if ?b then _ else _] => destruct b
         end;
  cbn [fst snd]; split; try reflexivity; try exact Hsel2;
  apply (select_update_rate_limit _ p_user_id (bump_counters now) _ (fun _ => eq_refl) Hsel2).
Qed.

(** Successive calls seen from the caller's row. *)
Fixpoint rate_limit_row_calls (row : user_rate_limit) (times : list timestamptz)
    : user_rate_limit * list rate_limit_result :=
  match times with
  | [] => (row, [])
  | t :: times' =>
      let '(row1, r) := rate_limit_row_step t row in
      let '(row2, rs) := rate_limit_row_calls row1 times' in
      (row2, r :: rs)
  end.

Lemma rate_limit_calls_existing times :
  forall tbl p_user_id row,
    select_rate_limit tbl p_user_id = Some row ->
    select_rate_limit (fst (rate_limit_calls tbl p_user_id times)) p_user_id
      = Some (fst (rate_limit_row_calls row times))
    /\ snd (rate_limit_calls tbl p_user_id times)
       = snd (rate_limit_row_calls row times).
Proof.
  induction times as [|t times IH]; intros tbl p_user_id row Hsel; simpl.
  - auto.
  - destruct (check_and_update_existing t tbl p_user_id row Hsel) as [H1 H2].
    destruct (check_and_update_rate_limit t tbl p_user_id) as [tbl1 r1].
    destruct (rate_limit_row_step t row) as [row1 r1'].
    simpl in H1, H2. subst r1'.
    destruct (IH tbl1 p_user_id row1 H1) as [H3 H4].
    destruct (rate_limit_calls tbl1 p_user_id times) as [tbl2 rs].
    destruct (rate_limit_row_calls row1 times) as [row2 rs'].
    simpl in *. subst. auto.
Qed.

Lemma rate_limit_calls_first t times tbl p_user_id :
  select_rate_limit tbl p_user_id = None ->
  select_rate_limit (fst (rate_limit_calls tbl p_user_id (t :: times))) p_user_id
    = Some (fst (rate_limit_row_calls (default_rate_limit t p_user_id) times))
  /\ snd (rate_limit_calls tbl p_user_id (t :: times))
     = rl_allowed 3 10 :: snd (rate_limit_row_calls (default_rate_limit t p_user_id) times).
Proof.
  intros Hn.
  assert (E : check_and_update_rate_limit t tbl p_user_id
              = (tbl ++ [default_rate_limit t p_user_id], rl_allowed 3 10)).
  { unfold check_and_update_rate_limit. now rewrite Hn. }
  simpl. rewrite E.
  pose proof (select_rate_limit_app_fresh tbl p_user_id
                (default_rate_limit t p_user_id) Hn eq_refl) as Hsel.
  destruct (rate_limit_calls_existing times _ _ _ Hsel) as [H1 H2].
  destruct (rate_limit_calls _ p_user_id times) as [tbl2 rs].
  simpl in *. now subst.
Qed.

(** One call in the hour and on the day the row is stamped with, by a
    submitter who is neither blocked nor trusted. *)
Lemma rate_limit_row_step_same_hour now row :
  url_is_blocked row = false -> url_is_trusted row = false ->
  url_daily_reset_at row = current_date now ->
  url_hourly_reset_at row = date_trunc_hour now ->
  rate_limit_row_step now row =
  if 3 <=? url_reports_this_hour row
  then (row, rl_hourly_limit "Hourly limit reached"
               (date_trunc_hour now + hours_interval 1))
  else if 10 <=? url_reports_today row
  then (row, rl_daily_limit "Daily limit reached" (current_date now + 1))
  else (bump_counters now row,
        rl_allowed (3 - url_reports_this_hour row - 1) (10 - url_reports_today row - 1)).
Proof.
  intros Hb Ht Hd Hh. unfold rate_limit_row_step.
  rewrite Hb, Hd, Z.ltb_irrefl, Hh, Z.ltb_irrefl, Ht. reflexivity.
Qed.

(** The first call of a later hour, the daily counter being below its
    limit. *)
Lemma rate_limit_row_step_next_hour now row :
  url_is_blocked row = false -> url_is_trusted row = false ->
  url_hourly_reset_at row < date_trunc_hour now ->
  0 <= url_reports_today row < 10 ->
  rl_is_allowed (snd (rate_limit_row_step now row)) = true
  /\ url_reports_this_hour (fst (rate_limit_row_step now row)) = 1.
Proof.
  intros Hb Ht Hh Hc. unfold rate_limit_row_step. rewrite Hb. simpl.
  destruct (url_daily_reset_at row <? current_date now);
    cbn [url_hourly_reset_at reset_daily];
    (destruct (url_hourly_reset_at row <? date_trunc_hour now) eqn:E;
     [|apply Z.ltb_ge in E; lia]);
    cbn [url_is_trusted reset_hourly reset_daily url_reports_this_hour url_reports_today];
    rewrite Ht; cbn [Z.leb Z.compare Pos.compare Pos.compare_cont].
  - split; reflexivity.
  - destruct (10 <=? url_reports_today row) eqn:E10; [apply Z.leb_le in E10; lia|].
    split; reflexivity.
Qed.

Ltac rate_limit_fields :=
  cbn [url_user_id url_reports_today url_reports_this_hour url_last_report_at
       url_daily_reset_at url_hourly_reset_at url_is_trusted url_is_blocked
       url_blocked_until default_rate_limit bump_counters fst snd
       Z.leb Z.compare Z.add Z.sub Z.opp Z.pos_sub Pos.compare Pos.compare_cont
       Pos.add Pos.succ Pos.pred_double Z.succ_double Z.pred_double Z.double].

Ltac same_hour_step :=
  rewrite rate_limit_row_step_same_hour;
  [ rate_limit_fields
  | reflexivity
  | reflexivity
  | rate_limit_fields; symmetry; apply same_hour_same_day; assumption
  | rate_limit_fields; symmetry; assumption ].

(** C5, what the code does. A submitter with no row makes calls in one
    hour: the first call only creates the row, with both counters at zero,
    so the first FOUR calls are allowed and the fifth is the one denied, with
    reason "Hourly limit reached". The first call of a later hour is allowed
    again and leaves the hourly counter at 1. *)
Theorem rate_limit_fresh_submitter :
  forall tbl p_user_id t1 t2 t3 t4 t5 t6,
    select_rate_limit tbl p_user_id = None ->
    date_trunc_hour t2 = date_trunc_hour t1 ->
    date_trunc_hour t3 = date_trunc_hour t1 ->
    date_trunc_hour t4 = date_trunc_hour t1 ->
    date_trunc_hour t5 = date_trunc_hour t1 ->
    date_trunc_hour t1 < date_trunc_hour t6 ->
    let out := rate_limit_calls tbl p_user_id [t1; t2; t3; t4; t5; t6] in
    (exists r6,
        snd out =
        [ rl_allowed 3 10; rl_allowed 2 9; rl_allowed 1 8; rl_allowed 0 7;
          rl_hourly_limit "Hourly limit reached" (date_trunc_hour t1 + hours_interval 1);
          r6 ]
        /\ rl_is_allowed r6 = true)
    /\ (exists row,
          select_rate_limit (fst out) p_user_id = Some row
          /\ url_reports_this_hour row = 1).
Proof.
  intros tbl p_user_id t1 t2 t3 t4 t5 t6 Hn H2 H3 H4 H5 H6 out.
  destruct (rate_limit_calls_first t1 [t2; t3; t4; t5; t6] tbl p_user_id Hn)
    as [Hrow Hres].
  fold out in Hrow, Hres. rewrite Hrow, Hres. clear Hrow Hres out.
  cbn [rate_limit_row_calls].
  do 4 same_hour_step.
  rewrite H5.
  set (row5 := bump_counters t4 (bump_counters t3
                 (bump_counters t2 (default_rate_limit t1 p_user_id)))).
  destruct (rate_limit_row_step_next_hour t6 row5) as [Ha Hc];
    try reflexivity.
  { subst row5. rate_limit_fields. exact H6. }
  { subst row5. rate_limit_fields. lia. }
  destruct (rate_limit_row_step t6 row5) as [row6 r6]. simpl in Ha, Hc.
  cbn [fst snd]. split.
  - exists r6. split; [reflexivity|exact Ha].
  - exists row6. split; [reflexivity|exact Hc].
Qed.

Lemma rate_limit_fresh_submitter_witness :
  map rl_is_allowed
    (snd (rate_limit_calls [] "u1" [0; 1; 2; 3; 4; usec_per_hour]))
  = [true; true; true; true; false; true].
Proof.
  pose proof (rate_limit_fresh_submitter [] "u1" 0 1 2 3 4 usec_per_hour
                eq_refl eq_refl eq_refl eq_refl eq_refl eq_refl) as H.
  cbv zeta in H. destruct H as [[r6 [E A]] _].
  unfold timestamptz in E. rewrite E. simpl. rewrite A. reflexivity.
Defined.

(** The path the first call misses: once the row exists, with the hourly
    counter at zero for the current hour, exactly three calls are allowed
    and the fourth is denied. *)
Lemma rate_limit_existing_row_three_calls :
  forall tbl p_user_id row t1 t2 t3 t4,
    select_rate_limit tbl p_user_id = Some row ->
    url_is_blocked row = false -> url_is_trusted row = false ->
    url_reports_this_hour row = 0 -> url_reports_today row = 0 ->
    url_hourly_reset_at row = date_trunc_hour t1 ->
    url_daily_reset_at row = current_date t1 ->
    date_trunc_hour t2 = date_trunc_hour t1 ->
    date_trunc_hour t3 = date_trunc_hour t1 ->
    date_trunc_hour t4 = date_trunc_hour t1 ->
    snd (rate_limit_calls tbl p_user_id [t1; t2; t3; t4]) =
    [ rl_allowed 2 9; rl_allowed 1 8; rl_allowed 0 7;
      rl_hourly_limit "Hourly limit reached" (date_trunc_hour t1 + hours_interval 1) ].
Proof.
  intros tbl p_user_id row t1 t2 t3 t4 Hsel Hb Ht Hh Hd Hhr Hdr H2 H3 H4.
  destruct (rate_limit_calls_existing [t1; t2; t3; t4] tbl p_user_id row Hsel)
    as [_ ->].
  pose proof (same_hour_same_day _ _ H2) as D2.
  pose proof (same_hour_same_day _ _ H3) as D3.
  pose proof (same_hour_same_day _ _ H4) as D4.
  cbn [rate_limit_row_calls].
  rewrite (rate_limit_row_step_same_hour t1 row) by assumption.
  rewrite Hh, Hd. rate_limit_fields.
  rewrite rate_limit_row_step_same_hour
    by (rate_limit_fields; congruence).
  rate_limit_fields. rewrite Hh, Hd. rate_limit_fields.
  rewrite rate_limit_row_step_same_hour
    by (rate_limit_fields; congruence).
  rate_limit_fields. rewrite Hh, Hd. rate_limit_fields.
  rewrite rate_limit_row_step_same_hour
    by (rate_limit_fields; congruence).
  rate_limit_fields. rewrite Hh, Hd. rate_limit_fields.
  now rewrite H4.
Qed.

(** ** Reopening a report *)

Lemma or_zero_id x : or_zero x = x.
Proof. unfold or_zero. destruct (Z.eqb_spec x 0); congruence. Qed.

(** The two rows a reopen can write. *)
Definition reopened_by_staff (now : timestamptz) (level : Z) (r : civic_report) : civic_report :=
  set_updated_at
    (set_escalation_level (set_resolved_at (set_status r reopened) None) (level + 1)) now.

Definition reopened_by_submitter (now : timestamptz) (r : civic_report) : civic_report :=
  set_updated_at (set_resolved_at (set_status r reopened) None) now.

(** C7, what the code does. Both handlers set the status to "reopened" and
    clear [resolved_at]. The staff handler also writes the escalation level
    of the rendered row plus one; the submitter's handler writes no
    escalation level at all, so every level in the table stays as it was. *)
Theorem reopen_handlers :
  (forall now db u i report,
     handleUpdateReport now db (Some u) (Some reopened) i report
     = map (fun r => if (cr_id r =? i)%string
                     then reopened_by_staff now (cr_escalation_level report) r
                     else r) db)
  /\ (forall now db u i,
        handleReopenReport now db (Some u) i
        = map (fun r => if (cr_id r =? i)%string
                        then reopened_by_submitter now r else r) db)
  /\ (forall now r,
        cr_status (reopened_by_submitter now r) = reopened
        /\ cr_resolved_at (reopened_by_submitter now r) = None
        /\ cr_escalation_level (reopened_by_submitter now r) = cr_escalation_level r)
  /\ (forall now r,
        cr_status (reopened_by_staff now (cr_escalation_level r) r) = reopened
        /\ cr_resolved_at (reopened_by_staff now (cr_escalation_level r) r) = None
        /\ cr_escalation_level (reopened_by_staff now (cr_escalation_level r) r)
           = cr_escalation_level r + 1).
Proof.
  repeat split.
  intros now db u i report. unfold handleUpdateReport, update_civic_report.
  apply map_ext. intros r. rewrite or_zero_id. reflexivity.
Qed.

(** The staff handler has the branch for "reopened", but the select that
    feeds it does not offer that status: the submitter's button is the one
    way to reopen a report from the list. *)
Example reopened_not_offered : ~ In reopened update_status_options.
Proof. simpl. intuition discriminate. Qed.

(** A resolved report at level 0, reopened by its submitter: the level is
    still 0. *)
Definition sample_resolved_report : civic_report :=
  mk_civic_report "r1" "u1" "pothole" "Pothole on Main St"
    (Some 0%Q) (Some 0%Q) resolved high (Some 0.7%Q) 0%Q
    (Some (77 * usec_per_hour)) 0 false None 0 (Some (10 * usec_per_hour))
    (5 * usec_per_hour) (10 * usec_per_hour).

Example submitter_reopen_keeps_level_0 :
  canReopenReport (Some "u1"%string) sample_resolved_report = true
  /\ map (fun r => (cr_status r, cr_resolved_at r, cr_escalation_level r))
       (handleReopenReport (11 * usec_per_hour) [sample_resolved_report] (Some "u1"%string) "r1")
     = [(reopened, None, 0)].
Proof. split; reflexivity. Qed.

(** ** Escalation sweep *)

(** [SELECT ... WHERE id = i] on [civic_reports]. *)
Definition select_report (db : list civic_report) (i : uuid) : option civic_report :=
  find (fun r => (cr_id r =? i)%string) db.

Lemma find_id_none (l : list civic_report) i :
  ~ In i (map cr_id l) -> find (fun p => (cr_id p =? i)%string) l = None.
Proof.
  induction l as [|x l IH]; simpl; [reflexivity|].
  intros H. destruct (String.eqb_spec (cr_id x) i) as [E|E]; [tauto|].
  apply IH. tauto.
Qed.

Lemma select_report_in db r :
  NoDup (map cr_id db) -> In r db -> select_report db (cr_id r) = Some r.
Proof.
  unfold select_report. induction db as [|x db IH]; simpl; [tauto|].
  intros Hnd [->|Hin].
  - now rewrite String.eqb_refl.
  - inversion Hnd as [|? ? Hx Hnd']; subst.
    destruct (String.eqb_spec (cr_id x) (cr_id r)) as [E|E]; [|auto].
    elim Hx. rewrite E. now apply in_map.
Qed.

Lemma select_report_map (F : civic_report -> civic_report) db i :
  (forall r, cr_id (F r) = cr_id r) ->
  select_report (map F db) i = option_map F (select_report db i).
Proof.
  intros HF. unfold select_report. induction db as [|x db IH]; simpl; [reflexivity|].
  rewrite HF. destruct (cr_id x =? i)%string; [reflexivity|exact IH].
Qed.

Lemma find_in_filter (f : civic_report -> bool) db r :
  NoDup (map cr_id db) -> In r db ->
  find (fun p => (cr_id p =? cr_id r)%string) (filter f db)
  = if f r then Some r else None.
Proof.
  induction db as [|x db IH]; simpl; [tauto|].
  intros Hnd Hin. inversion Hnd as [|? ? Hx Hnd']; subst.
  assert (Hfresh : forall l, incl l db ->
            find (fun p => (cr_id p =? cr_id x)%string) l = None).
  { intros l Hl. apply find_id_none. intros Hi. apply Hx.
    apply in_map_iff in Hi as (p & Hp & Hpin). apply in_map_iff. eauto. }
  destruct Hin as [->|Hin].
  - destruct (f r) eqn:Ef; simpl.
    + now rewrite String.eqb_refl.
    + apply Hfresh. intros p Hp. apply filter_In in Hp. tauto.
  - assert (cr_id x <> cr_id r).
    { intros E. apply Hx. rewrite E. now apply in_map. }
    destruct (f x); simpl; [|auto].
    destruct (String.eqb_spec (cr_id x) (cr_id r)); [tauto|auto].
Qed.

Lemma Qgt_bool_iff a b : Qgt_bool a b = true <-> (b < a)%Q.
Proof.
  unfold Qgt_bool. rewrite negb_true_iff. split.
  - intros H. apply Qnot_le_lt. intros X. apply Qle_bool_iff in X. congruence.
  - intros H. destruct (Qle_bool a b) eqn:E; [|reflexivity].
    apply Qle_bool_iff in E. apply Qlt_not_le in H. tauto.
Qed.



(** The threshold check read as the specification writes it. *)
Lemma newLevel_spec slaConfig now_ms report :
  let h := hoursElapsed now_ms report in
  let l := cr_escalation_level report in
  let over2 := (inject_Z (sla_escalation_level_2_hours slaConfig) < h)%Q /\ l < 2 in
  let over1 := (inject_Z (sla_escalation_level_1_hours slaConfig) < h)%Q /\ l < 1 in
  (over2 -> newLevel slaConfig now_ms report = 2)
  /\ (~ over2 -> over1 -> newLevel slaConfig now_ms report = 1)
  /\ (~ over2 -> ~ over1 -> newLevel slaConfig now_ms report = l).
Proof.
  cbv zeta. unfold newLevel.
  destruct (Qgt_bool _ (inject_Z (sla_escalation_level_2_hours slaConfig))) eqn:E2;
  destruct (Qgt_bool _ (inject_Z (sla_escalation_level_1_hours slaConfig))) eqn:E1;
  destruct (cr_escalation_level report <? 2) eqn:L2;
  destruct (cr_escalation_level report <? 1) eqn:L1;
  simpl;
  try apply Qgt_bool_iff in E2; try apply Qgt_bool_iff in E1;
  try apply Z.ltb_lt in L2; try apply Z.ltb_lt in L1;
  try apply Z.ltb_ge in L2; try apply Z.ltb_ge in L1;
  repeat split; intros; try reflexivity; try tauto; try lia;
  repeat match goal with
         | H : Qgt_bool ?a ?b = false |- _ =>
             assert (~ (b < a)%Q)
               by (intros X; apply Qgt_bool_iff in X; congruence);
             clear H
         end; tauto.
Qed.

Section SweepFacts.

Variable update_ok : uuid -> bool.
Variable insert_ok : uuid -> bool.
Variable slaConfigs : list sla_config.
Variable now : timestamptz.

(** The level the loop body writes for a fetched report, if it writes. *)
Definition escalates (report : civic_report) : option Z :=
  match slaMap_get slaConfigs (priority_text (cr_priority report)) with
  | None => None
  | Some slaConfig =>
      let n := newLevel slaConfig (getTime now) report in
      if (cr_escalation_level report <? n) && update_ok (cr_id report)
      then Some n else None
  end.

(** What the loop body for [report] does to a row [r] of the table. *)
Definition escalated_row (report r : civic_report) : civic_report :=
  match escalates report with
  | Some n =>
      if (cr_id r =? cr_id report)%string
      then update_updated_at_column now (set_escalation_level r n) else r
  | None => r
  end.

(** What one run does to a row of the table. *)
Definition sweep_row (r : civic_report) : civic_report :=
  if is_active_report r then escalated_row r r else r.

Lemma escalated_row_id report r : cr_id (escalated_row report r) = cr_id r.
Proof.
  unfold escalated_row. destruct (escalates report); [|reflexivity].
  destruct (cr_id r =? cr_id report)%string; reflexivity.
Qed.

Lemma escalated_row_other report r :
  cr_id r <> cr_id report -> escalated_row report r = r.
Proof.
  intros H. unfold escalated_row. destruct (escalates report); [|reflexivity].
  destruct (String.eqb_spec (cr_id r) (cr_id report)); [tauto|reflexivity].
Qed.

Lemma sweep_report_reports st report :
  sw_reports (sweep_report update_ok insert_ok slaConfigs now st report)
  = map (escalated_row report) (sw_reports st).
Proof.
  unfold sweep_report, escalated_row, escalates.
  destruct (slaMap_get slaConfigs _) as [cfg|]; [|now rewrite map_id].
  cbv zeta.
  destruct (cr_escalation_level report <? _); simpl; [|now rewrite map_id].
  destruct (update_ok (cr_id report)); simpl; [|now rewrite map_id].
  destruct (insert_ok (cr_id report)); reflexivity.
Qed.

Lemma fold_sweep_reports l :
  forall st,
    sw_reports (fold_left (sweep_report update_ok insert_ok slaConfigs now) l st)
    = fold_left (fun db p => map (escalated_row p) db) l (sw_reports st).
Proof.
  induction l as [|p l IH]; intros st; simpl; [reflexivity|].
  now rewrite IH, sweep_report_reports.
Qed.

Lemma fold_escalated_rows l :
  NoDup (map cr_id l) ->
  forall db,
    fold_left (fun db p => map (escalated_row p) db) l db
    = map (fun r =>
             match find (fun p => (cr_id p =? cr_id r)%string) l with
             | Some p => escalated_row p r
             | None => r
             end) db.
Proof.
  induction l as [|p l IH]; intros Hnd db; simpl.
  - now rewrite map_id.
  - inversion Hnd as [|? ? Hp Hnd']; subst.
    rewrite (IH Hnd'), map_map. apply map_ext. intros r.
    rewrite escalated_row_id.
    destruct (String.eqb_spec (cr_id p) (cr_id r)) as [E|E].
    + rewrite find_id_none; [reflexivity|]. now rewrite <- E.
    + rewrite escalated_row_other by congruence. reflexivity.
Qed.

Lemma NoDup_filter_ids (f : civic_report -> bool) db :
  NoDup (map cr_id db) -> NoDup (map cr_id (filter f db)).
Proof.
  induction db as [|x db IH]; simpl; intros H; [constructor|].
  inversion H as [|? ? Hx Hnd]; subst.
  destruct (f x); simpl; [|auto].
  constructor; [|auto].
  intros Hi. apply Hx. apply in_map_iff in Hi as (p & Hp & Hpin).
  apply filter_In in Hpin. apply in_map_iff. exists p. tauto.
Qed.

(** With the primary key in force, a run changes the table row by row. *)
Lemma check_sla_escalations_reports reports escalations :
  NoDup (map cr_id reports) ->
  sw_reports (check_sla_escalations update_ok insert_ok slaConfigs now reports escalations)
  = map sweep_row reports.
Proof.
  intros Hnd. unfold check_sla_escalations.
  rewrite fold_sweep_reports. cbn [sw_reports].
  rewrite fold_escalated_rows by now apply NoDup_filter_ids.
  apply map_ext_in. intros r Hin.
  rewrite (find_in_filter is_active_report reports r Hnd Hin).
  unfold sweep_row. destruct (is_active_report r); reflexivity.
Qed.

Lemma sweep_row_id r : cr_id (sweep_row r) = cr_id r.
Proof.
  unfold sweep_row. destruct (is_active_report r); [|reflexivity].
  apply escalated_row_id.
Qed.

Lemma sweep_row_kept r :
  cr_status (sweep_row r) = cr_status r
  /\ cr_sla_due_at (sweep_row r) = cr_sla_due_at r
  /\ cr_priority (sweep_row r) = cr_priority r
  /\ cr_created_at (sweep_row r) = cr_created_at r.
Proof.
  unfold sweep_row, escalated_row.
  destruct (is_active_report r); [|tauto].
  destruct (escalates r); [|tauto].
  destruct (cr_id r =? cr_id r)%string; simpl; tauto.
Qed.

Lemma sweep_row_level r slaConfig :
  is_active_report r = true ->
  slaMap_get slaConfigs (priority_text (cr_priority r)) = Some slaConfig ->
  update_ok (cr_id r) = true ->
  cr_escalation_level (sweep_row r) = newLevel slaConfig (getTime now) r
  /\ (newLevel slaConfig (getTime now) r = cr_escalation_level r -> sweep_row r = r).
Proof.
  intros Ha Hc Hu. unfold sweep_row, escalated_row, escalates.
  rewrite Ha, Hc, Hu, andb_true_r, String.eqb_refl. cbv zeta.
  destruct (cr_escalation_level r <? _) eqn:E; simpl.
  - split; [reflexivity|]. apply Z.ltb_lt in E. lia.
  - apply Z.ltb_ge in E. split; [|reflexivity].
    pose proof (newLevel_spec slaConfig (getTime now) r) as (S2 & S1 & S0).
    unfold newLevel in *.
    destruct (Qgt_bool _ _ && (cr_escalation_level r <? 2)) eqn:B2.
    + apply andb_true_iff in B2 as [_ B2]. apply Z.ltb_lt in B2. lia.
    + destruct (Qgt_bool _ _ && (cr_escalation_level r <? 1)) eqn:B1; [|reflexivity].
      apply andb_true_iff in B1 as [_ B1]. apply Z.ltb_lt in B1. lia.
Qed.


End SweepFacts.

Lemma is_active_report_iff r :
  is_active_report r = true <->
  (cr_status r = pending \/ cr_status r = in_progress \/ cr_status r = reopened)
  /\ cr_sla_due_at r <> None.
Proof.
  unfold is_active_report.
  destruct (cr_status r), (cr_sla_due_at r); simpl; intuition congruence.
Qed.


(** The scenario of the specification: a report of priority high created
    at T = 5h. *)
Definition sample_active_report (level : Z) : civic_report :=
  mk_civic_report "r1" "u1" "pothole" "Pothole on Main St"
    (Some 0%Q) (Some 0%Q) pending high (Some 0.7%Q) 0%Q
    (Some (77 * usec_per_hour)) level false None 0 None
    (5 * usec_per_hour) (5 * usec_per_hour).


Example sweep_scenario_30h :
  let st := check_sla_escalations (fun _ => true) (fun _ => true) default_sla_config
              (35 * usec_per_hour) [sample_active_report 0] [] in
  map cr_escalation_level (sw_reports st) = [1]
  /\ sw_escalations st
     = [mk_escalation "r1" 0 1 "SLA Level 1 breach - 30h elapsed (threshold: 24h)"].
Proof. split; vm_compute; reflexivity. Qed.

Example sweep_scenario_50h :
  let st := check_sla_escalations (fun _ => true) (fun _ => true) default_sla_config
              (55 * usec_per_hour) [sample_active_report 1] [] in
  map cr_escalation_level (sw_reports st) = [2]
  /\ sw_escalations st
     = [mk_escalation "r1" 1 2 "SLA Level 2 breach - 50h elapsed (threshold: 48h)"].
Proof. split; vm_compute; reflexivity. Qed.

Example sweep_scenario_10h :
  let st := check_sla_escalations (fun _ => true) (fun _ => true) default_sla_config
              (15 * usec_per_hour) [sample_active_report 0] [] in
  sw_reports st = [sample_active_report 0] /\ sw_escalations st = [].
Proof. split; vm_compute; reflexivity. Qed.

(** The threshold check as a function of the elapsed hours and the level. *)
Definition threshold_level (slaConfig : sla_config) (h : Q) (l : Z) : Z :=
  if Qgt_bool h (inject_Z (sla_escalation_level_2_hours slaConfig)) && (l <? 2)
  then 2
  else if Qgt_bool h (inject_Z (sla_escalation_level_1_hours slaConfig)) && (l <? 1)
  then 1
  else l.

Lemma newLevel_threshold slaConfig now_ms report :
  newLevel slaConfig now_ms report
  = threshold_level slaConfig (hoursElapsed now_ms report) (cr_escalation_level report).
Proof. reflexivity. Qed.

(** The guard looks at the level the first run has written: applying the
    check to its own result changes nothing. *)
Lemma threshold_level_idempotent slaConfig h l :
  threshold_level slaConfig h (threshold_level slaConfig h l)
  = threshold_level slaConfig h l.
Proof.
  unfold threshold_level.
  destruct (Qgt_bool h (inject_Z (sla_escalation_level_2_hours slaConfig)));
  destruct (Qgt_bool h (inject_Z (sla_escalation_level_1_hours slaConfig)));
  destruct (l <? 2) eqn:L2; destruct (l <? 1) eqn:L1; simpl;
  rewrite ?L2, ?L1; simpl; try reflexivity;
  try apply Z.ltb_lt in L2; try apply Z.ltb_lt in L1;
  try apply Z.ltb_ge in L2; try apply Z.ltb_ge in L1; lia.
Qed.

Section SweepTwice.

Variable slaConfigs : list sla_config.
Variable now : timestamptz.

(** A fetched report for which the loop body does nothing. *)
Definition settled (p : civic_report) : Prop :=
  forall slaConfig,
    slaMap_get slaConfigs (priority_text (cr_priority p)) = Some slaConfig ->
    (cr_escalation_level p <? newLevel slaConfig (getTime now) p) = false.

Lemma sweep_report_settled update_ok insert_ok st p :
  settled p -> sweep_report update_ok insert_ok slaConfigs now st p = st.
Proof.
  intros Hs. unfold sweep_report.
  destruct (slaMap_get slaConfigs _) as [cfg|] eqn:E; [|reflexivity].
  cbv zeta. now rewrite (Hs cfg E).
Qed.

Lemma fold_sweep_settled update_ok insert_ok l :
  (forall p, In p l -> settled p) ->
  forall st, fold_left (sweep_report update_ok insert_ok slaConfigs now) l st = st.
Proof.
  induction l as [|p l IH]; intros Hl st; simpl; [reflexivity|].
  rewrite sweep_report_settled by (apply Hl; simpl; auto).
  apply IH. intros q Hq. apply Hl. simpl. auto.
Qed.

Lemma sweep_row_settled update_ok r :
  (forall i, update_ok i = true) ->
  is_active_report r = true ->
  settled (sweep_row update_ok slaConfigs now r).
Proof.
  intros Hu Ha cfg Hget.
  destruct (sweep_row_kept update_ok slaConfigs now r) as (_ & _ & Kp & Kc).
  rewrite Kp in Hget.
  destruct (sweep_row_level update_ok slaConfigs now r cfg Ha Hget (Hu _)) as [Hl _].
  rewrite newLevel_threshold. unfold hoursElapsed. rewrite Kc, Hl.
  fold (hoursElapsed (getTime now) r).
  rewrite newLevel_threshold, threshold_level_idempotent.
  apply Z.ltb_irrefl.
Qed.

End SweepTwice.

(** C4. With the primary key in force and the writes of the first run
    succeeding, a second run at the same instant is a no-op: it leaves every
    report and the [escalations] table as the first run left them, and it
    reports no escalation, whatever happens to its own writes. *)
Theorem escalation_sweep_idempotent :
  forall update_ok1 insert_ok1 update_ok2 insert_ok2 slaConfigs now reports escalations,
    NoDup (map cr_id reports) ->
    (forall i, update_ok1 i = true) ->
    let st1 := check_sla_escalations update_ok1 insert_ok1 slaConfigs now
                 reports escalations in
    let st2 := check_sla_escalations update_ok2 insert_ok2 slaConfigs now
                 (sw_reports st1) (sw_escalations st1) in
    sw_reports st2 = sw_reports st1
    /\ sw_escalations st2 = sw_escalations st1
    /\ sw_result st2 = [].
Proof.
  intros update_ok1 insert_ok1 update_ok2 insert_ok2 slaConfigs now reports
         escalations Hnd Hu st1 st2.
  assert (E : st2 = mk_sweep_state (sw_reports st1) (sw_escalations st1) []).
  { subst st2. unfold check_sla_escalations at 1.
    apply fold_sweep_settled. intros p Hp.
    apply filter_In in Hp as [Hp Hact].
    subst st1. rewrite check_sla_escalations_reports in Hp by assumption.
    apply in_map_iff in Hp as (r & <- & Hr).
    apply sweep_row_settled; [assumption|].
    destruct (sweep_row_kept update_ok1 slaConfigs now r) as (Ks & Kd & _ & _).
    unfold is_active_report in *. now rewrite Ks, Kd in Hact. }
  rewrite E. auto.
Qed.

Lemma escalation_sweep_idempotent_witness :
  let st1 := check_sla_escalations (fun _ => true) (fun _ => true) default_sla_config
               (35 * usec_per_hour) [sample_active_report 0] [] in
  let st2 := check_sla_escalations (fun _ => true) (fun _ => true) default_sla_config
               (35 * usec_per_hour) (sw_reports st1) (sw_escalations st1) in
  sw_reports st2 = sw_reports st1
  /\ sw_escalations st2 = sw_escalations st1
  /\ sw_result st2 = [].
Proof.
  apply (escalation_sweep_idempotent (fun _ => true) (fun _ => true)
           (fun _ => true) (fun _ => true) default_sla_config
           (35 * usec_per_hour) [sample_active_report 0] []).
  - repeat constructor. simpl. tauto.
  - reflexivity.
Defined.

(** ** Duplicate detector *)

(** The conditions of the specification that come before the distance. *)
Definition duplicate_in_scope
    (now : timestamptz) (p_issue_type : string) (p_time_window_hours : Z)
    (cr : civic_report) : Prop :=
  cr_issue_type cr = p_issue_type
  /\ cr_status cr <> resolved /\ cr_status cr <> rejected
  /\ now - p_time_window_hours * usec_per_hour < cr_created_at cr
  /\ exists latitude longitude,
       cr_latitude cr = Some latitude /\ cr_longitude cr = Some longitude.



Lemma duplicate_scope_iff now p_issue_type p_time_window_hours cr :
  duplicate_scope now p_issue_type p_time_window_hours cr = true
  <-> duplicate_in_scope now p_issue_type p_time_window_hours cr.
Proof.
  unfold duplicate_scope, duplicate_in_scope, status_not_closed, hours_interval.
  rewrite !andb_true_iff, String.eqb_eq, Z.ltb_lt, negb_true_iff, orb_false_iff.
  split.
  - intros [[[Ht [Hs1 Hs2]] Hw] Hc]. repeat split; auto.
    + intros E. rewrite E in Hs1. discriminate.
    + intros E. rewrite E in Hs2. discriminate.
    + destruct (cr_latitude cr) as [la|], (cr_longitude cr) as [lo|];
        try discriminate.
      exists la, lo. auto.
  - intros (Ht & Hs1 & Hs2 & Hw & la & lo & Ela & Elo).
    rewrite Ela, Elo. repeat split; auto.
    + destruct (cr_status cr); try reflexivity; congruence.
    + destruct (cr_status cr); try reflexivity; congruence.
Qed.

(** [ORDER BY key LIMIT 1] returns nothing on no rows, and otherwise the
    first row whose key is least. *)
Lemma order_by_limit_1_spec {A} (key : A -> Z) (rows : list A) :
  match order_by_limit_1 key rows with
  | [] => rows = []
  | x :: rest =>
      rest = []
      /\ exists pre post,
           rows = pre ++ x :: post
           /\ (forall y, In y pre -> key x < key y)
           /\ (forall y, In y post -> key x <= key y)
  end.
Proof.
  induction rows as [|a rows IH]; simpl; [reflexivity|].
  destruct (order_by_limit_1 key rows) as [|y rest].
  - subst rows. split; [reflexivity|]. exists [], []. simpl. tauto.
  - destruct IH as (-> & pre & post & -> & Hpre & Hpost).
    destruct (key a <=? key y) eqn:E.
    + apply Z.leb_le in E. split; [reflexivity|].
      exists [], (pre ++ y :: post). split; [reflexivity|].
      split; [simpl; tauto|].
      intros z Hz. apply in_app_or in Hz as [Hz|[<-|Hz]].
      * specialize (Hpre z Hz). lia.
      * exact E.
      * specialize (Hpost z Hz). lia.
    + apply Z.leb_gt in E. split; [reflexivity|].
      exists (a :: pre), post. split; [reflexivity|].
      split; [|exact Hpost].
      intros z [<-|Hz]; [exact E|auto].
Qed.

Section Scan.

Variable m : float8_platform.
Variable now : timestamptz.
Variables p_lat p_lng : Q.
Variable p_issue_type : string.
Variables p_radius_meters p_time_window_hours : Z.

Let scan := duplicate_scan m now p_lat p_lng p_issue_type
              p_radius_meters p_time_window_hours.
Let scope := duplicate_scope now p_issue_type p_time_window_hours.
Let dist := row_distance m p_lat p_lng.

Lemma duplicate_scan_cons cr rows :
  scan (cr :: rows)
  = if scope cr then
      match dist cr, scan rows with
      | Some d, Some rest =>
          Some (if float8_le d (i4tod p_radius_meters) then (cr, d) :: rest else rest)
      | _, _ => None
      end
    else scan rows.
Proof.
  subst scan scope dist. cbn [duplicate_scan].
  destruct (duplicate_scope _ _ _ cr); [|reflexivity].
  destruct (row_distance m p_lat p_lng cr) as [d|]; cbn [bind]; [|reflexivity].
  destruct (duplicate_scan _ _ _ _ _ _ _ rows); reflexivity.
Qed.


(** What a successful scan keeps. *)
Lemma duplicate_scan_In rows found :
  scan rows = Some found ->
  forall cr d,
    In (cr, d) found
    <-> In cr rows /\ scope cr = true /\ dist cr = Some d
        /\ float8_le d (i4tod p_radius_meters) = true.
Proof.
  revert found. induction rows as [|cr0 rows IH]; intros found H cr d.
  - injection H as <-. simpl. tauto.
  - rewrite duplicate_scan_cons in H. destruct (scope cr0) eqn:Es.
    + destruct (dist cr0) as [d0|] eqn:Ed; [|discriminate].
      destruct (scan rows) as [rest|]; [|discriminate].
      specialize (IH rest eq_refl cr d).
      destruct (float8_le d0 (i4tod p_radius_meters)) eqn:El;
        injection H as <-; simpl; rewrite ?IH; split.
      * intros [[= <- <-]|(Hin & Hs & Hd & Hl)]; auto.
      * intros ([<-|Hin] & Hs & Hd & Hl); [left; congruence|auto].
      * intros (Hin & Hs & Hd & Hl); auto.
      * intros ([<-|Hin] & Hs & Hd & Hl); [congruence|auto].
    + rewrite (IH found H cr d). simpl. split.
      * intros (Hin & Hs & Hd & Hl); auto.
      * intros ([<-|Hin] & Hs & Hd & Hl); [congruence|auto].
Qed.


End Scan.

(** The row the function builds from a report and its distance. *)
Definition duplicate_row_of (now : timestamptz) (row : civic_report * float)
    : duplicate_row :=
  mk_duplicate_row true (cr_id (fst row)) (cr_title (fst row))
    (dist_meters row) (hrs_ago now (fst row)).


(** *** A distance every platform agrees on *)

(** A report at the origin, asked for from the origin, is 0 m away: every
    step of the evaluation is fixed by IEEE 754 and Annex F. *)
Lemma query_point_origin m : query_point m 0 0 = Some (1%float, 0%float, 0%float).
Proof.
  unfold query_point. rewrite numeric_float8_0. cbn [bind].
  change (radians 0%float) with (Some 0%float). cbn [bind].
  unfold dcos, dsin. rewrite libm_cos_0, libm_sin_0. reflexivity.
Qed.

Lemma great_circle_m_origin m : great_circle_m m 0 0 0 0 = Some 0%float.
Proof.
  unfold great_circle_m. rewrite query_point_origin, numeric_float8_0. cbn [bind].
  change (radians 0%float) with (Some 0%float). cbn [bind].
  assert (Hc : dcos m 0%float = Some 1%float).
  { unfold dcos. rewrite libm_cos_0. reflexivity. }
  assert (Hs : dsin m 0%float = Some 0%float).
  { unfold dsin. rewrite libm_sin_0. reflexivity. }
  rewrite Hc. cbn [bind].
  change (float8_mul 1 1) with (Some 1%float). cbn [bind].
  change (float8_mi 0 0) with (Some 0%float). cbn [bind].
  rewrite Hc, Hs. cbn [bind].
  change (float8_mul 1 1) with (Some 1%float). cbn [bind].
  change (float8_mul 0 0) with (Some 0%float). cbn [bind].
  change (float8_pl 1 0) with (Some 1%float). cbn [bind].
  assert (Ha : dacos m 1%float = Some 0%float).
  { unfold dacos. rewrite libm_acos_1. reflexivity. }
  rewrite Ha. reflexivity.
Qed.

Lemma origin_distance m cr :
  cr_latitude cr = Some 0%Q -> cr_longitude cr = Some 0%Q ->
  row_distance m 0 0 cr = Some 0%float.
Proof.
  intros Hla Hlo. unfold row_distance. rewrite Hla, Hlo.
  apply great_circle_m_origin.
Qed.

(** *** Three evaluations away from the origin *)

(** A report asked for from its own spot, at latitude 2.5 on the prime
    meridian. With the values the GNU C library gives [cos] and [sin]
    there, [cos * cos * 1 + sin * sin] is the next double above 1, and
    [acos] refuses it: the call raises. *)
Lemma same_spot_raises m :
  numeric_float8 m 2.5 = Some 0x1.4p+1%float ->
  libm_cos m 0x1.657184ae74487p-5%float = Some 0x1.ff833f9da45f7p-1%float ->
  libm_sin m 0x1.657184ae74487p-5%float = Some 0x1.65547c4694e11p-5%float ->
  great_circle_m m 2.5 0 2.5 0 = None.
Proof.
  intros Hn Hc Hs. unfold great_circle_m, query_point.
  rewrite Hn, numeric_float8_0. cbn [bind].
  change (radians 0x1.4p+1%float) with (Some 0x1.657184ae74487p-5%float).
  change (radians 0%float) with (Some 0%float). cbn [bind].
  assert (Ec : dcos m 0x1.657184ae74487p-5%float = Some 0x1.ff833f9da45f7p-1%float).
  { unfold dcos. rewrite Hc. reflexivity. }
  assert (Es : dsin m 0x1.657184ae74487p-5%float = Some 0x1.65547c4694e11p-5%float).
  { unfold dsin. rewrite Hs. reflexivity. }
  assert (E0 : dcos m 0%float = Some 1%float).
  { unfold dcos. rewrite libm_cos_0. reflexivity. }
  rewrite Ec, Es. cbn [bind].
  change (float8_mi 0 0) with (Some 0%float).
  match goal with
  | |- context [float8_mul ?a ?b] =>
      let v := eval vm_compute in (float8_mul a b) in
      change (float8_mul a b) with v
  end.
  cbn [bind]. rewrite E0. cbn [bind].
  repeat match goal with
         | |- context [float8_mul ?a ?b] =>
             let v := eval vm_compute in (float8_mul a b) in
             change (float8_mul a b) with v; cbn [bind]
         | |- context [float8_pl ?a ?b] =>
             let v := eval vm_compute in (float8_pl a b) in
             change (float8_pl a b) with v; cbn [bind]
         end.
  reflexivity.
Qed.

(** A report 4.478 millionths of a degree east of the query point, on the
    equator: 0.4979 m away by the formula. With the values the GNU C
    library gives [cos] and [acos] there, the server computes 0.5024 m and
    reports 1 m. *)
Lemma half_metre_rounds_up m :
  numeric_float8 m (4478 # 1000000000) = Some 0x1.2c837446d75d8p-18%float ->
  libm_cos m 0x1.4fad4257bf86ep-24%float = Some 0x1.fffffffffffe4p-1%float ->
  libm_acos m 0x1.fffffffffffe4p-1%float = 0x1.52a7fa9d2f8ebp-24%float ->
  great_circle_m m 0 0 0 (4478 # 1000000000) = Some 0x1.0134119a509c2p-1%float
  /\ dround_numeric 0x1.0134119a509c2p-1%float = 1.
Proof.
  intros Hn Hc Ha. split; [|reflexivity].
  unfold great_circle_m. rewrite query_point_origin, Hn, numeric_float8_0.
  cbn [bind].
  change (radians 0%float) with (Some 0%float).
  change (radians 0x1.2c837446d75d8p-18%float)
    with (Some 0x1.4fad4257bf86ep-24%float).
  cbn [bind].
  assert (E0 : dcos m 0%float = Some 1%float).
  { unfold dcos. rewrite libm_cos_0. reflexivity. }
  assert (S0 : dsin m 0%float = Some 0%float).
  { unfold dsin. rewrite libm_sin_0. reflexivity. }
  assert (Ec : dcos m 0x1.4fad4257bf86ep-24%float = Some 0x1.fffffffffffe4p-1%float).
  { unfold dcos. rewrite Hc. reflexivity. }
  assert (Ea : dacos m 0x1.fffffffffffe4p-1%float = Some 0x1.52a7fa9d2f8ebp-24%float).
  { unfold dacos. rewrite Ha. reflexivity. }
  rewrite E0. cbn [bind].
  change (float8_mul 1 1) with (Some 1%float). cbn [bind].
  change (float8_mi 0x1.4fad4257bf86ep-24 0)
    with (Some 0x1.4fad4257bf86ep-24%float). cbn [bind].
  rewrite Ec, S0. cbn [bind].
  repeat match goal with
         | |- context [float8_mul ?a ?b] =>
             let v := eval vm_compute in (float8_mul a b) in
             change (float8_mul a b) with v; cbn [bind]
         | |- context [float8_pl ?a ?b] =>
             let v := eval vm_compute in (float8_pl a b) in
             change (float8_pl a b) with v; cbn [bind]
         end.
  rewrite Ea. reflexivity.
Qed.

(** A report one millionth of a degree east of the query point, on the
    equator: with the values the GNU C library gives [cos] and [acos]
    there, the server computes 0.095 m and reports 0 m. *)
Lemma tenth_of_a_metre m :
  numeric_float8 m (1 # 1000000) = Some 0x1.0c6f7a0b5ed8dp-20%float ->
  libm_cos m 0x1.2bd8646c1beedp-26%float = Some 0x1.fffffffffffffp-1%float ->
  libm_acos m 0x1.fffffffffffffp-1%float = 0x1p-26%float ->
  great_circle_m m 0 0 0 (1 # 1000000) = Some 0x1.84daep-4%float
  /\ dround_numeric 0x1.84daep-4%float = 0.
Proof.
  intros Hn Hc Ha. split; [|reflexivity].
  unfold great_circle_m. rewrite query_point_origin, Hn, numeric_float8_0.
  cbn [bind].
  change (radians 0%float) with (Some 0%float).
  change (radians 0x1.0c6f7a0b5ed8dp-20%float)
    with (Some 0x1.2bd8646c1beedp-26%float).
  cbn [bind].
  assert (E0 : dcos m 0%float = Some 1%float).
  { unfold dcos. rewrite libm_cos_0. reflexivity. }
  assert (S0 : dsin m 0%float = Some 0%float).
  { unfold dsin. rewrite libm_sin_0. reflexivity. }
  assert (Ec : dcos m 0x1.2bd8646c1beedp-26%float = Some 0x1.fffffffffffffp-1%float).
  { unfold dcos. rewrite Hc. reflexivity. }
  assert (Ea : dacos m 0x1.fffffffffffffp-1%float = Some 0x1p-26%float).
  { unfold dacos. rewrite Ha. reflexivity. }
  rewrite E0. cbn [bind].
  change (float8_mul 1 1) with (Some 1%float). cbn [bind].
  change (float8_mi 0x1.2bd8646c1beedp-26 0)
    with (Some 0x1.2bd8646c1beedp-26%float). cbn [bind].
  rewrite Ec, S0. cbn [bind].
  repeat match goal with
         | |- context [float8_mul ?a ?b] =>
             let v := eval vm_compute in (float8_mul a b) in
             change (float8_mul a b) with v; cbn [bind]
         | |- context [float8_pl ?a ?b] =>
             let v := eval vm_compute in (float8_pl a b) in
             change (float8_pl a b) with v; cbn [bind]
         end.
  rewrite Ea. reflexivity.
Qed.

(** *** A table with two candidates *)

(** Two reports of one pothole, at the same spot. [dup_old] is stored
    first and was created first; [dup_new] is more recent. *)
Definition dup_old : civic_report :=
  mk_civic_report "old" "u1" "pothole" "Pothole A"
    (Some 0%Q) (Some 0%Q) pending medium (Some 0.5%Q) 0%Q None 0
    false None 0 None (1 * usec_per_hour) (1 * usec_per_hour).

Definition dup_new : civic_report :=
  mk_civic_report "new" "u2" "pothole" "Pothole B"
    (Some 0%Q) (Some 0%Q) pending medium (Some 0.5%Q) 0%Q None 0
    false None 0 None (2 * usec_per_hour) (2 * usec_per_hour).

(** The scan from that spot, three hours in: both are candidates, 0 m
    away. *)
Lemma scan_old_new m :
  duplicate_scan m (3 * usec_per_hour) 0 0 "pothole" 100 72 [dup_old; dup_new]
  = Some [(dup_old, 0%float); (dup_new, 0%float)].
Proof.
  cbn [duplicate_scan].
  change (duplicate_scope (3 * usec_per_hour) "pothole" 72 dup_old) with true.
  change (duplicate_scope (3 * usec_per_hour) "pothole" 72 dup_new) with true.
  cbv iota. rewrite !origin_distance by reflexivity. reflexivity.
Qed.

(** The query: the row of [dup_old] comes back. *)
Lemma check_duplicate_old_new m p_user_id :
  check_duplicate_report m (3 * usec_per_hour) [dup_old; dup_new]
    0 0 "pothole" p_user_id 100 72
  = Some [mk_duplicate_row true "old" "Pothole A" 0 2].
Proof.
  unfold check_duplicate_report.
  rewrite query_point_origin, scan_old_new. reflexivity.
Qed.

(** Reports of another issue type are never looked at, however close. *)
Example check_duplicate_other_type m :
  check_duplicate_report m (3 * usec_per_hour) [dup_old; dup_new]
    0 0 "garbage" "u3" 100 72 = Some [].
Proof. unfold check_duplicate_report. now rewrite query_point_origin. Qed.

(** A platform given by a table, for the examples: the values the standard
    fixes and those of the three evaluations above, NaN elsewhere. The
    claims' examples stay at the origin, where every platform computes
    what this one computes ([great_circle_m_origin]). *)
Definition table_cos (x : float) : option float :=
  Some (if (x =? 0)%float then 1%float
        else if (x =? 0x1.657184ae74487p-5)%float then 0x1.ff833f9da45f7p-1%float
        else if (x =? 0x1.4fad4257bf86ep-24)%float then 0x1.fffffffffffe4p-1%float
        else if (x =? 0x1.2bd8646c1beedp-26)%float then 0x1.fffffffffffffp-1%float
        else nan).

Definition table_sin (x : float) : option float :=
  Some (if (x =? 0)%float then x
        else if (x =? 0x1.657184ae74487p-5)%float then 0x1.65547c4694e11p-5%float
        else nan).

Definition table_acos (x : float) : float :=
  if (x =? 1)%float then 0%float
  else if (x =? 0x1.fffffffffffe4p-1)%float then 0x1.52a7fa9d2f8ebp-24%float
  else if (x =? 0x1.fffffffffffffp-1)%float then 0x1p-26%float
  else nan.

Definition table_numeric_float8 (q : Q) : option float :=
  if Qeq_bool q 0 then Some 0%float
  else if Qeq_bool q 2.5 then Some 0x1.4p+1%float
  else if Qeq_bool q (4478 # 1000000000) then Some 0x1.2c837446d75d8p-18%float
  else if Qeq_bool q (1 # 1000000) then Some 0x1.0c6f7a0b5ed8dp-20%float
  else None.

Lemma table_acos_range x :
  is_nan (table_acos x)
  || ((0 <=? table_acos x)%float && (table_acos x <=? 4)%float) = true.
Proof.
  unfold table_acos.
  destruct (x =? 1)%float; [reflexivity|].
  destruct (x =? 0x1.fffffffffffe4p-1)%float; [reflexivity|].
  destruct (x =? 0x1.fffffffffffffp-1)%float; reflexivity.
Qed.

Definition table_platform : float8_platform :=
  mk_float8_platform table_cos table_sin table_acos table_numeric_float8
    eq_refl eq_refl eq_refl table_acos_range eq_refl.

Example same_spot_raises_table :
  great_circle_m table_platform 2.5 0 2.5 0 = None.
Proof. apply same_spot_raises; reflexivity. Qed.

Example half_metre_rounds_up_table :
  option_map dround_numeric
    (great_circle_m table_platform 0 0 0 (4478 # 1000000000))
  = Some 1.
Proof.
  destruct (half_metre_rounds_up table_platform eq_refl eq_refl eq_refl) as [E _].
  rewrite E. reflexivity.
Qed.


(** With [dup_far] a tenth of a metre east of the query point and stored
    first: both reports round to 0 m, and the query returns [dup_far],
    which is farther away and older. *)
Definition dup_far : civic_report :=
  mk_civic_report "far" "u1" "pothole" "Pothole A"
    (Some 0%Q) (Some (1 # 1000000)%Q) pending medium (Some 0.5%Q) 0%Q None 0
    false None 0 None (1 * usec_per_hour) (1 * usec_per_hour).

Lemma farther_candidate_returned m :
  numeric_float8 m (1 # 1000000) = Some 0x1.0c6f7a0b5ed8dp-20%float ->
  libm_cos m 0x1.2bd8646c1beedp-26%float = Some 0x1.fffffffffffffp-1%float ->
  libm_acos m 0x1.fffffffffffffp-1%float = 0x1p-26%float ->
  duplicate_scan m (3 * usec_per_hour) 0 0 "pothole" 100 72 [dup_far; dup_new]
  = Some [(dup_far, 0x1.84daep-4%float); (dup_new, 0%float)]
  /\ check_duplicate_report m (3 * usec_per_hour) [dup_far; dup_new]
       0 0 "pothole" "u3" 100 72
     = Some [mk_duplicate_row true "far" "Pothole A" 0 2].
Proof.
  intros Hn Hc Ha.
  destruct (tenth_of_a_metre m Hn Hc Ha) as [Hd _].
  assert (Hscan : duplicate_scan m (3 * usec_per_hour) 0 0 "pothole" 100 72
                    [dup_far; dup_new]
                  = Some [(dup_far, 0x1.84daep-4%float); (dup_new, 0%float)]).
  { cbn [duplicate_scan].
    change (duplicate_scope (3 * usec_per_hour) "pothole" 72 dup_far) with true.
    change (duplicate_scope (3 * usec_per_hour) "pothole" 72 dup_new) with true.
    cbv iota. rewrite (origin_distance m dup_new) by reflexivity.
    unfold row_distance at 1. cbn [dup_far cr_latitude cr_longitude].
    rewrite Hd. reflexivity. }
  split; [exact Hscan|].
  unfold check_duplicate_report. rewrite query_point_origin, Hscan. reflexivity.
Qed.

Example farther_candidate_returned_table :
  check_duplicate_report table_platform (3 * usec_per_hour) [dup_far; dup_new]
    0 0 "pothole" "u3" 100 72
  = Some [mk_duplicate_row true "far" "Pothole A" 0 2].
Proof. reflexivity. Qed.

(** A pending pothole at latitude 2.5, asked for from its own spot: with
    those values of [cos] and [sin] the call raises, whatever the radius;
    once the report is resolved it is not looked at, and the call returns
    no row. *)
Definition dup_spot : civic_report :=
  mk_civic_report "spot" "u1" "pothole" "Pothole C"
    (Some 2.5%Q) (Some 0%Q) pending medium (Some 0.5%Q) 0%Q None 0
    false None 0 None (1 * usec_per_hour) (1 * usec_per_hour).

Lemma own_spot_call_raises m p_radius_meters :
  numeric_float8 m 2.5 = Some 0x1.4p+1%float ->
  libm_cos m 0x1.657184ae74487p-5%float = Some 0x1.ff833f9da45f7p-1%float ->
  libm_sin m 0x1.657184ae74487p-5%float = Some 0x1.65547c4694e11p-5%float ->
  check_duplicate_report m (3 * usec_per_hour) [dup_spot]
    2.5 0 "pothole" "u3" p_radius_meters 72 = None
  /\ check_duplicate_report m (3 * usec_per_hour) [set_status dup_spot resolved]
       2.5 0 "pothole" "u3" p_radius_meters 72 = Some [].
Proof.
  intros Hn Hc Hs.
  assert (Hq : query_point m 2.5 0
               = Some (0x1.ff833f9da45f7p-1%float, 0x1.65547c4694e11p-5%float,
                       0%float)).
  { unfold query_point. rewrite Hn, numeric_float8_0. cbn [bind].
    change (radians 0x1.4p+1%float) with (Some 0x1.657184ae74487p-5%float).
    change (radians 0%float) with (Some 0%float). cbn [bind].
    unfold dcos, dsin. rewrite Hc, Hs. reflexivity. }
  unfold check_duplicate_report. rewrite Hq. cbn [bind duplicate_scan].
  change (duplicate_scope (3 * usec_per_hour) "pothole" 72 dup_spot) with true.
  change (duplicate_scope (3 * usec_per_hour) "pothole" 72
            (set_status dup_spot resolved)) with false.
  cbv iota. split; [|reflexivity].
  unfold row_distance, dup_spot. cbn [cr_latitude cr_longitude].
  rewrite (same_spot_raises m Hn Hc Hs). reflexivity.
Qed.


(** C10. The function never reads [p_user_id]: two calls that differ only
    in it return the same rows, or both raise. In particular the caller's
    own report comes back as the match: on the table above the caller "u1"
    is shown "old", which "u1" submitted. *)
Theorem check_duplicate_report_ignores_user :
  (forall m now db p_lat p_lng p_issue_type u1 u2 p_radius_meters
          p_time_window_hours,
      check_duplicate_report m now db p_lat p_lng p_issue_type u1
        p_radius_meters p_time_window_hours
      = check_duplicate_report m now db p_lat p_lng p_issue_type u2
          p_radius_meters p_time_window_hours)
  /\ (forall m,
      exists own,
        In own [dup_old; dup_new]
        /\ cr_user_id own = "u1"%string
        /\ check_duplicate_report m (3 * usec_per_hour) [dup_old; dup_new]
             0 0 "pothole" "u1" 100 72
           = Some [mk_duplicate_row true (cr_id own) (cr_title own) 0 2]).
Proof.
  split; [reflexivity|]. intros m.
  exists dup_old. split; [simpl; auto|]. split; [reflexivity|].
  apply check_duplicate_old_new.
Qed.

(** ** Duplicate flags on submitted reports *)

(** A duplicate flag points at a row already in the table. *)
Definition dup_ref_ok (db : list civic_report) (r : civic_report) : Prop :=
  cr_is_duplicate r = true ->
  exists orig,
    In orig db /\ cr_duplicate_of r = Some (cr_id orig) /\ cr_id orig <> cr_id r.

(** Tables that grow from [db0] by rows appended one by one, each flagged
    row pointing at a row appended before it or at a row of [db0]. *)
Inductive submitted_after (db0 : list civic_report) : list civic_report -> Prop :=
  | submitted_none : submitted_after db0 db0
  | submitted_snoc db r :
      submitted_after db0 db -> dup_ref_ok db r -> submitted_after db0 (db ++ [r]).

(** The warning on screen names a row of the table. *)
Definition warning_ok (db : list civic_report) (dw : DuplicateWarning) : Prop :=
  dw_show dw = true ->
  exists orig, In orig db /\ dw_existingId dw = Some (cr_id orig).

Lemma order_by_limit_1_incl {A} (key : A -> Z) (rows : list A) :
  incl (order_by_limit_1 key rows) rows.
Proof.
  induction rows as [|a rows IH]; simpl; [apply incl_refl|].
  destruct (order_by_limit_1 key rows) as [|y rest].
  - intros x [<-|[]]. simpl. auto.
  - destruct (key a <=? key y); intros x [<-|[]]; simpl; auto.
    right. apply IH. simpl. auto.
Qed.

(** A row the function returns is built from a row the scan kept. *)
Lemma check_duplicate_report_row m now db p_lat p_lng p_issue_type p_user_id
      p_radius_meters p_time_window_hours rows row :
  check_duplicate_report m now db p_lat p_lng p_issue_type p_user_id
    p_radius_meters p_time_window_hours = Some rows ->
  In row rows ->
  exists cr d,
    In cr db
    /\ duplicate_scope now p_issue_type p_time_window_hours cr = true
    /\ row_distance m p_lat p_lng cr = Some d
    /\ float8_le d (i4tod p_radius_meters) = true
    /\ row = duplicate_row_of now (cr, d).
Proof.
  unfold check_duplicate_report. intros H Hrow.
  destruct (query_point m p_lat p_lng) as [q|]; [|discriminate]. cbn [bind] in H.
  destruct (duplicate_scan m now p_lat p_lng p_issue_type p_radius_meters
              p_time_window_hours db) as [found|] eqn:Ef; [|discriminate].
  cbn [bind] in H. injection H as <-.
  apply in_map_iff in Hrow as ([cr d] & <- & Hin).
  apply order_by_limit_1_incl in Hin.
  apply (duplicate_scan_In _ _ _ _ _ _ _ _ _ Ef) in Hin
    as (Hin & Hs & Hd & Hl).
  exists cr, d. auto.
Qed.

Lemma checkForDuplicates_ok m now db user dw lat lng type :
  warning_ok db dw ->
  warning_ok db (checkForDuplicates m now db user dw lat lng type).
Proof.
  intros Hok. unfold checkForDuplicates. destruct user as [u|]; [|exact Hok].
  destruct (check_duplicate_report m now db lat lng type u 100 72)
    as [[|d rest]|] eqn:E.
  - intros H. discriminate.
  - intros _. cbn [dw_existingId].
    destruct (check_duplicate_report_row m now db lat lng type u 100 72 _ d E)
      as (cr & dist & Hin & _ & _ & _ & ->); [simpl; auto|].
    exists cr. auto.
  - intros H. discriminate.
Qed.

Lemma warning_ok_app db row dw : warning_ok db dw -> warning_ok (db ++ [row]) dw.
Proof.
  intros Hok Hs. destruct (Hok Hs) as (orig & Hin & Hid).
  exists orig. split; [apply in_or_app; auto|exact Hid].
Qed.

Lemma set_sla_due_date_keeps rules sla now NEW :
  let row := set_sla_due_date rules sla now NEW in
  cr_id row = cr_id NEW
  /\ cr_is_duplicate row = cr_is_duplicate NEW
  /\ cr_duplicate_of row = cr_duplicate_of NEW.
Proof.
  cbv zeta. rewrite set_sla_due_date_unfold. cbv zeta.
  destruct (with_computed_priority_keeps rules now NEW)
    as (_ & _ & Kid & _ & _ & Kdo & Kdu & _).
  destruct (select_resolution_time_hours sla _); simpl; auto.
Qed.

Lemma has_id_false db i r : has_id db i = false -> In r db -> cr_id r <> i.
Proof.
  unfold has_id. intros H Hin E.
  assert (existsb (fun r => (cr_id r =? i)%string) db = true).
  { apply existsb_exists. exists r. split; [auto|now apply String.eqb_eq]. }
  congruence.
Qed.

Lemma insert_civic_report_inr rules sla now db NEW db' :
  insert_civic_report rules sla now db NEW = inr db' ->
  db' = db ++ [set_sla_due_date rules sla now NEW]
  /\ has_id db (cr_id NEW) = false.
Proof.
  unfold insert_civic_report.
  destruct (set_sla_due_date_keeps rules sla now NEW) as (Kid & _ & _).
  cbv zeta in Kid. rewrite Kid.
  destruct (negb _); [discriminate|].
  destruct (has_id db (cr_id NEW)); [discriminate|].
  destruct (cr_duplicate_of _) as [d|].
  - destruct (has_id _ d); [|discriminate]. intros [= <-]. auto.
  - intros [= <-]. auto.
Qed.

(** An insert through the REST interface that succeeds is an INSERT that
    succeeds, and every key of the request is a column. *)
Lemma postgrest_insert_inr columns keys rules sla now db NEW db' :
  postgrest_insert columns keys rules sla now db NEW = inr db' ->
  insert_civic_report rules sla now db NEW = inr db'
  /\ forall k, In k keys -> In k columns.
Proof.
  unfold postgrest_insert.
  destruct (find _ keys) as [k|] eqn:Ek; [discriminate|].
  destruct (insert_civic_report rules sla now db NEW) as [e|db1];
    [discriminate|].
  intros [= <-]. split; [reflexivity|].
  intros k Hk. pose proof (find_none _ _ Ek k Hk) as Hn.
  apply negb_false_iff, existsb_exists in Hn as (c & Hc & E).
  apply String.eqb_eq in E. now subst c.
Qed.

(** The flag and the reference of the row the form asks for are read off
    the warning on screen. *)
Lemma handleSubmit_row_flags json_number rules now new_id user can_create_report f NEW :
  handleSubmit_row json_number rules now new_id user can_create_report f = Some NEW ->
  cr_id NEW = new_id
  /\ cr_is_duplicate NEW = dw_show (f_duplicateWarning f)
  /\ cr_duplicate_of NEW
     = (if dw_show (f_duplicateWarning f)
        then dw_existingId (f_duplicateWarning f) else None).
Proof.
  unfold handleSubmit_row.
  destruct user as [u|]; [|discriminate].
  destruct (f_selectedCategory f); [|discriminate].
  destruct (f_issueType f =? "")%string; [discriminate|].
  destruct (negb can_create_report); [discriminate|].
  destruct (dw_show (f_duplicateWarning f) && negb (f_forceSubmit f)); [discriminate|].
  destruct (if isEmergencyIssue (f_issueType f) then _ else _) as [score prio].
  intros [= <-]. auto.
Qed.

Lemma handleSubmit_inr json_number columns rules sla now new_id db user can_create_report f db' :
  handleSubmit json_number columns rules sla now new_id db user can_create_report f
  = Some (inr db') ->
  exists NEW,
    handleSubmit_row json_number rules now new_id user can_create_report f = Some NEW
    /\ insert_civic_report rules sla now db NEW = inr db'
    /\ forall k, In k handleSubmit_keys -> In k columns.
Proof.
  unfold handleSubmit.
  destruct (handleSubmit_row json_number rules now new_id user can_create_report f)
    as [NEW|]; [|discriminate].
  intros [= H]. apply postgrest_insert_inr in H. eauto.
Qed.

Lemma handleSubmit_stored json_number columns rules sla now new_id db user can_create_report f db' :
  handleSubmit json_number columns rules sla now new_id db user can_create_report f
  = Some (inr db') ->
  exists row,
    db' = db ++ [row]
    /\ cr_id row = new_id
    /\ has_id db new_id = false
    /\ cr_is_duplicate row = dw_show (f_duplicateWarning f)
    /\ cr_duplicate_of row
       = (if dw_show (f_duplicateWarning f)
          then dw_existingId (f_duplicateWarning f) else None).
Proof.
  intros H. apply handleSubmit_inr in H as (NEW & Hrow & Hins & _).
  apply handleSubmit_row_flags in Hrow as (Hid & Hdu & Hdo).
  apply insert_civic_report_inr in Hins as [-> Hfresh].
  destruct (set_sla_due_date_keeps rules sla now NEW) as (Kid & Kdu & Kdo).
  cbv zeta in Kid, Kdu, Kdo.
  eexists. split; [reflexivity|].
  rewrite Kid, Kdu, Kdo, <- Hid. auto.
Qed.

Lemma form_run_submitted m json_number columns rules sla user can_create_report db0 evs :
  forall db f,
    submitted_after db0 db -> warning_ok db (f_duplicateWarning f) ->
    let s := form_run m json_number columns rules sla user can_create_report (db, f) evs in
    submitted_after db0 (fst s)
    /\ warning_ok (fst s) (f_duplicateWarning (snd s)).
Proof.
  induction evs as [|ev evs IH]; intros db f Hdb Hw; [split; assumption|].
  unfold form_run. cbn [fold_left].
  fold (form_run m json_number columns rules sla user can_create_report).
  destruct ev as [category issueType title location ai|now lat lng type| |now new_id];
    cbn [form_step].
  - apply IH; assumption.
  - apply IH; [assumption|]. cbn [f_duplicateWarning with_duplicateWarning].
    now apply checkForDuplicates_ok.
  - apply IH; assumption.
  - destruct (handleSubmit json_number columns rules sla now new_id db user can_create_report f)
      as [[e|db']|] eqn:E; try (apply IH; assumption).
    apply handleSubmit_stored in E as (row & -> & Hid & Hfresh & Hdu & Hdo).
    apply IH.
    + constructor; [assumption|]. intros Hd. rewrite Hdu in Hd.
      destruct (Hw Hd) as (orig & Hin & He).
      exists orig. rewrite Hdo, Hd. repeat split; auto.
      rewrite Hid. now apply (has_id_false db).
    + intros H. discriminate.
Qed.

Lemma submitted_after_spec db0 db :
  submitted_after db0 db ->
  exists news,
    db = db0 ++ news
    /\ forall pre r post,
         news = pre ++ r :: post ->
         cr_is_duplicate r = true ->
         exists orig,
           In orig (db0 ++ pre)
           /\ cr_duplicate_of r = Some (cr_id orig)
           /\ cr_id orig <> cr_id r.
Proof.
  induction 1 as [|db r0 Hdb (news & -> & IH) Hr0].
  - exists []. split; [now rewrite app_nil_r|].
    intros pre r post H. destruct pre; discriminate.
  - exists (news ++ [r0]). split; [now rewrite app_assoc|].
    intros pre r post H Hd.
    destruct post as [|y post] using rev_ind.
    + apply app_inj_tail in H as [-> ->]. exact (Hr0 Hd).
    + clear IHpost. rewrite app_comm_cons, app_assoc in H.
      apply app_inj_tail in H as [-> ->]. exact (IH pre r post eq_refl Hd).
Qed.

(** C9, amended. After any session of the form, on any platform and
    whatever columns the table has: the row the form asks to insert with
    [is_duplicate] true carries a non-null [duplicate_of], the id of a
    report of the table, the one the last duplicate check returned; and
    every row the session got stored with [is_duplicate] true carries the
    id of another report that was in the table before it. Nothing makes
    that report an original; it may be flagged as a duplicate itself. *)
Theorem submitted_duplicates_reference_earlier_reports :
  forall m json_number columns rules sla user can_create_report db0 evs,
    let s :=
      form_run m json_number columns rules sla user can_create_report (db0, initial_form) evs in
    (forall now new_id NEW,
        handleSubmit_row json_number rules now new_id user can_create_report (snd s) = Some NEW ->
        cr_is_duplicate NEW = true ->
        exists orig,
          In orig (fst s) /\ cr_duplicate_of NEW = Some (cr_id orig))
    /\ exists news,
         fst s = db0 ++ news
         /\ forall pre r post,
              news = pre ++ r :: post ->
              cr_is_duplicate r = true ->
              exists orig,
                In orig (db0 ++ pre)
                /\ cr_duplicate_of r = Some (cr_id orig)
                /\ cr_id orig <> cr_id r.
Proof.
  intros m json_number columns rules sla user can db0 evs s.
  destruct (form_run_submitted m json_number columns rules sla user can db0 evs
              db0 initial_form)
    as [Hsub Hwarn]; [constructor|intros H; discriminate|].
  fold s in Hsub, Hwarn. split.
  - intros now new_id NEW Hrow Hd.
    apply handleSubmit_row_flags in Hrow as (_ & Hdu & Hdo).
    rewrite Hdu in Hd. rewrite Hd in Hdo.
    destruct (Hwarn Hd) as (orig & Hin & He).
    exists orig. split; [exact Hin|congruence].
  - now apply submitted_after_spec.
Qed.

(** *** A duplicate of a duplicate *)

(** A pothole reported twice from the same spot, at hours 0 and 71, the
    second report flagged as a duplicate of the first: the rows as two
    INSERT statements leave them. *)
Definition one_report : list civic_report :=
  Eval vm_compute in
    match insert_civic_report default_priority_rules default_sla_config 0 []
            (mk_civic_report "a" "u1" "pothole" "Pothole"
               (Some 0%Q) (Some 0%Q) pending medium None 0%Q None 0
               false None 0 None 0 0) with
    | inr db => db
    | inl _ => []
    end.

Definition two_reports : list civic_report :=
  Eval vm_compute in
    match insert_civic_report default_priority_rules default_sla_config
            (71 * usec_per_hour) one_report
            (mk_civic_report "b" "u1" "pothole" "Pothole"
               (Some 0%Q) (Some 0%Q) pending medium None 0%Q None 0
               true (Some "a"%string) 0 None
               (71 * usec_per_hour) (71 * usec_per_hour)) with
    | inr db => db
    | inl _ => []
    end.

(** The citizen picks the pothole at that spot. *)
Definition pothole_edit : form_event :=
  EvEdit (Some "road_transport"%string) "pothole" "Pothole" (Some (0%Q, 0%Q)) None.

(** The form after an edit, a duplicate check that found [existingId], and
    "submit anyway". *)
Definition forced_form (existingId : uuid) (hoursAgo : Z) : form_state :=
  mk_form_state (Some "road_transport"%string) "pothole" "Pothole"
    (Some (0%Q, 0%Q)) None
    (mk_DuplicateWarning true (Some existingId) (Some "Pothole"%string)
       (Some 0) (Some hoursAgo))
    true.

(** The check at hour 73 finds "b": "a" is older than 72 hours by then. *)
Lemma check_at_hour_73 m dw :
  checkForDuplicates m (73 * usec_per_hour) two_reports (Some "u1"%string) dw
    0 0 "pothole"
  = mk_DuplicateWarning true (Some "b"%string) (Some "Pothole"%string)
      (Some 0) (Some 2).
Proof.
  unfold checkForDuplicates, check_duplicate_report, two_reports.
  rewrite query_point_origin. cbn [bind duplicate_scan].
  match goal with
  | |- context [duplicate_scope ?n ?t ?w ?cr] =>
      change (duplicate_scope n t w cr) with false
  end.
  match goal with
  | |- context [duplicate_scope ?n ?t ?w ?cr] =>
      change (duplicate_scope n t w cr) with true
  end.
  cbv iota. rewrite origin_distance by reflexivity. reflexivity.
Qed.

(** The third report of that pothole, at hour 73, sent past the warning. *)
Definition third_report : list form_event :=
  [pothole_edit; EvCheck (73 * usec_per_hour) 0 0 "pothole"; EvForce].

Lemma third_report_form m json_number columns :
  form_run m json_number columns default_priority_rules default_sla_config
    (Some "u1"%string) true (two_reports, initial_form) third_report
  = (two_reports, forced_form "b" 2).
Proof.
  unfold form_run, third_report. cbn [fold_left form_step pothole_edit].
  rewrite check_at_hour_73. reflexivity.
Qed.

Lemma form_run_app m json_number columns rules sla user can_create_report s evs1 evs2 :
  form_run m json_number columns rules sla user can_create_report s (evs1 ++ evs2)
  = form_run m json_number columns rules sla user can_create_report
      (form_run m json_number columns rules sla user can_create_report s evs1) evs2.
Proof. apply fold_left_app. Qed.

(** C9, as stated, fails on this table: report "b" is flagged as a
    duplicate, and the row the form asks to insert for the third report is
    flagged as a duplicate with [duplicate_of] "b". This is so on every
    platform, with the columns of the repository. *)
Lemma duplicate_of_a_duplicate :
  map (fun r => (cr_id r, cr_is_duplicate r, cr_duplicate_of r)) two_reports
  = [ ("a", false, None); ("b", true, Some "a") ]%string
  /\ forall m json_number,
       option_map (fun r => (cr_is_duplicate r, cr_duplicate_of r))
         (handleSubmit_row json_number default_priority_rules
            (73 * usec_per_hour) "c" (Some "u1"%string) true
            (snd (form_run m json_number civic_reports_columns
                    default_priority_rules
                    default_sla_config (Some "u1"%string) true
                    (two_reports, initial_form) third_report)))
       = Some (true, Some "b"%string).
Proof.
  split; [reflexivity|]. intros m json_number.
  rewrite third_report_form. reflexivity.
Qed.

(** The table of the repository has no column [municipality], which the
    form names in every request: the insert is refused and the table
    stays as it was. *)
Lemma handleSubmit_refused json_number rules sla now new_id db user
      can_create_report f :
  handleSubmit json_number civic_reports_columns rules sla now new_id db user
    can_create_report f
  = option_map (fun _ => inl (PGRST204 "municipality"))
      (handleSubmit_row json_number rules now new_id user can_create_report f).
Proof.
  unfold handleSubmit.
  destruct (handleSubmit_row json_number rules now new_id user can_create_report f);
    reflexivity.
Qed.

(** On a table that has the column, the third report is stored as the form
    sent it: a duplicate of a duplicate. *)
Example duplicate_of_a_duplicate_stored m :
  map (fun r => (cr_id r, cr_is_duplicate r, cr_duplicate_of r))
    (fst (form_run m (fun q => q) (civic_reports_columns ++ ["municipality"%string])
            default_priority_rules default_sla_config (Some "u1"%string) true
            (two_reports, initial_form)
            (third_report ++ [EvSubmit (73 * usec_per_hour) "c"])))
  = [ ("a", false, None); ("b", true, Some "a"); ("c", true, Some "b") ]%string.
Proof.
  rewrite form_run_app, third_report_form. vm_compute. reflexivity.
Qed.

(* ================================================================= *)
(** * Part III: more of the code                                      *)
(* ================================================================= *)

(** ** Rate limiter: isolation, caps, blocks and the reported remainder *)

Lemma filter_update_rate_limit_others tbl p_user_id f :
  (forall r, url_user_id (f r) = url_user_id r) ->
  filter (fun r => negb (url_user_id r =? p_user_id)%string)
    (update_rate_limit tbl p_user_id f)
  = filter (fun r => negb (url_user_id r =? p_user_id)%string) tbl.
Proof.
  intros Hf. unfold update_rate_limit.
  induction tbl as [|x tbl IH]; simpl; [reflexivity|].
  destruct (url_user_id x =? p_user_id)%string eqn:E; simpl.
  - rewrite Hf, E. simpl. exact IH.
  - rewrite E. simpl. now rewrite IH.
Qed.

(** The rows of the other submitters, in table order. *)
Definition other_rows (p_user_id : uuid) (tbl : list user_rate_limit)
    : list user_rate_limit :=
  filter (fun r => negb (url_user_id r =? p_user_id)%string) tbl.

(** X1. A call reads and writes the caller's row only: the rows of every other
    submitter come out as they went in, whatever the outcome. *)
Theorem rate_limit_leaves_other_rows :
  forall now tbl p_user_id,
    other_rows p_user_id (fst (check_and_update_rate_limit now tbl p_user_id))
    = other_rows p_user_id tbl.
Proof.
  intros now tbl u. unfold check_and_update_rate_limit, other_rows.
  destruct (select_rate_limit tbl u) as [row|].
  - destruct (url_is_blocked row && _); [reflexivity|].
    assert (D : forall t,
               filter (fun r => negb (url_user_id r =? u)%string)
                 (if url_daily_reset_at row <? current_date now
                  then update_rate_limit t u (reset_daily (current_date now)) else t)
               = filter (fun r => negb (url_user_id r =? u)%string) t).
    { intros t. destruct (_ <? _); [|reflexivity].
      now apply filter_update_rate_limit_others. }
    destruct (url_daily_reset_at row <? current_date now) eqn:Ed;
    cbn [url_hourly_reset_at with_reports_today];
    destruct (url_hourly_reset_at row <? date_trunc_hour now) eqn:Eh;
    cbn [url_is_trusted with_reports_this_hour with_reports_today
         url_reports_this_hour url_reports_today];
    destruct (url_is_trusted row);
    repeat match goal with
           | |- context [if ?b then _ else _] => destruct b
           end;
    cbn [fst];
    rewrite ?filter_update_rate_limit_others by reflexivity; reflexivity.
  - cbn [fst]. rewrite filter_app. simpl. rewrite String.eqb_refl. simpl.
    apply app_nil_r.
Qed.

(** The two thresholds of a row. *)
Definition max_hourly (row : user_rate_limit) : Z :=
  if url_is_trusted row then 10 else 3.

Definition max_daily (row : user_rate_limit) : Z :=
  if url_is_trusted row then 50 else 10.

Definition count_allowed (rs : list rate_limit_result) : Z :=
  Z.of_nat (List.length (filter rl_is_allowed rs)).

(** What one call does to the counters of an existing row. *)
Lemma rate_limit_row_step_counters now row :
  let row' := fst (rate_limit_row_step now row) in
  let r := snd (rate_limit_row_step now row) in
  url_is_trusted row' = url_is_trusted row
  /\ (url_daily_reset_at row = current_date now ->
      url_daily_reset_at row' = current_date now
      /\ if rl_is_allowed r
         then url_reports_today row < max_daily row
              /\ url_reports_today row' = url_reports_today row + 1
         else url_reports_today row' = url_reports_today row)
  /\ (url_hourly_reset_at row = date_trunc_hour now ->
      url_hourly_reset_at row' = date_trunc_hour now
      /\ if rl_is_allowed r
         then url_reports_this_hour row < max_hourly row
              /\ url_reports_this_hour row' = url_reports_this_hour row + 1
         else url_reports_this_hour row' = url_reports_this_hour row).
Proof.
  cbv zeta. unfold rate_limit_row_step, max_daily, max_hourly.
  destruct (url_is_blocked row && _); [cbn; tauto|].
  destruct (url_daily_reset_at row <? current_date now) eqn:Ed;
  cbn [url_hourly_reset_at reset_daily];
  destruct (url_hourly_reset_at row <? date_trunc_hour now) eqn:Eh;
  cbn [url_is_trusted reset_hourly reset_daily url_reports_this_hour url_reports_today];
  destruct (url_is_trusted row) eqn:Et;
  repeat match goal with
         | |- context [if (?a <=? ?b) then _ else _] =>
             let E := fresh "E" in destruct (a <=? b) eqn:E
         end;
  cbn [fst snd rl_is_allowed url_is_trusted url_daily_reset_at url_hourly_reset_at
       url_reports_today url_reports_this_hour bump_counters reset_hourly reset_daily];
  repeat match goal with
         | H : (_ <? _) = true |- _ => apply Z.ltb_lt in H
         | H : (_ <? _) = false |- _ => apply Z.ltb_ge in H
         | H : (_ <=? _) = true |- _ => apply Z.leb_le in H
         | H : (_ <=? _) = false |- _ => apply Z.leb_gt in H
         end;
  repeat split; intros; try lia; try assumption.
Qed.

Lemma count_allowed_cons r rs :
  count_allowed (r :: rs) = (if rl_is_allowed r then 1 else 0) + count_allowed rs.
Proof.
  unfold count_allowed. simpl. destruct (rl_is_allowed r); [|reflexivity].
  simpl List.length. lia.
Qed.

Lemma rate_limit_row_calls_cons row t times :
  rate_limit_row_calls row (t :: times)
  = (fst (rate_limit_row_calls (fst (rate_limit_row_step t row)) times),
     snd (rate_limit_row_step t row)
     :: snd (rate_limit_row_calls (fst (rate_limit_row_step t row)) times)).
Proof.
  simpl. destruct (rate_limit_row_step t row) as [row1 r]. cbn [fst snd].
  destruct (rate_limit_row_calls row1 times). reflexivity.
Qed.

Lemma rate_limit_row_calls_daily_cap times :
  forall row,
    (forall t, In t times -> current_date t = url_daily_reset_at row) ->
    count_allowed (snd (rate_limit_row_calls row times))
    <= Z.max 0 (max_daily row - url_reports_today row).
Proof.
  induction times as [|t times IH]; intros row Hd.
  - unfold count_allowed. simpl. lia.
  - rewrite rate_limit_row_calls_cons. cbn [snd]. rewrite count_allowed_cons.
    pose proof (rate_limit_row_step_counters t row) as (Ht & Hday & _).
    cbv zeta in Ht, Hday.
    destruct (Hday (eq_sym (Hd t (or_introl eq_refl)))) as [Hr Hc].
    specialize (IH (fst (rate_limit_row_step t row))).
    assert (Hmax : max_daily (fst (rate_limit_row_step t row)) = max_daily row)
      by (unfold max_daily; now rewrite Ht).
    rewrite Hmax in IH.
    assert (Hd' : forall t', In t' times ->
              current_date t' = url_daily_reset_at (fst (rate_limit_row_step t row))).
    { intros t' Hin. rewrite Hr. rewrite (Hd t' (or_intror Hin)).
      symmetry. apply Hd. simpl. auto. }
    specialize (IH Hd').
    destruct (rl_is_allowed (snd (rate_limit_row_step t row))); lia.
Qed.

Lemma rate_limit_row_calls_hourly_cap times :
  forall row,
    (forall t, In t times -> date_trunc_hour t = url_hourly_reset_at row) ->
    count_allowed (snd (rate_limit_row_calls row times))
    <= Z.max 0 (max_hourly row - url_reports_this_hour row).
Proof.
  induction times as [|t times IH]; intros row Hd.
  - unfold count_allowed. simpl. lia.
  - rewrite rate_limit_row_calls_cons. cbn [snd]. rewrite count_allowed_cons.
    pose proof (rate_limit_row_step_counters t row) as (Ht & _ & Hhour).
    cbv zeta in Ht, Hhour.
    destruct (Hhour (eq_sym (Hd t (or_introl eq_refl)))) as [Hr Hc].
    specialize (IH (fst (rate_limit_row_step t row))).
    assert (Hmax : max_hourly (fst (rate_limit_row_step t row)) = max_hourly row)
      by (unfold max_hourly; now rewrite Ht).
    rewrite Hmax in IH.
    assert (Hd' : forall t', In t' times ->
              date_trunc_hour t' = url_hourly_reset_at (fst (rate_limit_row_step t row))).
    { intros t' Hin. rewrite Hr. rewrite (Hd t' (or_intror Hin)).
      symmetry. apply Hd. simpl. auto. }
    specialize (IH Hd').
    destruct (rl_is_allowed (snd (rate_limit_row_step t row))); lia.
Qed.

(** X2. However many calls a submitter with a row makes within the day the row
    is stamped with, at most (daily threshold - reports_today) of them are
    allowed: 10 for an untrusted submitter, 50 for a trusted one, less what
    the row already counts. *)
Theorem rate_limit_daily_cap :
  forall tbl p_user_id row times,
    select_rate_limit tbl p_user_id = Some row ->
    (forall t, In t times -> current_date t = url_daily_reset_at row) ->
    count_allowed (snd (rate_limit_calls tbl p_user_id times))
    <= Z.max 0 (max_daily row - url_reports_today row).
Proof.
  intros tbl u row times Hsel Hd.
  destruct (rate_limit_calls_existing times tbl u row Hsel) as [_ ->].
  now apply rate_limit_row_calls_daily_cap.
Qed.

(** A row stamped for today and this hour, with 8 reports today and none
    this hour. *)
Definition sample_rate_row : user_rate_limit :=
  mk_user_rate_limit "u1" 8 0 None 0 0 false false None.

Lemma rate_limit_daily_cap_witness :
  count_allowed (snd (rate_limit_calls [sample_rate_row] "u1" [0; 1; 2; 3]))
  <= Z.max 0 (max_daily sample_rate_row - url_reports_today sample_rate_row).
Proof.
  apply (rate_limit_daily_cap [sample_rate_row] "u1" sample_rate_row [0; 1; 2; 3]).
  - reflexivity.
  - intros t Ht. simpl in Ht.
    repeat (destruct Ht as [<-|Ht]; [reflexivity|]). elim Ht.
Defined.

(** X3. However many calls a submitter with a row makes within the hour
    the row is stamped with, at most (hourly threshold - reports_this_hour)
    of them are allowed: 3 for an untrusted submitter, 10 for a trusted
    one, less what the row already counts. *)
Theorem rate_limit_hourly_cap :
  forall tbl p_user_id row times,
    select_rate_limit tbl p_user_id = Some row ->
    (forall t, In t times -> date_trunc_hour t = url_hourly_reset_at row) ->
    count_allowed (snd (rate_limit_calls tbl p_user_id times))
    <= Z.max 0 (max_hourly row - url_reports_this_hour row).
Proof.
  intros tbl u row times Hsel Hd.
  destruct (rate_limit_calls_existing times tbl u row Hsel) as [_ ->].
  now apply rate_limit_row_calls_hourly_cap.
Qed.

Lemma rate_limit_hourly_cap_witness :
  count_allowed (snd (rate_limit_calls [sample_rate_row] "u1" [0; 1; 2; 3]))
  <= Z.max 0 (max_hourly sample_rate_row - url_reports_this_hour sample_rate_row).
Proof.
  apply (rate_limit_hourly_cap [sample_rate_row] "u1" sample_rate_row [0; 1; 2; 3]).
  - reflexivity.
  - intros t Ht. simpl in Ht.
    repeat (destruct Ht as [<-|Ht]; [reflexivity|]). elim Ht.
Defined.

(** [UPDATE user_rate_limits SET is_blocked = false], what an administrator
    would do to lift a block. *)
Definition unblock (r : user_rate_limit) : user_rate_limit :=
  mk_user_rate_limit (url_user_id r) (url_reports_today r) (url_reports_this_hour r)
    (url_last_report_at r) (url_daily_reset_at r) (url_hourly_reset_at r)
    (url_is_trusted r) false (url_blocked_until r).

Lemma rate_limit_row_step_expired_block now row until :
  url_is_blocked row = true -> url_blocked_until row = Some until -> until <= now ->
  snd (rate_limit_row_step now row) = snd (rate_limit_row_step now (unblock row))
  /\ url_is_blocked (fst (rate_limit_row_step now row)) = true.
Proof.
  destruct row as [uid today hour last dr hr tr bl bu].
  cbn [url_is_blocked url_blocked_until]. intros -> -> Hle.
  assert (E : (now <? until) = false) by (apply Z.ltb_ge; lia).
  unfold rate_limit_row_step, unblock, reset_daily, reset_hourly.
  cbn [url_user_id url_reports_today url_reports_this_hour url_last_report_at
       url_daily_reset_at url_hourly_reset_at url_is_trusted url_is_blocked
       url_blocked_until andb].
  rewrite E.
  destruct (dr <? current_date now);
  cbn [url_user_id url_reports_today url_reports_this_hour url_last_report_at
       url_daily_reset_at url_hourly_reset_at url_is_trusted url_is_blocked
       url_blocked_until];
  destruct (hr <? date_trunc_hour now);
  cbn [url_user_id url_reports_today url_reports_this_hour url_last_report_at
       url_daily_reset_at url_hourly_reset_at url_is_trusted url_is_blocked
       url_blocked_until];
  destruct tr;
  repeat match goal with
         | |- context [if (?a <=? ?b) then _ else _] => destruct (a <=? b)
         end;
  split; reflexivity.
Qed.

(** X4. A block that has run out ([blocked_until] not after now) no longer
    denies: the call is answered exactly as if the flag had been cleared.
    Nothing clears the flag: the row still says [is_blocked] afterwards. *)
Theorem rate_limit_expired_block :
  forall now tbl p_user_id row until,
    select_rate_limit tbl p_user_id = Some row ->
    url_is_blocked row = true ->
    url_blocked_until row = Some until ->
    until <= now ->
    snd (check_and_update_rate_limit now tbl p_user_id)
    = snd (check_and_update_rate_limit now
             (update_rate_limit tbl p_user_id unblock) p_user_id)
    /\ exists row',
         select_rate_limit (fst (check_and_update_rate_limit now tbl p_user_id))
           p_user_id = Some row'
         /\ url_is_blocked row' = true.
Proof.
  intros now tbl u row until Hsel Hb Hu Hle.
  destruct (check_and_update_existing now tbl u row Hsel) as [H1 H2].
  pose proof (select_update_rate_limit tbl u unblock row (fun _ => eq_refl) Hsel) as Hsel'.
  destruct (check_and_update_existing now _ u _ Hsel') as [_ H2'].
  destruct (rate_limit_row_step_expired_block now row until Hb Hu Hle) as [Hr Hf].
  split; [congruence|]. eexists. split; [exact H1|exact Hf].
Qed.

(** A submitter whose block ended at instant 5. *)
Definition sample_blocked_row : user_rate_limit :=
  mk_user_rate_limit "u1" 0 0 None 0 0 false true (Some 5).

Lemma rate_limit_expired_block_witness :
  snd (check_and_update_rate_limit 7 [sample_blocked_row] "u1")
  = snd (check_and_update_rate_limit 7
           (update_rate_limit [sample_blocked_row] "u1" unblock) "u1")
  /\ exists row',
       select_rate_limit (fst (check_and_update_rate_limit 7 [sample_blocked_row] "u1"))
         "u1" = Some row'
       /\ url_is_blocked row' = true.
Proof.
  apply (rate_limit_expired_block 7 [sample_blocked_row] "u1" sample_blocked_row 5);
    [reflexivity|reflexivity|reflexivity|lia].
Defined.

Lemma rate_limit_row_step_remaining now row rh rd :
  snd (rate_limit_row_step now row) = rl_allowed rh rd ->
  let row' := fst (rate_limit_row_step now row) in
  rh = max_hourly row' - url_reports_this_hour row'
  /\ rd = max_daily row' - url_reports_today row'
  /\ 0 <= rh /\ 0 <= rd.
Proof.
  cbv zeta. destruct row as [uid today hour last dr hr tr bl bu].
  unfold rate_limit_row_step, max_daily, max_hourly, reset_daily, reset_hourly.
  cbn [url_user_id url_reports_today url_reports_this_hour url_last_report_at
       url_daily_reset_at url_hourly_reset_at url_is_trusted url_is_blocked
       url_blocked_until].
  destruct (bl && _); [discriminate|].
  destruct (dr <? current_date now);
  cbn [url_user_id url_reports_today url_reports_this_hour url_last_report_at
       url_daily_reset_at url_hourly_reset_at url_is_trusted url_is_blocked
       url_blocked_until];
  destruct (hr <? date_trunc_hour now);
  cbn [url_user_id url_reports_today url_reports_this_hour url_last_report_at
       url_daily_reset_at url_hourly_reset_at url_is_trusted url_is_blocked
       url_blocked_until];
  destruct tr;
  repeat match goal with
         | |- context [if (?a <=? ?b) then _ else _] =>
             let E := fresh "E" in destruct (a <=? b) eqn:E
         end;
  cbn [fst snd bump_counters url_user_id url_reports_today url_reports_this_hour
       url_last_report_at url_daily_reset_at url_hourly_reset_at url_is_trusted
       url_is_blocked url_blocked_until];
  try discriminate; intros H;
  pose proof (f_equal (fun r => match r with rl_allowed a _ => a | _ => 0 end) H) as Hh;
  pose proof (f_equal (fun r => match r with rl_allowed _ b => b | _ => 0 end) H) as Hd;
  cbv beta iota in Hh, Hd; clear H;
  repeat match goal with
         | H : (_ <=? _) = false |- _ => apply Z.leb_gt in H
         end;
  (split; [lia|split; [lia|split; lia]]).
Qed.

(** X5. Whenever a call is allowed, the remainders it reports are what the
    table says after the call: each threshold less the stored counter. They
    are never negative. This holds for the first call too, which reports 3
    and 10 against counters it has left at zero. *)
Theorem rate_limit_remaining_matches_counters :
  forall now tbl p_user_id rh rd,
    snd (check_and_update_rate_limit now tbl p_user_id) = rl_allowed rh rd ->
    exists row',
      select_rate_limit (fst (check_and_update_rate_limit now tbl p_user_id))
        p_user_id = Some row'
      /\ rh = max_hourly row' - url_reports_this_hour row'
      /\ rd = max_daily row' - url_reports_today row'
      /\ 0 <= rh /\ 0 <= rd.
Proof.
  intros now tbl u rh rd H.
  destruct (select_rate_limit tbl u) as [row|] eqn:Hsel.
  - destruct (check_and_update_existing now tbl u row Hsel) as [H1 H2].
    rewrite H2 in H. exists (fst (rate_limit_row_step now row)).
    split; [exact H1|]. now apply rate_limit_row_step_remaining.
  - unfold check_and_update_rate_limit in *. rewrite Hsel in *.
    cbn [fst snd] in *. injection H as <- <-.
    exists (default_rate_limit now u).
    split; [now apply select_rate_limit_app_fresh|].
    cbn. lia.
Qed.

Lemma rate_limit_remaining_matches_counters_witness :
  exists row',
    select_rate_limit (fst (check_and_update_rate_limit 0 [sample_rate_row] "u1"))
      "u1" = Some row'
    /\ 2 = max_hourly row' - url_reports_this_hour row'
    /\ 1 = max_daily row' - url_reports_today row'
    /\ 0 <= 2 /\ 0 <= 1.
Proof.
  apply (rate_limit_remaining_matches_counters 0 [sample_rate_row] "u1" 2 1).
  reflexivity.
Defined.

(** ** Priority scorer: confidence, NULL and the seeded weights *)

(** The tiers in the order of the CASE, lowest first. *)
Definition priority_rank (p : Priority) : Z :=
  match p with low => 0 | medium => 1 | high => 2 | critical => 3 end.

Lemma Qle_bool_false a b : Qle_bool a b = false -> (b < a)%Q.
Proof.
  intros H. apply Qnot_le_lt. intros X. apply Qle_bool_iff in X. congruence.
Qed.

Lemma score_to_priority_monotone s1 s2 :
  (s1 <= s2)%Q ->
  priority_rank (score_to_priority s1) <= priority_rank (score_to_priority s2).
Proof.
  intros H. unfold score_to_priority.
  destruct (Qle_bool 0.75 s1) eqn:A1; destruct (Qle_bool 0.55 s1) eqn:B1;
  destruct (Qle_bool 0.35 s1) eqn:C1;
  destruct (Qle_bool 0.75 s2) eqn:A2; destruct (Qle_bool 0.55 s2) eqn:B2;
  destruct (Qle_bool 0.35 s2) eqn:C2;
  cbn [priority_rank]; try lia; exfalso;
  repeat match goal with
         | X : Qle_bool _ _ = true |- _ => apply Qle_bool_iff in X
         | X : Qle_bool _ _ = false |- _ => apply Qle_bool_false in X
         end; Lqa.lra.
Qed.

Lemma LEAST_monotone x y b : (x <= y)%Q -> (LEAST (Some x) b <= LEAST (Some y) b)%Q.
Proof.
  intros H.
  destruct (LEAST_some_cases x b) as [[Hx ->]|[Hx ->]];
  destruct (LEAST_some_cases y b) as [[Hy ->]|[Hy ->]]; Lqa.lra.
Qed.

Lemma time_multiplier_pos p_issue_type hour : (0 < time_multiplier p_issue_type hour)%Q.
Proof.
  destruct (time_multiplier_cases p_issue_type hour) as [-> | ->]; reflexivity.
Qed.

(** X6. With the CHECK on [priority_weight] in force, a higher confidence never
    lowers the score nor the tier, whatever the issue type and the hour. *)
Theorem calculate_priority_score_monotone :
  forall rules now p_issue_type p_lat p_lng c1 c2,
    (forall r, In r rules -> priority_weight_check r) ->
    (c1 <= c2)%Q ->
    let r1 := calculate_priority_score rules now p_issue_type p_lat p_lng (Some c1) in
    let r2 := calculate_priority_score rules now p_issue_type p_lat p_lng (Some c2) in
    (fst r1 <= fst r2)%Q /\ priority_rank (snd r1) <= priority_rank (snd r2).
Proof.
  intros rules now ty p_lat p_lng c1 c2 Hcheck Hc. cbv zeta.
  unfold calculate_priority_score. cbn [fst snd option_map].
  pose proof (base_score_bounds rules ty Hcheck) as [Hb _].
  pose proof (time_multiplier_pos ty (extract_hour now)) as Hm.
  set (b := COALESCE (select_priority_weight rules ty) 0.5%Q) in *.
  set (m := time_multiplier ty (extract_hour now)) in *.
  assert (Hbm : (0 <= b * m)%Q) by (apply Qmult_le_0_compat; Lqa.lra).
  assert (Hraw : (b * m * (0.5 + c1 * 0.5) <= b * m * (0.5 + c2 * 0.5))%Q).
  { rewrite !(Qmult_comm (b * m)). apply Qmult_le_compat_r; Lqa.lra. }
  pose proof (LEAST_monotone _ _ 1.0%Q Hraw) as HL.
  split; [exact HL|now apply score_to_priority_monotone].
Qed.

Lemma calculate_priority_score_monotone_witness :
  let r1 := calculate_priority_score default_priority_rules 0 "garbage" None None
              (Some 0.2%Q) in
  let r2 := calculate_priority_score default_priority_rules 0 "garbage" None None
              (Some 0.9%Q) in
  (fst r1 <= fst r2)%Q /\ priority_rank (snd r1) <= priority_rank (snd r2).
Proof.
  apply (calculate_priority_score_monotone default_priority_rules 0 "garbage"
           None None 0.2%Q 0.9%Q).
  - exact default_priority_rules_check.
  - discriminate.
Defined.

(** X7. A NULL confidence makes the product NULL, LEAST drops the NULL and the
    function returns the cap: score 1.0, tier critical, for every issue
    type, rule table and hour. No confidence value scores higher. *)
Theorem calculate_priority_score_null_confidence :
  forall rules now p_issue_type p_lat p_lng,
    calculate_priority_score rules now p_issue_type p_lat p_lng None
    = (1.0%Q, critical)
    /\ forall c,
         (fst (calculate_priority_score rules now p_issue_type p_lat p_lng (Some c))
          <= fst (calculate_priority_score rules now p_issue_type p_lat p_lng None))%Q.
Proof.
  intros rules now ty p_lat p_lng. split; [reflexivity|].
  intros c. unfold calculate_priority_score. cbn [fst option_map].
  change (LEAST None 1.0%Q) with 1.0%Q.
  match goal with
  | |- (LEAST (Some ?x) ?b <= _)%Q =>
      destruct (LEAST_some_cases x b) as [[H ->]|[H ->]]
  end; Lqa.lra.
Qed.

(** The weight the seeded [priority_rules] give an issue type. *)
Definition seeded_weight (p_issue_type : string) : option Q :=
  if ("pothole" =? p_issue_type)%string then Some 0.7%Q
  else if ("streetlight" =? p_issue_type)%string then Some 0.8%Q
  else if ("drainage" =? p_issue_type)%string then Some 0.6%Q
  else if ("garbage" =? p_issue_type)%string then Some 0.4%Q
  else if ("road_damage" =? p_issue_type)%string then Some 0.75%Q
  else if ("other" =? p_issue_type)%string then Some 0.3%Q
  else None.

Lemma select_priority_weight_seeded p_issue_type :
  select_priority_weight default_priority_rules p_issue_type
  = seeded_weight p_issue_type.
Proof.
  unfold select_priority_weight, default_priority_rules, seeded_weight, rule_matches.
  cbn [find pr_factor_type pr_factor_value pr_is_active].
  change ("issue_type" =? "issue_type")%string with true.
  cbn [andb]. rewrite !andb_true_r.
  repeat (destruct (_ =? p_issue_type)%string; [reflexivity|]).
  reflexivity.
Qed.

Lemma score_to_priority_critical s :
  score_to_priority s = critical -> (0.75 <= s)%Q.
Proof.
  unfold score_to_priority.
  destruct (Qle_bool 0.75 s) eqn:E; [intros _; now apply Qle_bool_iff|].
  destruct (Qle_bool 0.55 s); [discriminate|].
  destruct (Qle_bool 0.35 s); discriminate.
Qed.

(** X8. With the seeded rules and a confidence in [0,1], the scorer rates a
    report critical only if it is a streetlight report, or a road_damage
    report with confidence exactly 1. Every other issue type, seeded or
    not, stays below critical at every hour. *)
Theorem seeded_rules_critical_only :
  forall now p_issue_type p_lat p_lng c,
    (0 <= c <= 1)%Q ->
    snd (calculate_priority_score default_priority_rules now p_issue_type
           p_lat p_lng (Some c)) = critical ->
    p_issue_type = "streetlight"%string
    \/ (p_issue_type = "road_damage"%string /\ c == 1).
Proof.
  intros now ty p_lat p_lng c Hc.
  destruct (String.eqb_spec "streetlight" ty) as [<-|Hs]; [auto|].
  unfold calculate_priority_score. cbn [snd option_map].
  rewrite select_priority_weight_seeded.
  rewrite (time_multiplier_day ty) by (intros [E _]; congruence).
  unfold seeded_weight.
  destruct (String.eqb_spec "streetlight" ty) as [E|_]; [congruence|].
  intros H. apply score_to_priority_critical in H. revert H.
  destruct ("pothole" =? ty)%string;
    [|destruct ("drainage" =? ty)%string;
      [|destruct ("garbage" =? ty)%string;
        [|destruct (String.eqb_spec "road_damage" ty) as [<-|_];
          [|destruct ("other" =? ty)%string]]]];
  cbn [COALESCE];
  match goal with
  | |- (_ <= LEAST (Some ?x) ?b)%Q -> _ =>
      destruct (LEAST_some_cases x b) as [[H1 ->]|[H1 ->]]
  end; intros H; try (exfalso; Lqa.lra).
  right. split; [reflexivity|]. Lqa.lra.
Qed.

Lemma seeded_rules_critical_only_witness :
  "streetlight"%string = "streetlight"%string
  \/ ("streetlight"%string = "road_damage"%string /\ 1 == 1).
Proof.
  apply (seeded_rules_critical_only 0 "streetlight" None None 1%Q).
  - split; discriminate.
  - reflexivity.
Defined.

(** ** Escalation sweep: what a run changes and what it logs *)

Lemma newLevel_range slaConfig now_ms report :
  cr_escalation_level report < newLevel slaConfig now_ms report ->
  newLevel slaConfig now_ms report <= 2.
Proof.
  unfold newLevel.
  destruct (Qgt_bool _ _ && (cr_escalation_level report <? 2)); [lia|].
  destruct (Qgt_bool _ _ && (cr_escalation_level report <? 1)); lia.
Qed.

(** What a run may do to a row: nothing, or raise the level of an active
    report to at most 2, which also stamps [updated_at]. *)
Definition sweep_change (now : timestamptz) (r r' : civic_report) : Prop :=
  r' = r
  \/ (is_active_report r = true
      /\ exists n,
           cr_escalation_level r < n <= 2
           /\ r' = update_updated_at_column now (set_escalation_level r n)).

Lemma sweep_row_change update_ok slaConfigs now r :
  sweep_change now r (sweep_row update_ok slaConfigs now r).
Proof.
  unfold sweep_change, sweep_row, escalated_row, escalates.
  destruct (is_active_report r); [|auto].
  destruct (slaMap_get slaConfigs _) as [cfg|]; [|auto].
  cbv zeta. destruct (cr_escalation_level r <? _) eqn:E; [|auto].
  destruct (update_ok (cr_id r)); [|auto]. cbn [andb].
  rewrite String.eqb_refl. right. split; [reflexivity|].
  apply Z.ltb_lt in E. eexists. split; [|reflexivity].
  split; [exact E|now apply newLevel_range].
Qed.

(** X9. With the primary key in force, a run keeps every row in its place and
    changes a row in one way only: the level of an active report goes up,
    to 1 or 2, and [updated_at] becomes the instant of the run. Reports that
    are resolved, rejected or without a due date are never touched, no level
    ever goes down, and no other column is written. This holds whichever
    writes fail. *)
Theorem escalation_sweep_only_raises_levels :
  forall update_ok insert_ok slaConfigs now reports escalations,
    NoDup (map cr_id reports) ->
    Forall2 (sweep_change now) reports
      (sw_reports (check_sla_escalations update_ok insert_ok slaConfigs now
                     reports escalations)).
Proof.
  intros update_ok insert_ok slaConfigs now reports escalations Hnd.
  rewrite check_sla_escalations_reports by assumption.
  clear Hnd. induction reports as [|r reports IH]; cbn [map]; constructor.
  - apply sweep_row_change.
  - exact IH.
Qed.

Lemma escalation_sweep_only_raises_levels_witness :
  Forall2 (sweep_change (35 * usec_per_hour)) [sample_active_report 0]
    (sw_reports (check_sla_escalations (fun _ => true) (fun _ => false)
                   default_sla_config (35 * usec_per_hour)
                   [sample_active_report 0] [])).
Proof.
  apply (escalation_sweep_only_raises_levels (fun _ => true) (fun _ => false)
           default_sla_config (35 * usec_per_hour) [sample_active_report 0] []).
  repeat constructor. simpl. tauto.
Defined.

Section SweepLog.

Variable update_ok : uuid -> bool.
Variable insert_ok : uuid -> bool.
Variable slaConfigs : list sla_config.
Variable now : timestamptz.

(** The rows the loop body for [p] adds to [escalations] and to the
    returned array. *)
Definition log_of (p : civic_report) : list escalation :=
  match slaMap_get slaConfigs (priority_text (cr_priority p)) with
  | None => []
  | Some slaConfig =>
      let n := newLevel slaConfig (getTime now) p in
      if (cr_escalation_level p <? n) && update_ok (cr_id p) && insert_ok (cr_id p)
      then [mk_escalation (cr_id p) (cr_escalation_level p) n
              (if n =? 2
               then breach_reason 2 (hoursElapsed (getTime now) p)
                      (sla_escalation_level_2_hours slaConfig)
               else breach_reason 1 (hoursElapsed (getTime now) p)
                      (sla_escalation_level_1_hours slaConfig))]
      else []
  end.

Lemma sweep_report_log st p :
  let st' := sweep_report update_ok insert_ok slaConfigs now st p in
  sw_escalations st' = sw_escalations st ++ log_of p
  /\ sw_result st' = sw_result st ++ log_of p.
Proof.
  cbv zeta. unfold sweep_report, log_of.
  destruct (slaMap_get slaConfigs _) as [cfg|]; [|now rewrite !app_nil_r].
  cbv zeta.
  destruct (cr_escalation_level p <? _); cbn [andb]; [|now rewrite !app_nil_r].
  destruct (update_ok (cr_id p)); cbn [andb]; [|now rewrite !app_nil_r].
  destruct (insert_ok (cr_id p)); cbn [sw_escalations sw_result];
    [tauto|now rewrite !app_nil_r].
Qed.

Lemma fold_sweep_log l :
  forall st,
    let st' := fold_left (sweep_report update_ok insert_ok slaConfigs now) l st in
    sw_escalations st' = sw_escalations st ++ flat_map log_of l
    /\ sw_result st' = sw_result st ++ flat_map log_of l.
Proof.
  induction l as [|p l IH]; intros st; cbn [fold_left flat_map].
  - now rewrite !app_nil_r.
  - destruct (IH (sweep_report update_ok insert_ok slaConfigs now st p)) as [E1 E2].
    destruct (sweep_report_log st p) as [F1 F2]. cbv zeta in *.
    rewrite E1, E2, F1, F2, <- !app_assoc. tauto.
Qed.

Lemma log_of_length p : (List.length (log_of p) <= 1)%nat.
Proof.
  unfold log_of. destruct (slaMap_get slaConfigs _); [|simpl; lia].
  cbv zeta. destruct (_ && _ && _); simpl; lia.
Qed.

Lemma flat_map_log_length l :
  (List.length (flat_map log_of l) <= List.length l)%nat.
Proof.
  induction l as [|p l IH]; cbn [flat_map]; [simpl; lia|].
  rewrite length_app. pose proof (log_of_length p). simpl. lia.
Qed.

Lemma log_of_entry p e :
  In e (log_of p) ->
  esc_report_id e = cr_id p
  /\ esc_from_level e = cr_escalation_level p
  /\ esc_from_level e < esc_to_level e <= 2
  /\ update_ok (cr_id p) = true /\ insert_ok (cr_id p) = true
  /\ exists slaConfig,
       slaMap_get slaConfigs (priority_text (cr_priority p)) = Some slaConfig
       /\ esc_to_level e = newLevel slaConfig (getTime now) p.
Proof.
  unfold log_of. destruct (slaMap_get slaConfigs _) as [cfg|]; [|intros []].
  cbv zeta. destruct (cr_escalation_level p <? _) eqn:E; [|intros []].
  destruct (update_ok (cr_id p)); [|intros []].
  destruct (insert_ok (cr_id p)); [|intros []].
  cbn [andb]. intros [<-|[]]. cbn [esc_report_id esc_from_level esc_to_level].
  apply Z.ltb_lt in E. pose proof (newLevel_range cfg (getTime now) p E).
  repeat split; try assumption. exists cfg. auto.
Qed.

End SweepLog.

Lemma same_id_same_row db r q :
  NoDup (map cr_id db) -> In r db -> In q db -> cr_id q = cr_id r -> q = r.
Proof.
  intros Hnd Hr Hq E.
  pose proof (select_report_in db r Hnd Hr) as S1.
  pose proof (select_report_in db q Hnd Hq) as S2.
  rewrite E in S2. congruence.
Qed.

Lemma select_swept_report update_ok insert_ok slaConfigs now reports escalations r :
  NoDup (map cr_id reports) -> In r reports ->
  select_report
    (sw_reports (check_sla_escalations update_ok insert_ok slaConfigs now
                   reports escalations)) (cr_id r)
  = Some (sweep_row update_ok slaConfigs now r).
Proof.
  intros Hnd Hin. rewrite check_sla_escalations_reports by assumption.
  rewrite select_report_map by (intros; apply sweep_row_id).
  now rewrite select_report_in.
Qed.

(** X10. With the primary key in force, the rows a run adds to [escalations] are
    exactly the entries it returns, in the same order; it returns at most one
    entry per report it fetched ([escalated] never exceeds [processed]); and
    every entry names an active report of the table, carries the level the
    report had when fetched as [from_level], a strictly higher [to_level] of
    at most 2, and that [to_level] is the level the report has in the table
    after the run. *)
Theorem escalation_sweep_log :
  forall update_ok insert_ok slaConfigs now reports escalations,
    NoDup (map cr_id reports) ->
    let st := check_sla_escalations update_ok insert_ok slaConfigs now
                reports escalations in
    sw_escalations st = escalations ++ sw_result st
    /\ (List.length (sw_result st)
        <= List.length (filter is_active_report reports))%nat
    /\ forall e,
         In e (sw_result st) ->
         esc_from_level e < esc_to_level e <= 2
         /\ exists r r',
              In r reports /\ is_active_report r = true
              /\ esc_report_id e = cr_id r
              /\ esc_from_level e = cr_escalation_level r
              /\ select_report (sw_reports st) (cr_id r) = Some r'
              /\ cr_escalation_level r' = esc_to_level e.
Proof.
  intros update_ok insert_ok slaConfigs now reports escalations Hnd st.
  destruct (fold_sweep_log update_ok insert_ok slaConfigs now
              (filter is_active_report reports)
              (mk_sweep_state reports escalations [])) as [E1 E2].
  cbv zeta in E1, E2. cbn [sw_escalations sw_result app] in E1, E2.
  fold (check_sla_escalations update_ok insert_ok slaConfigs now reports escalations)
    in E1, E2.
  fold st in E1, E2.
  split; [now rewrite E2|]. split; [rewrite E2; apply flat_map_log_length|].
  intros e He. rewrite E2 in He. apply in_flat_map in He as (p & Hp & He).
  apply filter_In in Hp as [Hin Hact].
  apply log_of_entry in He as (Hid & Hfrom & Hlt & Hu & _ & cfg & Hcfg & Hto).
  split; [exact Hlt|]. exists p, (sweep_row update_ok slaConfigs now p).
  repeat split; try assumption.
  - subst st. now apply select_swept_report.
  - rewrite Hto. now apply sweep_row_level.
Qed.

Lemma escalation_sweep_log_witness :
  let st := check_sla_escalations (fun _ => true) (fun _ => true) default_sla_config
              (35 * usec_per_hour) [sample_active_report 0] [] in
  sw_escalations st = [] ++ sw_result st
  /\ (List.length (sw_result st)
      <= List.length (filter is_active_report [sample_active_report 0]))%nat
  /\ forall e,
       In e (sw_result st) ->
       esc_from_level e < esc_to_level e <= 2
       /\ exists r r',
            In r [sample_active_report 0] /\ is_active_report r = true
            /\ esc_report_id e = cr_id r
            /\ esc_from_level e = cr_escalation_level r
            /\ select_report (sw_reports st) (cr_id r) = Some r'
            /\ cr_escalation_level r' = esc_to_level e.
Proof.
  apply (escalation_sweep_log (fun _ => true) (fun _ => true) default_sla_config
           (35 * usec_per_hour) [sample_active_report 0] []).
  repeat constructor. simpl. tauto.
Defined.

Lemma sweep_rows_ids update_ok slaConfigs now reports :
  map cr_id (map (sweep_row update_ok slaConfigs now) reports) = map cr_id reports.
Proof.
  rewrite map_map. apply map_ext. intros r. apply sweep_row_id.
Qed.

(** X11. When the update of a report succeeds and the insert of its log row
    fails, the escalation stands without a trace: the report has its new
    level, the run returns no entry for it, and no later run, at any
    instant and whatever its writes do, ever records a step from the
    report's original level, since it compares against the level now
    stored. *)
Theorem escalation_with_failed_log_insert :
  forall update_ok1 insert_ok1 update_ok2 insert_ok2 slaConfigs now1 now2
         reports escalations r cfg,
    NoDup (map cr_id reports) ->
    In r reports ->
    is_active_report r = true ->
    slaMap_get slaConfigs (priority_text (cr_priority r)) = Some cfg ->
    cr_escalation_level r < newLevel cfg (getTime now1) r ->
    update_ok1 (cr_id r) = true ->
    insert_ok1 (cr_id r) = false ->
    let st1 := check_sla_escalations update_ok1 insert_ok1 slaConfigs now1
                 reports escalations in
    let st2 := check_sla_escalations update_ok2 insert_ok2 slaConfigs now2
                 (sw_reports st1) (sw_escalations st1) in
    (exists r',
        select_report (sw_reports st1) (cr_id r) = Some r'
        /\ cr_escalation_level r' = newLevel cfg (getTime now1) r)
    /\ (forall e, In e (sw_result st1) -> esc_report_id e <> cr_id r)
    /\ (forall e, In e (sw_result st2) -> esc_report_id e = cr_id r ->
                  esc_from_level e <> cr_escalation_level r).
Proof.
  intros update_ok1 insert_ok1 update_ok2 insert_ok2 slaConfigs now1 now2
         reports escalations r cfg Hnd Hin Hact Hcfg Hlt Hu Hi st1 st2.
  destruct (sweep_row_level update_ok1 slaConfigs now1 r cfg Hact Hcfg Hu) as [Hl _].
  destruct (fold_sweep_log update_ok1 insert_ok1 slaConfigs now1
              (filter is_active_report reports)
              (mk_sweep_state reports escalations [])) as [_ E1].
  destruct (fold_sweep_log update_ok2 insert_ok2 slaConfigs now2
              (filter is_active_report (sw_reports st1))
              (mk_sweep_state (sw_reports st1) (sw_escalations st1) [])) as [_ E2].
  cbv zeta in E1, E2. cbn [sw_result app] in E1, E2.
  split; [|split].
  - exists (sweep_row update_ok1 slaConfigs now1 r).
    split; [|exact Hl]. subst st1. now apply select_swept_report.
  - intros e He Hid. subst st1. unfold check_sla_escalations in He.
    rewrite E1 in He. apply in_flat_map in He as (p & Hp & He).
    apply filter_In in Hp as [Hp _].
    apply log_of_entry in He as (Hid' & _ & _ & _ & Hi' & _).
    assert (p = r) by (apply (same_id_same_row reports); congruence).
    subst p. congruence.
  - intros e He Hid Hfrom. subst st2. unfold check_sla_escalations in He.
    rewrite E2 in He. apply in_flat_map in He as (p & Hp & He).
    apply filter_In in Hp as [Hp _].
    apply log_of_entry in He as (Hid' & Hfrom' & _).
    subst st1. rewrite check_sla_escalations_reports in Hp by assumption.
    apply in_map_iff in Hp as (q & <- & Hq).
    rewrite sweep_row_id in Hid'.
    assert (q = r) by (apply (same_id_same_row reports); congruence).
    subst q. lia.
Qed.

Lemma escalation_with_failed_log_insert_witness :
  let st1 := check_sla_escalations (fun _ => true) (fun _ => false)
               default_sla_config (35 * usec_per_hour) [sample_active_report 0] [] in
  let st2 := check_sla_escalations (fun _ => true) (fun _ => true)
               default_sla_config (36 * usec_per_hour)
               (sw_reports st1) (sw_escalations st1) in
  (exists r',
      select_report (sw_reports st1) (cr_id (sample_active_report 0)) = Some r'
      /\ cr_escalation_level r'
         = newLevel (mk_sla_config "high" 8 72 24 48) (getTime (35 * usec_per_hour))
             (sample_active_report 0))
  /\ (forall e, In e (sw_result st1) ->
                esc_report_id e <> cr_id (sample_active_report 0))
  /\ (forall e, In e (sw_result st2) ->
                esc_report_id e = cr_id (sample_active_report 0) ->
                esc_from_level e <> cr_escalation_level (sample_active_report 0)).
Proof.
  apply (escalation_with_failed_log_insert (fun _ => true) (fun _ => false)
           (fun _ => true) (fun _ => true) default_sla_config
           (35 * usec_per_hour) (36 * usec_per_hour) [sample_active_report 0] []
           (sample_active_report 0) (mk_sla_config "high" 8 72 24 48)).
  - repeat constructor. simpl. tauto.
  - simpl. tauto.
  - reflexivity.
  - reflexivity.
  - vm_compute. reflexivity.
  - reflexivity.
  - reflexivity.
Defined.

(** ** Duplicate detector: the returned row and the window *)

Lemma ROUND_numeric_nonneg q : (0 <= q)%Q -> 0 <= ROUND_numeric q.
Proof.
  intros H. unfold ROUND_numeric.
  apply Qle_bool_iff in H as Hb. rewrite Hb.
  rewrite <- (Qfloor_Z 0). apply Qfloor_resp_le.
  change (inject_Z 0) with 0%Q. clear Hb. Lqa.lra.
Qed.

Lemma ROUND_numeric_below q n : (q < inject_Z n)%Q -> ROUND_numeric q <= n.
Proof.
  intros H. unfold ROUND_numeric. destruct (Qle_bool 0 q).
  - pose proof (Qfloor_le (q + (1 # 2))) as F.
    assert (L : (inject_Z (Qfloor (q + (1 # 2))) < inject_Z (n + 1))%Q).
    { rewrite inject_Z_plus. change (inject_Z 1) with 1%Q. Lqa.lra. }
    rewrite <- Zlt_Qlt in L. lia.
  - pose proof (Qceiling_lt (q - (1 # 2))) as C.
    assert (L : (inject_Z (Qceiling (q - (1 # 2)) - 1) < inject_Z n)%Q) by Lqa.lra.
    rewrite <- Zlt_Qlt in L. lia.
Qed.

Lemma hrs_ago_range now cr window :
  now - hours_interval window < cr_created_at cr ->
  hrs_ago now cr <= window
  /\ (cr_created_at cr <= now -> 0 <= hrs_ago now cr).
Proof.
  intros Hw. unfold hrs_ago, hours_interval, usec_per_hour, usec_per_second in *.
  set (d := now - cr_created_at cr).
  assert (Hd : d < window * 3600000000) by (subst d; lia).
  assert (E : (inject_Z d / inject_Z 1000000 / 3600 == inject_Z d / 3600000000)%Q)
    by (field).
  split.
  - apply ROUND_numeric_below. rewrite E.
    apply Qlt_shift_div_r; [reflexivity|].
    rewrite Zlt_Qlt, inject_Z_mult in Hd. exact Hd.
  - intros Hn. apply ROUND_numeric_nonneg. rewrite E.
    apply Qle_shift_div_l; [reflexivity|].
    assert (0 <= d) by (subst d; lia).
    rewrite Zle_Qle in H. change (inject_Z 0) with 0%Q in H. Lqa.lra.
Qed.

Lemma duplicate_scope_window now p_issue_type p_time_window_hours cr :
  duplicate_scope now p_issue_type p_time_window_hours cr = true ->
  now - hours_interval p_time_window_hours < cr_created_at cr.
Proof.
  unfold duplicate_scope. rewrite !andb_true_iff, Z.ltb_lt. tauto.
Qed.

(** X13. Whatever the function returns is flagged [is_duplicate] and names
    a report of the table of the requested issue type, with its title; its
    distance is the one the server computed for that report, which compared
    within the radius, rounded to the metre; it is at most
    [p_time_window_hours] hours old, and its age is not negative unless the
    report is dated after the call. *)
Theorem check_duplicate_report_row_bounds :
  forall m now db p_lat p_lng p_issue_type p_user_id p_radius_meters
         p_time_window_hours rows row,
    check_duplicate_report m now db p_lat p_lng p_issue_type p_user_id
      p_radius_meters p_time_window_hours = Some rows ->
    In row rows ->
    dup_is_duplicate row = true
    /\ dup_hours_ago row <= p_time_window_hours
    /\ exists cr d,
         In cr db
         /\ dup_existing_report_id row = cr_id cr
         /\ dup_existing_title row = cr_title cr
         /\ cr_issue_type cr = p_issue_type
         /\ row_distance m p_lat p_lng cr = Some d
         /\ float8_le d (i4tod p_radius_meters) = true
         /\ dup_distance_meters row = dround_numeric d
         /\ dup_hours_ago row = hrs_ago now cr
         /\ (cr_created_at cr <= now -> 0 <= dup_hours_ago row).
Proof.
  intros m now db p_lat p_lng ty u radius window rows row Hcall Hrow.
  destruct (check_duplicate_report_row m now db p_lat p_lng ty u radius window
              rows row Hcall Hrow) as (cr & d & Hin & Hs & Hd & Hl & ->).
  pose proof (duplicate_scope_window _ _ _ _ Hs) as Hwin.
  destruct (hrs_ago_range now cr window Hwin) as [Hup Hlow].
  apply duplicate_scope_iff in Hs as (Hty & _).
  cbn [duplicate_row_of dup_is_duplicate dup_distance_meters dup_hours_ago
       dup_existing_report_id dup_existing_title fst snd dist_meters].
  split; [reflexivity|]. split; [exact Hup|].
  exists cr, d. repeat split; auto.
Qed.

Lemma check_duplicate_report_row_bounds_witness :
  dup_is_duplicate (mk_duplicate_row true "old" "Pothole A" 0 2) = true
  /\ dup_hours_ago (mk_duplicate_row true "old" "Pothole A" 0 2) <= 72
  /\ exists cr d,
       In cr [dup_old; dup_new]
       /\ dup_existing_report_id (mk_duplicate_row true "old" "Pothole A" 0 2)
          = cr_id cr
       /\ dup_existing_title (mk_duplicate_row true "old" "Pothole A" 0 2)
          = cr_title cr
       /\ cr_issue_type cr = "pothole"%string
       /\ row_distance table_platform 0 0 cr = Some d
       /\ float8_le d (i4tod 100) = true
       /\ dup_distance_meters (mk_duplicate_row true "old" "Pothole A" 0 2)
          = dround_numeric d
       /\ dup_hours_ago (mk_duplicate_row true "old" "Pothole A" 0 2)
          = hrs_ago (3 * usec_per_hour) cr
       /\ (cr_created_at cr <= 3 * usec_per_hour
           -> 0 <= dup_hours_ago (mk_duplicate_row true "old" "Pothole A" 0 2)).
Proof.
  apply (check_duplicate_report_row_bounds table_platform (3 * usec_per_hour)
           [dup_old; dup_new] 0 0 "pothole" "u3" 100 72
           [mk_duplicate_row true "old" "Pothole A" 0 2]).
  - reflexivity.
  - simpl. auto.
Defined.

(** X14. A window of zero or fewer hours finds nothing when no report is
    dated after the call: no distance is evaluated, so for a query point
    the server can place the function returns no row and does not raise,
    whatever the table and the radius. *)
Theorem check_duplicate_report_empty_search :
  forall m now db p_lat p_lng p_issue_type p_user_id p_radius_meters
         p_time_window_hours,
    query_point m p_lat p_lng <> None ->
    p_time_window_hours <= 0 ->
    (forall cr, In cr db -> cr_created_at cr <= now) ->
    check_duplicate_report m now db p_lat p_lng p_issue_type p_user_id
      p_radius_meters p_time_window_hours = Some [].
Proof.
  intros m now db p_lat p_lng ty u radius window Hpoint Hw Hpast.
  unfold check_duplicate_report.
  destruct (query_point m p_lat p_lng) as [q|]; [clear Hpoint|now elim Hpoint].
  cbn [bind].
  assert (E : duplicate_scan m now p_lat p_lng ty radius window db = Some []).
  { induction db as [|cr db IH]; [reflexivity|].
    cbn [duplicate_scan].
    destruct (duplicate_scope now ty window cr) eqn:Es.
    - apply duplicate_scope_window in Es.
      specialize (Hpast cr (or_introl eq_refl)).
      unfold hours_interval, usec_per_hour, usec_per_second in Es. nia.
    - apply IH. intros c Hc. apply Hpast. simpl. auto. }
  rewrite E. reflexivity.
Qed.

Lemma check_duplicate_report_empty_search_witness :
  check_duplicate_report table_platform (3 * usec_per_hour) [dup_old; dup_new]
    0 0 "pothole" "u3" 100 0 = Some [].
Proof.
  apply (check_duplicate_report_empty_search table_platform
           (3 * usec_per_hour) [dup_old; dup_new] 0 0 "pothole" "u3" 100 0).
  - vm_compute. discriminate.
  - lia.
  - intros cr [<-|[<-|[]]]; vm_compute; discriminate.
Defined.

Lemma order_by_limit_1_least {A} (key : A -> Z) (rows : list A) x rest :
  order_by_limit_1 key rows = x :: rest ->
  forall y, In y rows -> key x <= key y.
Proof.
  intros E y Hy. pose proof (order_by_limit_1_spec key rows) as S.
  rewrite E in S. destruct S as (_ & pre & post & -> & Hpre & Hpost).
  apply in_app_or in Hy as [Hy|[<-|Hy]].
  - specialize (Hpre y Hy). lia.
  - lia.
  - exact (Hpost y Hy).
Qed.

Lemma duplicate_scope_wider now p_issue_type w1 w2 cr :
  w1 <= w2 ->
  duplicate_scope now p_issue_type w1 cr = true ->
  duplicate_scope now p_issue_type w2 cr = true.
Proof.
  intros Hw. unfold duplicate_scope, hours_interval.
  rewrite !andb_true_iff, !Z.ltb_lt.
  intros [[[Ht Hs] Hwin] Hc]. repeat split; auto.
  unfold usec_per_hour, usec_per_second in *. nia.
Qed.

(** X15. Searching a longer window never loses a match: when a search
    returns a row, the same search with a window at least as long either
    raises, on a report that came into the window, or returns a row whose
    rounded distance is not greater. *)
Theorem check_duplicate_report_wider_search :
  forall m now db p_lat p_lng p_issue_type p_user_id p_radius_meters w1 w2
         rows row,
    w1 <= w2 ->
    check_duplicate_report m now db p_lat p_lng p_issue_type p_user_id
      p_radius_meters w1 = Some rows ->
    In row rows ->
    check_duplicate_report m now db p_lat p_lng p_issue_type p_user_id
      p_radius_meters w2 = None
    \/ exists row',
         check_duplicate_report m now db p_lat p_lng p_issue_type p_user_id
           p_radius_meters w2 = Some [row']
         /\ dup_distance_meters row' <= dup_distance_meters row.
Proof.
  intros m now db p_lat p_lng ty u radius w1 w2 rows row Hw Hcall Hrow.
  destruct (check_duplicate_report_row m now db p_lat p_lng ty u radius w1
              rows row Hcall Hrow) as (cr & d & Hin & Hs & Hd & Hl & ->).
  apply (duplicate_scope_wider now ty w1 w2 cr Hw) in Hs.
  assert (Hq : exists q, query_point m p_lat p_lng = Some q).
  { unfold check_duplicate_report in Hcall.
    destruct (query_point m p_lat p_lng) as [q|]; [eauto|discriminate]. }
  destruct Hq as [q Hq].
  unfold check_duplicate_report. rewrite Hq. cbn [bind].
  destruct (duplicate_scan m now p_lat p_lng ty radius w2 db) as [found|] eqn:Ef;
    [right|left; reflexivity].
  cbn [bind].
  assert (Hf : In (cr, d) found)
    by (apply (duplicate_scan_In _ _ _ _ _ _ _ _ _ Ef); auto).
  pose proof (order_by_limit_1_spec dist_meters found) as S.
  destruct (order_by_limit_1 dist_meters found) as [|x rest] eqn:E.
  - rewrite S in Hf. elim Hf.
  - destruct S as (-> & _). eexists. split; [reflexivity|].
    cbn [dup_distance_meters duplicate_row_of].
    exact (order_by_limit_1_least _ _ _ _ E (cr, d) Hf).
Qed.

Lemma check_duplicate_report_wider_search_witness :
  check_duplicate_report table_platform (3 * usec_per_hour) [dup_old; dup_new]
    0 0 "pothole" "u3" 100 96 = None
  \/ exists row',
       check_duplicate_report table_platform (3 * usec_per_hour)
         [dup_old; dup_new] 0 0 "pothole" "u3" 100 96 = Some [row']
       /\ dup_distance_meters row'
          <= dup_distance_meters (mk_duplicate_row true "old" "Pothole A" 0 2).
Proof.
  apply (check_duplicate_report_wider_search table_platform
           (3 * usec_per_hour) [dup_old; dup_new] 0 0 "pothole" "u3" 100 72 96
           [mk_duplicate_row true "old" "Pothole A" 0 2]).
  - lia.
  - reflexivity.
  - simpl. auto.
Defined.

(** ** The SLA badge and the buttons of a report *)

Lemma Qlt_bool_iff a b : Qlt_bool a b = true <-> (a < b)%Q.
Proof. unfold Qlt_bool. fold (Qgt_bool b a). apply Qgt_bool_iff. Qed.

Lemma hours_lt_iff d k :
  (inject_Z d / inject_Z (1000 * 60 * 60) < inject_Z k)%Q <-> d < k * 3600000.
Proof.
  change (1000 * 60 * 60) with 3600000.
  rewrite Zlt_Qlt, inject_Z_mult.
  split; intros H.
  - apply (Qmult_lt_compat_r _ _ (inject_Z 3600000)) in H; [|reflexivity].
    rewrite (Qmult_comm (_ / _)), Qmult_div_r in H by discriminate. exact H.
  - apply Qlt_shift_div_r; [reflexivity|exact H].
Qed.

Lemma Math_round_nonneg x : (0 <= x)%Q -> 0 <= Math_round x.
Proof.
  intros H. unfold Math_round. rewrite <- (Qfloor_Z 0). apply Qfloor_resp_le.
  change (inject_Z 0) with 0%Q. Lqa.lra.
Qed.

Lemma hoursRemaining_lt now_ms due k :
  Qlt_bool (hoursRemaining now_ms due) (inject_Z k)
  = (getTime due - now_ms <? k * 3600000).
Proof.
  destruct (getTime due - now_ms <? k * 3600000) eqn:E.
  - apply Qlt_bool_iff. unfold hoursRemaining.
    apply (proj2 (hours_lt_iff _ _)). now apply Z.ltb_lt.
  - destruct (Qlt_bool _ _) eqn:B; [|reflexivity].
    apply Qlt_bool_iff in B. unfold hoursRemaining in B.
    apply (proj1 (hours_lt_iff _ _)) in B. apply Z.ltb_ge in E. lia.
Qed.

Lemma getSLAStatus_unfold now_ms r :
  getSLAStatus now_ms r
  = match cr_sla_due_at r with
    | None => None
    | Some due =>
        if ReportStatus_eqb (cr_status r) resolved
           || ReportStatus_eqb (cr_status r) rejected
        then None
        else if getTime due - now_ms <? 0
        then Some (sla_overdue, Z.abs (Math_round (hoursRemaining now_ms due)))
        else if getTime due - now_ms <? 24 * 3600000
        then Some (sla_urgent, Math_round (hoursRemaining now_ms due))
        else Some (sla_ok, Math_round (hoursRemaining now_ms due))
    end.
Proof.
  unfold getSLAStatus. destruct (cr_sla_due_at r) as [due|]; [|reflexivity].
  cbv zeta. change 0%Q with (inject_Z 0). change 24%Q with (inject_Z 24).
  now rewrite !hoursRemaining_lt.
Qed.

Lemma hoursRemaining_nonneg now_ms due :
  0 <= getTime due - now_ms -> (0 <= hoursRemaining now_ms due)%Q.
Proof.
  intros H. unfold hoursRemaining. apply Qle_shift_div_l; [reflexivity|].
  rewrite Zle_Qle in H. change (inject_Z 0) with 0%Q in H. Lqa.lra.
Qed.

(** X16. The badge is shown for exactly the reports the escalation sweep
    fetches: a due date set and a status other than resolved and rejected.
    It reads overdue exactly when the due date, cut to the millisecond, lies
    before now; urgent from then up to 24 hours ahead; ok from 24 hours on.
    The hours shown are never negative. *)
Theorem getSLAStatus_spec :
  forall now_ms r,
    ((exists b, getSLAStatus now_ms r = Some b) <-> is_active_report r = true)
    /\ forall s h,
         getSLAStatus now_ms r = Some (s, h) ->
         0 <= h
         /\ exists due,
              cr_sla_due_at r = Some due
              /\ (s = sla_overdue <-> getTime due < now_ms)
              /\ (s = sla_urgent <-> now_ms <= getTime due < now_ms + 24 * 3600000)
              /\ (s = sla_ok <-> now_ms + 24 * 3600000 <= getTime due).
Proof.
  intros now_ms r. rewrite getSLAStatus_unfold. unfold is_active_report. split.
  - destruct (cr_sla_due_at r) as [due|];
      [|rewrite andb_false_r; split; [intros [b Hb]|]; discriminate].
    destruct (cr_status r); cbn [ReportStatus_eqb orb andb].
    all: try (split; [intros [b Hb]; discriminate|discriminate]).
    all: split; [intros _; reflexivity|intros _].
    all: destruct (_ <? 0); [eexists; reflexivity|].
    all: destruct (_ <? _); eexists; reflexivity.
  - intros s h. destruct (cr_sla_due_at r) as [due|]; [|discriminate].
    destruct (_ || _); [discriminate|].
    destruct (getTime due - now_ms <? 0) eqn:E0;
      [|destruct (getTime due - now_ms <? 24 * 3600000) eqn:E24];
      intros [= <- <-];
      try apply Z.ltb_lt in E0; try apply Z.ltb_ge in E0;
      try apply Z.ltb_lt in E24; try apply Z.ltb_ge in E24.
    + split; [apply Z.abs_nonneg|]. exists due.
      repeat split; try reflexivity; try discriminate; intros; lia.
    + split; [apply Math_round_nonneg, hoursRemaining_nonneg; lia|]. exists due.
      repeat split; try reflexivity; try discriminate; intros; lia.
    + split; [apply Math_round_nonneg, hoursRemaining_nonneg; lia|]. exists due.
      repeat split; try reflexivity; try discriminate; intros; lia.
Qed.

Lemma Math_round_Z h : Math_round (inject_Z h) = h.
Proof.
  unfold Math_round.
  pose proof (Qfloor_le (inject_Z h + (1 # 2))) as F1.
  pose proof (Qlt_floor (inject_Z h + (1 # 2))) as F2.
  set (f := Qfloor (inject_Z h + (1 # 2))) in *.
  assert (L1 : (inject_Z f < inject_Z (h + 1))%Q).
  { rewrite inject_Z_plus. change (inject_Z 1) with 1%Q. Lqa.lra. }
  assert (L2 : (inject_Z h < inject_Z (f + 1))%Q) by Lqa.lra.
  rewrite <- Zlt_Qlt in L1, L2. lia.
Qed.

Lemma hoursRemaining_whole c h :
  (hoursRemaining (getTime c) (c + hours_interval h) == inject_Z h)%Q.
Proof.
  unfold hoursRemaining, getTime, hours_interval, usec_per_hour, usec_per_second.
  replace (h * (3600 * 1000000)) with (h * 3600000 * 1000) by lia.
  rewrite Z.div_add by discriminate.
  replace (c / 1000 + h * 3600000 - c / 1000) with (h * 3600000) by lia.
  change (1000 * 60 * 60) with 3600000.
  rewrite inject_Z_mult. field.
Qed.

Lemma with_computed_priority_status rules now NEW :
  cr_status (with_computed_priority rules now NEW) = cr_status NEW.
Proof. unfold with_computed_priority. destruct (cr_priority_score NEW); reflexivity. Qed.

(** X17. A report that went through the insert trigger and whose tier is
    configured shows, at the millisecond of its creation, a badge with
    exactly the tier's [resolution_time_hours]: ok from 24 hours, urgent
    below. *)
Theorem new_report_badge :
  forall rules sla now NEW h,
    select_resolution_time_hours sla
      (cr_priority (set_sla_due_date rules sla now NEW)) = Some h ->
    0 <= h ->
    status_not_closed (cr_status NEW) = true ->
    getSLAStatus (getTime (cr_created_at NEW)) (set_sla_due_date rules sla now NEW)
    = Some (if h <? 24 then sla_urgent else sla_ok, h).
Proof.
  intros rules sla now NEW h Hh H0 Hs.
  rewrite set_sla_due_date_priority in Hh.
  rewrite getSLAStatus_unfold, set_sla_due_date_unfold. cbv zeta. rewrite Hh.
  cbn [cr_sla_due_at cr_status set_sla_due_at].
  rewrite with_computed_priority_status.
  destruct (with_computed_priority_keeps rules now NEW) as (Kc & _). cbv zeta in Kc.
  rewrite Kc.
  unfold status_not_closed in Hs. apply negb_true_iff in Hs. rewrite Hs.
  assert (E : getTime (cr_created_at NEW + hours_interval h)
              - getTime (cr_created_at NEW) = h * 3600000).
  { unfold getTime, hours_interval, usec_per_hour, usec_per_second.
    replace (h * (3600 * 1000000)) with (h * 3600000 * 1000) by lia.
    rewrite Z.div_add by discriminate. lia. }
  rewrite E.
  assert (R : Math_round (hoursRemaining (getTime (cr_created_at NEW))
                            (cr_created_at NEW + hours_interval h)) = h).
  { unfold Math_round. rewrite (Qfloor_comp _ (inject_Z h + (1 # 2))).
    - apply Math_round_Z.
    - now rewrite hoursRemaining_whole. }
  rewrite R.
  destruct (h * 3600000 <? 0) eqn:A; [apply Z.ltb_lt in A; lia|].
  replace (h * 3600000 <? 24 * 3600000) with (h <? 24);
    [destruct (h <? 24); reflexivity|].
  destruct (h <? 24) eqn:B; symmetry.
  - apply Z.ltb_lt in B. apply Z.ltb_lt. lia.
  - apply Z.ltb_ge in B. apply Z.ltb_ge. lia.
Qed.

Lemma new_report_badge_witness :
  getSLAStatus (getTime (cr_created_at sample_high_report))
    (set_sla_due_date default_priority_rules default_sla_config
       (5 * usec_per_hour) sample_high_report)
  = Some (if 72 <? 24 then sla_urgent else sla_ok, 72).
Proof.
  apply (new_report_badge default_priority_rules default_sla_config
           (5 * usec_per_hour) sample_high_report 72).
  - reflexivity.
  - lia.
  - reflexivity.
Defined.

Lemma select_updated_report now db f r :
  NoDup (map cr_id db) -> In r db ->
  (forall x, cr_id (f x) = cr_id x) ->
  select_report (update_civic_report now db (cr_id r) f) (cr_id r)
  = Some (update_updated_at_column now (f r)).
Proof.
  intros Hnd Hin Hf. unfold update_civic_report.
  rewrite select_report_map.
  - rewrite (select_report_in db r Hnd Hin). cbn [option_map].
    now rewrite String.eqb_refl.
  - intros x. destruct (cr_id x =? cr_id r)%string; [|reflexivity].
    cbn [update_updated_at_column set_updated_at cr_id]. apply Hf.
Qed.

(** X18. When the submitter reopens a resolved report, the row becomes
    "reopened" and both the reopen and the feedback button go away, but the
    SLA clock is not restarted: due date, creation instant and escalation
    thresholds are those of the original report. A report with a due date is
    back among the reports the sweep fetches, and when that date has passed
    the badge reads overdue at once. *)
Theorem reopened_report_keeps_its_clock :
  forall now db u r,
    NoDup (map cr_id db) ->
    In r db ->
    canReopenReport (Some u) r = true ->
    exists r',
      select_report (handleReopenReport now db (Some u) (cr_id r)) (cr_id r) = Some r'
      /\ cr_status r' = reopened
      /\ canReopenReport (Some u) r' = false
      /\ canProvideFeedback (Some u) r' = false
      /\ cr_sla_due_at r' = cr_sla_due_at r
      /\ cr_created_at r' = cr_created_at r
      /\ (forall now_ms slaConfig,
            newLevel slaConfig now_ms r' = newLevel slaConfig now_ms r)
      /\ (forall due now_ms,
            cr_sla_due_at r = Some due ->
            is_active_report r' = true
            /\ (getTime due < now_ms ->
                exists h, getSLAStatus now_ms r' = Some (sla_overdue, h))).
Proof.
  intros now db u r Hnd Hin Hcan.
  exists (update_updated_at_column now (set_resolved_at (set_status r reopened) None)).
  split; [|split; [|split; [|split; [|split; [|split; [|split]]]]]];
    try reflexivity.
  - unfold handleReopenReport. apply select_updated_report; auto.
  - cbn. now rewrite andb_false_r.
  - cbn. now rewrite andb_false_r.
  - intros due now_ms Hdue. split.
    + unfold is_active_report. cbn. now rewrite Hdue.
    + intros Hlt. rewrite getSLAStatus_unfold. cbn. rewrite Hdue.
      cbn [ReportStatus_eqb orb].
      assert (E : (getTime due - now_ms <? 0) = true) by (apply Z.ltb_lt; lia).
      rewrite E. eexists. reflexivity.
Qed.

Lemma reopened_report_keeps_its_clock_witness :
  exists r',
    select_report
      (handleReopenReport (100 * usec_per_hour) [sample_resolved_report]
         (Some "u1"%string) (cr_id sample_resolved_report))
      (cr_id sample_resolved_report) = Some r'
    /\ cr_status r' = reopened
    /\ canReopenReport (Some "u1"%string) r' = false
    /\ canProvideFeedback (Some "u1"%string) r' = false
    /\ cr_sla_due_at r' = cr_sla_due_at sample_resolved_report
    /\ cr_created_at r' = cr_created_at sample_resolved_report
    /\ (forall now_ms slaConfig,
          newLevel slaConfig now_ms r' = newLevel slaConfig now_ms sample_resolved_report)
    /\ (forall due now_ms,
          cr_sla_due_at sample_resolved_report = Some due ->
          is_active_report r' = true
          /\ (getTime due < now_ms ->
              exists h, getSLAStatus now_ms r' = Some (sla_overdue, h))).
Proof.
  apply (reopened_report_keeps_its_clock (100 * usec_per_hour)
           [sample_resolved_report] "u1" sample_resolved_report).
  - repeat constructor. simpl. tauto.
  - simpl. tauto.
  - reflexivity.
Defined.

(** ** Dashboard: statistics, filters and pages *)

Definition count_if {A} (f : A -> bool) (l : list A) : Z :=
  Z.of_nat (List.length (filter f l)).

Definition status_sum (s : Stats) : Z :=
  st_pending s + st_inProgress s + st_resolved s + st_rejected s + st_reopened s.

Definition byPriority_sum (b : ByPriority) : Z :=
  bp_low b + bp_medium b + bp_high b + bp_critical b.

Definition byType_sum (m : list (string * Z)) : Z :=
  fold_right (fun kv acc => snd kv + acc) 0 m.

Lemma count_if_cons {A} (f : A -> bool) x l :
  count_if f (x :: l) = (if f x then 1 else 0) + count_if f l.
Proof.
  unfold count_if. cbn [filter]. destruct (f x); cbn [List.length]; lia.
Qed.

Lemma byType_incr_sum m k : byType_sum (byType_incr m k) = byType_sum m + 1.
Proof.
  induction m as [|[k' n] m IH]; cbn [byType_incr byType_sum fold_right snd].
  - rewrite or_zero_id. lia.
  - destruct (k' =? k)%string; cbn [byType_sum fold_right snd].
    + rewrite or_zero_id. fold (byType_sum m). lia.
    + fold (byType_sum (byType_incr m k)). fold (byType_sum m). lia.
Qed.

Lemma byType_incr_keys m k x :
  In x (map fst (byType_incr m k)) <-> In x (map fst m) \/ x = k.
Proof.
  induction m as [|[k' n] m IH]; cbn [byType_incr map fst In].
  - intuition.
  - destruct (String.eqb_spec k' k) as [->|Hne]; cbn [map fst In].
    + intuition.
    + rewrite IH. intuition.
Qed.

Lemma byType_incr_NoDup m k :
  NoDup (map fst m) -> NoDup (map fst (byType_incr m k)).
Proof.
  induction m as [|[k' n] m IH]; cbn [byType_incr map fst]; intros H.
  - repeat constructor. intros [].
  - inversion H as [|? ? Hk Hm]; subst.
    destruct (String.eqb_spec k' k) as [->|Hne]; cbn [map fst].
    + constructor; assumption.
    + constructor; [|auto]. rewrite byType_incr_keys. intros [X|X]; congruence.
Qed.

Lemma count_report_sums now_ms s r :
  let s' := count_report now_ms s r in
  st_total s' = st_total s
  /\ status_sum s' = status_sum s + 1
  /\ byPriority_sum (st_byPriority s') = byPriority_sum (st_byPriority s) + 1
  /\ byType_sum (st_byType s') = byType_sum (st_byType s) + 1
  /\ (NoDup (map fst (st_byType s)) -> NoDup (map fst (st_byType s')))
  /\ st_overdueSLA s'
     = st_overdueSLA s + (if stats_overdue now_ms r then 1 else 0)
  /\ st_resolved s' + st_rejected s' + st_overdueSLA s'
     <= st_resolved s + st_rejected s + st_overdueSLA s + 1.
Proof.
  cbv zeta. unfold count_report, status_sum.
  cbn [st_total st_pending st_inProgress st_resolved st_rejected st_reopened
       st_overdueSLA st_byType st_byPriority].
  split; [reflexivity|]. split; [destruct (cr_status r); cbn; lia|].
  split; [destruct (cr_priority r); unfold byPriority_sum;
          cbn [byPriority_incr bp_low bp_medium bp_high bp_critical]; lia|].
  split; [apply byType_incr_sum|]. split; [apply byType_incr_NoDup|].
  split; [destruct (stats_overdue now_ms r); lia|].
  unfold stats_overdue, status_not_closed.
  destruct (cr_sla_due_at r) as [due|]; destruct (cr_status r); cbn;
    try destruct (getTime due <? now_ms); cbn; lia.
Qed.

Lemma fold_count_report_sums now_ms data :
  forall s,
    let s' := fold_left (count_report now_ms) data s in
    st_total s' = st_total s
    /\ status_sum s' = status_sum s + Z.of_nat (List.length data)
    /\ byPriority_sum (st_byPriority s')
       = byPriority_sum (st_byPriority s) + Z.of_nat (List.length data)
    /\ byType_sum (st_byType s')
       = byType_sum (st_byType s) + Z.of_nat (List.length data)
    /\ (NoDup (map fst (st_byType s)) -> NoDup (map fst (st_byType s')))
    /\ st_overdueSLA s' = st_overdueSLA s + count_if (stats_overdue now_ms) data
    /\ st_resolved s' + st_rejected s' + st_overdueSLA s'
       <= st_resolved s + st_rejected s + st_overdueSLA s
          + Z.of_nat (List.length data).
Proof.
  induction data as [|r data IH]; intros s; cbn [fold_left].
  - cbv zeta. unfold count_if. cbn. repeat split; auto; lia.
  - specialize (IH (count_report now_ms s r)). cbv zeta in IH |- *.
    destruct IH as (I1 & I2 & I3 & I4 & I5 & I6 & I7).
    destruct (count_report_sums now_ms s r) as (C1 & C2 & C3 & C4 & C5 & C6 & C7).
    cbv zeta in C1, C2, C3, C4, C5, C6, C7.
    rewrite count_if_cons. cbn [List.length]. rewrite Nat2Z.inj_succ.
    repeat split; auto; lia.
Qed.

Lemma getTime_lt due now_ms : (getTime due <? now_ms) = (due <? now_ms * 1000).
Proof.
  unfold getTime.
  pose proof (Z.div_mod due 1000 ltac:(discriminate)) as D.
  pose proof (Z.mod_pos_bound due 1000 ltac:(reflexivity)) as M.
  destruct (due <? now_ms * 1000) eqn:E.
  - apply Z.ltb_lt in E. apply Z.ltb_lt. lia.
  - apply Z.ltb_ge in E. apply Z.ltb_ge. lia.
Qed.

Lemma query_overdue_stats now_ms r : query_overdue now_ms r = stats_overdue now_ms r.
Proof.
  unfold query_overdue, stats_overdue.
  destruct (cr_sla_due_at r) as [due|]; [|reflexivity].
  now rewrite getTime_lt.
Qed.

Lemma insert_desc_length r l :
  List.length (insert_desc r l) = S (List.length l).
Proof.
  induction l as [|x l IH]; cbn [insert_desc]; [reflexivity|].
  destruct (cr_created_at x <? cr_created_at r); cbn [List.length]; [reflexivity|].
  now rewrite IH.
Qed.

Lemma order_by_created_at_desc_length l :
  List.length (order_by_created_at_desc l) = List.length l.
Proof.
  unfold order_by_created_at_desc.
  assert (G : forall acc,
             List.length (fold_left (fun acc r => insert_desc r acc) l acc)
             = (List.length l + List.length acc)%nat).
  { induction l as [|x l IH]; intros acc; cbn [fold_left List.length]; [reflexivity|].
    rewrite IH, insert_desc_length. lia. }
  rewrite G. cbn [List.length]. lia.
Qed.

Lemma filter_andb {A} (f g : A -> bool) l :
  filter (fun x => f x && g x) l = filter g (filter f l).
Proof.
  induction l as [|x l IH]; cbn [filter]; [reflexivity|].
  destruct (f x); cbn [andb filter]; [|exact IH].
  destruct (g x); now rewrite IH.
Qed.

(** X19. The statistics of the dashboard add up: the five status counters, the
    four tier counters and the per-type counters (one key per issue type)
    each sum to [total]; [overdueSLA] is never more than the reports still
    open; and it equals the number of rows the "overdue only" filter finds
    at the same instant, although one compares in the browser by the
    millisecond and the other in the database by the microsecond. *)
Theorem fetchStats_totals :
  forall now_ms isOfficer user db pagination page,
    let s := fetchStats now_ms isOfficer user db in
    st_pending s + st_inProgress s + st_resolved s + st_rejected s + st_reopened s
    = st_total s
    /\ bp_low (st_byPriority s) + bp_medium (st_byPriority s)
       + bp_high (st_byPriority s) + bp_critical (st_byPriority s) = st_total s
    /\ byType_sum (st_byType s) = st_total s
    /\ NoDup (map fst (st_byType s))
    /\ 0 <= st_overdueSLA s <= st_pending s + st_inProgress s + st_reopened s
    /\ st_overdueSLA s
       = pg_totalCount
           (snd (fetchReports now_ms isOfficer user
                   (mk_dashboard_filters None None None true) pagination page db)).
Proof.
  intros now_ms isOfficer user db pagination page s. subst s. unfold fetchStats.
  set (data := filter (dashboard_scope isOfficer user) db).
  destruct (fold_count_report_sums now_ms data
              (mk_Stats (Z.of_nat (List.length data)) 0 0 0 0 0 0 []
                 (mk_ByPriority 0 0 0 0)))
    as (I1 & I2 & I3 & I4 & I5 & I6 & I7).
  cbv zeta in I1, I2, I3, I4, I5, I6, I7.
  set (s := fold_left (count_report now_ms) data _) in *.
  unfold status_sum, byPriority_sum in *.
  cbn [st_total st_pending st_inProgress st_resolved st_rejected st_reopened
       st_overdueSLA st_byType st_byPriority bp_low bp_medium bp_high bp_critical
       byType_sum fold_right map] in I1, I2, I3, I4, I5, I6, I7.
  assert (H0 : 0 <= count_if (stats_overdue now_ms) data)
    by (unfold count_if; lia).
  split; [lia|]. split; [lia|]. split; [lia|].
  split; [apply I5; constructor|]. split; [lia|].
  rewrite I6. unfold fetchReports. cbn [snd pg_totalCount].
  rewrite or_zero_id, order_by_created_at_desc_length. unfold count_if.
  rewrite Z.add_0_l. do 2 f_equal. subst data.
  rewrite <- filter_andb. apply filter_ext. intros r.
  unfold reports_where. cbn [statusFilter typeFilter priorityFilter showOverdueOnly].
  now rewrite !andb_true_r, query_overdue_stats.
Qed.

Lemma filter_all_false {A} (f : A -> bool) (l : list A) :
  (forall x, In x l -> f x = false) -> filter f l = [].
Proof.
  induction l as [|a l IH]; intros H; simpl; [reflexivity|].
  rewrite (H a) by (simpl; auto). apply IH. intros x Hx. apply H. simpl. auto.
Qed.

(** X20. Both dashboard queries ask for [is_duplicate = false]: rows stored
    with [is_duplicate] true, wherever they stand in the table, change
    nothing in the list, the counts and the statistics, for every viewer,
    filter and page. *)
Theorem flagged_duplicates_are_not_listed :
  forall db1 dups db2 now_ms isOfficer viewer fl pagination page,
    (forall r, In r dups -> cr_is_duplicate r = true) ->
    fetchReports now_ms isOfficer viewer fl pagination page (db1 ++ dups ++ db2)
    = fetchReports now_ms isOfficer viewer fl pagination page (db1 ++ db2)
    /\ fetchStats now_ms isOfficer viewer (db1 ++ dups ++ db2)
       = fetchStats now_ms isOfficer viewer (db1 ++ db2).
Proof.
  intros db1 dups db2 now_ms isOfficer viewer fl pagination page Hd.
  assert (Hscope : filter (dashboard_scope isOfficer viewer) dups = []).
  { apply filter_all_false. intros r Hr. unfold dashboard_scope.
    now rewrite (Hd r Hr). }
  assert (Hwhere : filter (reports_where now_ms isOfficer viewer fl) dups = []).
  { apply filter_all_false. intros r Hr. unfold reports_where, dashboard_scope.
    now rewrite (Hd r Hr). }
  unfold fetchReports, fetchStats. rewrite !filter_app.
  now rewrite Hwhere, Hscope.
Qed.

Lemma flagged_duplicates_are_not_listed_witness :
  fetchReports (72 * 3600000) false (Some "u1"%string)
    (mk_dashboard_filters None None None false) initial_pagination 1
    (one_report ++ skipn 1 two_reports ++ [])
  = fetchReports (72 * 3600000) false (Some "u1"%string)
      (mk_dashboard_filters None None None false) initial_pagination 1
      (one_report ++ [])
  /\ fetchStats (72 * 3600000) false (Some "u1"%string)
       (one_report ++ skipn 1 two_reports ++ [])
     = fetchStats (72 * 3600000) false (Some "u1"%string) (one_report ++ []).
Proof.
  apply (flagged_duplicates_are_not_listed one_report (skipn 1 two_reports) []).
  intros r [<-|[]]. reflexivity.
Defined.

Lemma Math_ceil_div_bounds count pageSize :
  0 < pageSize ->
  (Math_ceil_div count pageSize - 1) * pageSize < count
  <= Math_ceil_div count pageSize * pageSize.
Proof.
  intros Hp. unfold Math_ceil_div.
  pose proof (Qle_ceiling (inject_Z count / inject_Z pageSize)) as U.
  pose proof (Qceiling_lt (inject_Z count / inject_Z pageSize)) as L.
  set (c := Qceiling (inject_Z count / inject_Z pageSize)) in *.
  assert (Hq : (0 < inject_Z pageSize)%Q)
    by (change 0%Q with (inject_Z 0); now rewrite <- Zlt_Qlt).
  assert (Hn : ~ (inject_Z pageSize == 0)%Q) by Lqa.lra.
  apply (Qmult_le_compat_r _ _ (inject_Z pageSize)) in U; [|Lqa.lra].
  apply (Qmult_lt_compat_r _ _ (inject_Z pageSize)) in L; [|exact Hq].
  rewrite (Qmult_comm (_ / _)), Qmult_div_r in U, L by exact Hn.
  rewrite <- inject_Z_mult in U, L.
  rewrite <- Zle_Qle in U. rewrite <- Zlt_Qlt in L. lia.
Qed.

Lemma range_length {A} (from to : Z) (l : list A) :
  0 <= from -> from <= to + 1 ->
  Z.of_nat (List.length (range from to l))
  = Z.min (to - from + 1) (Z.max 0 (Z.of_nat (List.length l) - from)).
Proof.
  intros H0 H1. unfold range. rewrite length_firstn, length_skipn. lia.
Qed.

(** X21. On every page that [handlePageChange] lets through, the rows fetched
    are as many as the line "Showing a to b of n" says, at least one and at
    most a page full; and the number of pages is zero exactly when no row
    matches. The page size is positive (it is 10). *)
Theorem fetchReports_page :
  forall now_ms isOfficer user fl pagination page db,
    0 < pg_pageSize pagination ->
    let data := fst (fetchReports now_ms isOfficer user fl pagination page db) in
    let pagination' := snd (fetchReports now_ms isOfficer user fl pagination page db) in
    handlePageChange pagination' page = true ->
    Z.of_nat (List.length data)
    = snd (showing pagination') - fst (showing pagination') + 1
    /\ 1 <= Z.of_nat (List.length data) <= pg_pageSize pagination
    /\ (pg_totalPages pagination' = 0 <-> pg_totalCount pagination' = 0).
Proof.
  intros now_ms isOfficer user fl pagination page db Hp data pagination' Hpage.
  subst data pagination'. unfold fetchReports in *. cbv zeta in *.
  cbn [fst snd] in *. unfold handlePageChange, showing in *.
  cbn [pg_page pg_pageSize pg_totalCount pg_totalPages fst snd] in *.
  rewrite or_zero_id in *.
  set (rows := order_by_created_at_desc _) in *.
  set (count := Z.of_nat (List.length rows)) in *.
  apply andb_true_iff in Hpage as [H1 H2].
  apply Z.leb_le in H1, H2.
  pose proof (Math_ceil_div_bounds count (pg_pageSize pagination) Hp) as B.
  set (tp := Math_ceil_div count (pg_pageSize pagination)) in *.
  assert (Hc : 0 <= count) by (subst count; lia).
  rewrite range_length by nia. fold count.
  split; [nia|]. split; [nia|]. split; intros E; nia.
Qed.

Lemma fetchReports_page_witness :
  let data := fst (fetchReports 0 true None (mk_dashboard_filters None None None false)
                     initial_pagination 1 one_report) in
  let pagination' :=
    snd (fetchReports 0 true None (mk_dashboard_filters None None None false)
           initial_pagination 1 one_report) in
  Z.of_nat (List.length data)
  = snd (showing pagination') - fst (showing pagination') + 1
  /\ 1 <= Z.of_nat (List.length data) <= pg_pageSize initial_pagination
  /\ (pg_totalPages pagination' = 0 <-> pg_totalCount pagination' = 0).
Proof.
  apply (fetchReports_page 0 true None (mk_dashboard_filters None None None false)
           initial_pagination 1 one_report).
  - reflexivity.
  - vm_compute. reflexivity.
Defined.

(** X22. For a current page between 1 and the number of pages, the page buttons
    are [min(5, totalPages)] consecutive page numbers, each of them a page
    that [handlePageChange] fetches, and the current page is one of them. *)
Theorem page_buttons_spec :
  forall pagination,
    1 <= pg_page pagination <= pg_totalPages pagination ->
    exists first,
      page_buttons pagination
      = map (fun i => first + Z.of_nat i)
          (seq 0 (Z.to_nat (Z.min 5 (pg_totalPages pagination))))
      /\ In (pg_page pagination) (page_buttons pagination)
      /\ forall b, In b (page_buttons pagination) ->
                   handlePageChange pagination b = true.
Proof.
  intros pagination Hp. unfold page_buttons, pageNum, handlePageChange.
  set (tp := pg_totalPages pagination) in *. set (p := pg_page pagination) in *.
  set (n := Z.to_nat (Z.min 5 tp)).
  assert (Hn : Z.of_nat n = Z.min 5 tp) by (subst n; lia).
  exists (if tp <=? 5 then 1
          else if p <=? 3 then 1
          else if tp - 2 <=? p then tp - 4 else p - 2).
  destruct (tp <=? 5) eqn:E5; [|destruct (p <=? 3) eqn:E3;
                                 [|destruct (tp - 2 <=? p) eqn:E2]];
    try apply Z.leb_le in E5; try apply Z.leb_gt in E5;
    try apply Z.leb_le in E3; try apply Z.leb_gt in E3;
    try apply Z.leb_le in E2; try apply Z.leb_gt in E2.
  all: split; [apply map_ext; intros i; lia|].
  all: split;
    [apply in_map_iff|
     intros b Hb; apply in_map_iff in Hb as (i & <- & Hi); apply in_seq in Hi;
     apply andb_true_iff; split; apply Z.leb_le; lia].
  - exists (Z.to_nat (p - 1)). split; [lia|apply in_seq; lia].
  - exists (Z.to_nat (p - 1)). split; [lia|apply in_seq; lia].
  - exists (Z.to_nat (p - (tp - 4))). split; [lia|apply in_seq; lia].
  - exists 2%nat. split; [lia|apply in_seq; lia].
Qed.

Lemma page_buttons_spec_witness :
  exists first,
    page_buttons (mk_PaginationState 7 10 93 10)
    = map (fun i => first + Z.of_nat i) (seq 0 (Z.to_nat (Z.min 5 10)))
    /\ In 7 (page_buttons (mk_PaginationState 7 10 93 10))
    /\ forall b, In b (page_buttons (mk_PaginationState 7 10 93 10)) ->
                 handlePageChange (mk_PaginationState 7 10 93 10) b = true.
Proof.
  apply (page_buttons_spec (mk_PaginationState 7 10 93 10)).
  cbn. lia.
Defined.

(** ** Roles: the database and the client *)

Lemma user_has_role_iff tbl uid p_role :
  user_has_role tbl (Some uid) p_role = true
  <-> exists r, In r tbl /\ active_role_of uid r = true /\ ur_role r = p_role.
Proof.
  unfold user_has_role. rewrite existsb_exists. split.
  - intros (r & Hin & H). apply andb_true_iff in H as [Ha Hr].
    apply String.eqb_eq in Hr. eauto.
  - intros (r & Hin & Ha & Hr). exists r. split; [exact Hin|].
    rewrite Ha. now apply String.eqb_eq.
Qed.

Lemma first_by_in {A} (le : A -> A -> bool) rows x :
  first_by le rows = Some x -> In x rows.
Proof.
  revert x. induction rows as [|a rows IH]; cbn [first_by]; [discriminate|].
  intros x. destruct (first_by le rows) as [y|].
  - destruct (le a y); intros [= <-]; [now left|right; now apply IH].
  - intros [= <-]. now left.
Qed.

Lemma first_by_none {A} (le : A -> A -> bool) rows :
  first_by le rows = None -> rows = [].
Proof.
  destruct rows as [|a rows]; cbn [first_by]; [reflexivity|].
  destruct (first_by le rows) as [y|]; [destruct (le a y)|]; discriminate.
Qed.

Lemma role_order_range role : 1 <= role_order role <= 4.
Proof.
  unfold role_order.
  destruct (role =? "city_admin")%string; [lia|].
  destruct (role =? "dept_admin")%string; [lia|].
  destruct (role =? "ward_officer")%string; lia.
Qed.

(** What [get_user_role] returns, given the rows it selects from. *)
Lemma get_user_role_cases tbl uid :
  let role := get_user_role tbl (Some uid) in
  (role = "citizen"%string /\ filter (active_role_of uid) tbl = [])
  \/ (exists r,
         In r tbl /\ active_role_of uid r = true /\ ur_role r = role
         /\ forall r', In r' tbl -> active_role_of uid r' = true ->
                       role_order role <= role_order (ur_role r')).
Proof.
  cbv zeta. unfold get_user_role.
  pose proof (order_by_limit_1_spec (fun r => role_order (ur_role r))
                (filter (active_role_of uid) tbl)) as S.
  destruct (order_by_limit_1 _ (filter (active_role_of uid) tbl)) as [|r rest] eqn:E.
  - left. auto.
  - right. exists r. cbn [COALESCE].
    assert (Hin : In r (filter (active_role_of uid) tbl)).
    { apply (order_by_limit_1_incl (fun r => role_order (ur_role r))).
      rewrite E. now left. }
    apply filter_In in Hin as [Hin Ha].
    repeat split; try assumption.
    intros r' Hin' Ha'.
    apply (order_by_limit_1_least _ _ _ _ E r'). apply filter_In. auto.
Qed.

Lemma role_check_cases role :
  In role ["citizen"; "ward_officer"; "dept_admin"; "city_admin"]%string ->
  role = "citizen"%string \/ role = "ward_officer"%string
  \/ role = "dept_admin"%string \/ role = "city_admin"%string.
Proof. cbn [In]. intuition. Qed.

Ltac role_order_contradiction Hmin :=
  repeat match goal with
         | H : user_has_role _ _ ?p = true |- _ =>
             let M := fresh "M" in
             pose proof (Hmin p H) as M; vm_compute in M;
             first [exfalso; apply M; reflexivity | clear H]
         end.

(** X23. With the CHECK on [role] in force, [get_user_role] returns one of the
    four roles: the highest-ranking active role of the caller (city_admin
    before dept_admin before ward_officer before citizen), and citizen when
    the caller has no active role. It agrees with [user_has_role]: the
    result is an officer role exactly when the caller passes the role test
    of the update policy, and an admin role exactly when the caller passes
    the delete policy. *)
Theorem get_user_role_highest :
  forall tbl uid,
    (forall r, In r tbl -> role_check r) ->
    let role := get_user_role tbl (Some uid) in
    In role ["citizen"; "ward_officer"; "dept_admin"; "city_admin"]%string
    /\ (forall p_role, user_has_role tbl (Some uid) p_role = true ->
                       role_order role <= role_order p_role)
    /\ (user_has_role tbl (Some uid) role = true
        \/ (role = "citizen"%string
            /\ forall p_role, user_has_role tbl (Some uid) p_role = false))
    /\ isOfficer role
       = (user_has_role tbl (Some uid) "ward_officer"
          || user_has_role tbl (Some uid) "dept_admin"
          || user_has_role tbl (Some uid) "city_admin")
    /\ isAdmin role = delete_policy tbl uid.
Proof.
  intros tbl uid Hcheck. cbv zeta.
  pose proof (get_user_role_cases tbl uid) as C. cbv zeta in C.
  set (role := get_user_role tbl (Some uid)) in *.
  destruct C as [[E Hnone]|(r & Hin & Ha & Hr & Hmin0)].
  - assert (Hno : forall p, user_has_role tbl (Some uid) p = false).
    { intros p. destruct (user_has_role tbl (Some uid) p) eqn:H; [|reflexivity].
      apply user_has_role_iff in H as (r & Hin & Ha & _).
      assert (X : In r (filter (active_role_of uid) tbl)) by (apply filter_In; auto).
      rewrite Hnone in X. elim X. }
    unfold delete_policy. rewrite !Hno, E.
    split; [cbn; auto|]. split; [intros p H; rewrite Hno in H; discriminate|].
    split; [right; auto|]. split; reflexivity.
  - assert (Hmin : forall p, user_has_role tbl (Some uid) p = true ->
                             role_order role <= role_order p).
    { intros p H. apply user_has_role_iff in H as (r' & Hin' & Ha' & <-). auto. }
    assert (Hhas : user_has_role tbl (Some uid) role = true)
      by (apply user_has_role_iff; eauto).
    pose proof (Hcheck r Hin) as Hrc. unfold role_check in Hrc. rewrite Hr in Hrc.
    split; [exact Hrc|]. split; [exact Hmin|]. split; [now left|].
    unfold delete_policy.
    destruct (role_check_cases role Hrc) as [E|[E|[E|E]]]; rewrite E in *;
      rewrite ?Hhas;
      destruct (user_has_role tbl (Some uid) "ward_officer") eqn:Hw;
      destruct (user_has_role tbl (Some uid) "dept_admin") eqn:Hd;
      destruct (user_has_role tbl (Some uid) "city_admin") eqn:Hc;
      try discriminate; try (split; reflexivity);
      role_order_contradiction Hmin.
Qed.

Definition sample_roles : list user_role :=
  [ mk_user_role "u1" "ward_officer" (Some true) (Some 10);
    mk_user_role "u1" "citizen" (Some true) (Some 20);
    mk_user_role "u2" "city_admin" (Some false) (Some 5) ].

Lemma get_user_role_highest_witness :
  let role := get_user_role sample_roles (Some "u1"%string) in
  In role ["citizen"; "ward_officer"; "dept_admin"; "city_admin"]%string
  /\ (forall p_role, user_has_role sample_roles (Some "u1"%string) p_role = true ->
                     role_order role <= role_order p_role)
  /\ (user_has_role sample_roles (Some "u1"%string) role = true
      \/ (role = "citizen"%string
          /\ forall p_role, user_has_role sample_roles (Some "u1"%string) p_role = false))
  /\ isOfficer role
     = (user_has_role sample_roles (Some "u1"%string) "ward_officer"
        || user_has_role sample_roles (Some "u1"%string) "dept_admin"
        || user_has_role sample_roles (Some "u1"%string) "city_admin")
  /\ isAdmin role = delete_policy sample_roles "u1".
Proof.
  apply (get_user_role_highest sample_roles "u1").
  intros r [<-|[<-|[<-|[]]]]; unfold role_check; cbn; auto.
Defined.

Lemma isOfficer_cases role :
  isOfficer role = true ->
  role = "ward_officer"%string \/ role = "dept_admin"%string
  \/ role = "city_admin"%string.
Proof.
  unfold isOfficer. rewrite !orb_true_iff, !String.eqb_eq. tauto.
Qed.

Lemma isAdmin_cases role :
  isAdmin role = true -> role = "dept_admin"%string \/ role = "city_admin"%string.
Proof.
  unfold isAdmin. rewrite !orb_true_iff, !String.eqb_eq. tauto.
Qed.

(** X24. The client takes the most recently created active role, the database
    the highest-ranking one. With the CHECK on [role] in force the client
    never claims more than the database grants: its role never outranks
    [get_user_role], a client that shows the officer controls passes the
    update policy on every report, and a client that counts as admin passes
    the delete policy. *)
Theorem client_role_within_server_role :
  forall tbl uid,
    (forall r, In r tbl -> role_check r) ->
    role_order (get_user_role tbl (Some uid)) <= role_order (fetchUserRole tbl uid)
    /\ (isOfficer (fetchUserRole tbl uid) = true ->
        forall report, update_policy tbl uid report = true)
    /\ (isAdmin (fetchUserRole tbl uid) = true -> delete_policy tbl uid = true).
Proof.
  intros tbl uid Hcheck.
  assert (Hclient : fetchUserRole tbl uid = "citizen"%string
                    \/ user_has_role tbl (Some uid) (fetchUserRole tbl uid) = true).
  { unfold fetchUserRole.
    destruct (first_by created_desc_le (filter (active_role_of uid) tbl))
      as [r|] eqn:E; [|now left].
    apply first_by_in in E. apply filter_In in E as [Hin Ha].
    destruct (ur_role r =? "")%string; [now left|right].
    apply user_has_role_iff. eauto. }
  split; [|split].
  - destruct Hclient as [-> | H].
    + pose proof (role_order_range (get_user_role tbl (Some uid))).
      change (role_order "citizen") with 4. lia.
    + pose proof (get_user_role_cases tbl uid) as C. cbv zeta in C.
      destruct C as [[_ Hnone]|(r & _ & _ & _ & Hmin)].
      * apply user_has_role_iff in H as (r & Hin & Ha & _).
        assert (X : In r (filter (active_role_of uid) tbl)) by (apply filter_In; auto).
        rewrite Hnone in X. elim X.
      * apply user_has_role_iff in H as (r' & Hin' & Ha' & <-). auto.
  - intros Ho report. unfold update_policy.
    destruct Hclient as [E|H]; [rewrite E in Ho; discriminate|].
    destruct (isOfficer_cases _ Ho) as [E|[E|E]]; rewrite E in H; rewrite H;
      now rewrite ?orb_true_r.
  - intros Hadm. unfold delete_policy.
    destruct Hclient as [E|H]; [rewrite E in Hadm; discriminate|].
    destruct (isAdmin_cases _ Hadm) as [E|E]; rewrite E in H; rewrite H;
      now rewrite ?orb_true_r.
Qed.

Lemma client_role_within_server_role_witness :
  role_order (get_user_role sample_roles (Some "u1"%string))
  <= role_order (fetchUserRole sample_roles "u1")
  /\ (isOfficer (fetchUserRole sample_roles "u1") = true ->
      forall report, update_policy sample_roles "u1" report = true)
  /\ (isAdmin (fetchUserRole sample_roles "u1") = true ->
      delete_policy sample_roles "u1" = true).
Proof.
  apply (client_role_within_server_role sample_roles "u1").
  intros r [<-|[<-|[<-|[]]]]; unfold role_check; cbn; auto.
Defined.

(** On [sample_roles] the two disagree: "u1" was made ward officer before
    the citizen row was written, so the client shows the citizen's view
    while the database counts "u1" as ward officer. *)
Example client_role_can_lag :
  fetchUserRole sample_roles "u1" = "citizen"%string
  /\ get_user_role sample_roles (Some "u1"%string) = "ward_officer"%string.
Proof. split; reflexivity. Qed.

(** ** The table constraints as an invariant *)

(** [id uuid PRIMARY KEY] and
    [duplicate_of uuid REFERENCES civic_reports(id)]. *)
Definition table_constraints (db : list civic_report) : Prop :=
  NoDup (map cr_id db)
  /\ forall r d, In r db -> cr_duplicate_of r = Some d -> has_id db d = true.

Definition key_columns (r : civic_report) : uuid * option uuid :=
  (cr_id r, cr_duplicate_of r).

Lemma has_id_iff db i : has_id db i = true <-> In i (map cr_id db).
Proof.
  unfold has_id. rewrite existsb_exists, in_map_iff. split.
  - intros (r & Hin & E). apply String.eqb_eq in E. eauto.
  - intros (r & E & Hin). exists r. split; [exact Hin|now apply String.eqb_eq].
Qed.

Lemma table_constraints_columns db db' :
  map key_columns db' = map key_columns db ->
  table_constraints db -> table_constraints db'.
Proof.
  intros E [Hnd Hfk].
  assert (Eid : map cr_id db' = map cr_id db).
  { apply (f_equal (map fst)) in E. rewrite !map_map in E. exact E. }
  split; [now rewrite Eid|].
  intros r' d Hin Hd. apply has_id_iff. rewrite Eid.
  assert (Hk : In (key_columns r') (map key_columns db)).
  { rewrite <- E. now apply in_map. }
  apply in_map_iff in Hk as (r & Hr & Hin0).
  unfold key_columns in Hr. injection Hr as _ Hdo.
  apply has_id_iff. apply (Hfk r d Hin0). congruence.
Qed.

Lemma update_civic_report_columns now db i f :
  (forall r, key_columns (f r) = key_columns r) ->
  map key_columns (update_civic_report now db i f) = map key_columns db.
Proof.
  intros Hf. unfold update_civic_report. rewrite map_map. apply map_ext.
  intros r. destruct (cr_id r =? i)%string; [|reflexivity].
  rewrite <- (Hf r). reflexivity.
Qed.

Lemma handleUpdateReport_columns now db user s i report :
  map key_columns (handleUpdateReport now db user s i report) = map key_columns db.
Proof.
  unfold handleUpdateReport. destruct user as [u|]; [|reflexivity].
  destruct s as [st|]; [|reflexivity].
  apply update_civic_report_columns. intros r. destruct st; reflexivity.
Qed.

Lemma handleReopenReport_columns now db user i :
  map key_columns (handleReopenReport now db user i) = map key_columns db.
Proof.
  unfold handleReopenReport. destruct user as [u|]; [|reflexivity].
  now apply update_civic_report_columns.
Qed.

Lemma check_sla_escalations_columns update_ok insert_ok slaConfigs now db escalations :
  map key_columns
    (sw_reports (check_sla_escalations update_ok insert_ok slaConfigs now db escalations))
  = map key_columns db.
Proof.
  unfold check_sla_escalations. rewrite fold_sweep_reports. cbn [sw_reports].
  generalize (filter is_active_report db) as l. intros l. revert db.
  induction l as [|p l IH]; intros db; cbn [fold_left]; [reflexivity|].
  rewrite IH, map_map. apply map_ext. intros r.
  unfold escalated_row. destruct (escalates update_ok slaConfigs now p); [|reflexivity].
  destruct (cr_id r =? cr_id p)%string; reflexivity.
Qed.

Lemma insert_civic_report_constraints rules sla now db NEW db' :
  insert_civic_report rules sla now db NEW = inr db' ->
  table_constraints db -> table_constraints db'.
Proof.
  intros H [Hnd Hfk]. unfold insert_civic_report in H.
  set (row := set_sla_due_date rules sla now NEW) in *.
  destruct (negb _); [discriminate|].
  destruct (has_id db (cr_id row)) eqn:Hid; [discriminate|].
  assert (Hfresh : ~ In (cr_id row) (map cr_id db)).
  { intros X. apply has_id_iff in X. congruence. }
  assert (Hrow : db' = db ++ [row]
                 /\ forall d, cr_duplicate_of row = Some d ->
                              has_id (db ++ [row]) d = true).
  { destruct (cr_duplicate_of row) as [d|].
    - destruct (has_id (db ++ [row]) d) eqn:Hd; [|discriminate].
      injection H as <-. split; [reflexivity|]. now intros d' [= <-].
    - injection H as <-. split; [reflexivity|]. discriminate. }
  destruct Hrow as [-> Hnew]. split.
  - rewrite map_app. cbn [map]. apply NoDup_app.
    + exact Hnd.
    + repeat constructor. intros [].
    + intros x Hx [<-|[]]. tauto.
  - intros r d Hin Hd. apply in_app_or in Hin as [Hin|[<-|[]]].
    + unfold has_id. rewrite existsb_app. apply orb_true_iff. left.
      exact (Hfk r d Hin Hd).
    + exact (Hnew d Hd).
Qed.

Lemma form_run_constraints m json_number columns rules sla user can_create_report evs :
  forall db f,
    table_constraints db ->
    table_constraints
      (fst (form_run m json_number columns rules sla user can_create_report (db, f) evs)).
Proof.
  induction evs as [|ev evs IH]; intros db f Hdb; [exact Hdb|].
  unfold form_run. cbn [fold_left].
  fold (form_run m json_number columns rules sla user can_create_report).
  destruct ev as [category issueType title location ai|now lat lng type| |now new_id];
    cbn [form_step]; try (apply IH; assumption).
  destruct (handleSubmit json_number columns rules sla now new_id db user can_create_report f)
    as [[e|db']|] eqn:E; try (apply IH; assumption).
  apply IH. apply handleSubmit_inr in E as (NEW & _ & E & _).
  now apply insert_civic_report_constraints in E.
Qed.

(** X27. The primary key and the self-reference of [duplicate_of] hold after
    every operation on a table where they held before: an insert that is
    accepted, a status update, a reopen, an escalation sweep whatever its
    writes do, and any session of the report form, on any platform and
    whatever columns the table has. No operation removes a row or rewrites
    an [id] or a [duplicate_of]. *)
Theorem table_constraints_preserved :
  forall db,
    table_constraints db ->
    (forall rules sla now NEW db',
        insert_civic_report rules sla now db NEW = inr db' -> table_constraints db')
    /\ (forall now user s i report,
           table_constraints (handleUpdateReport now db user s i report))
    /\ (forall now user i, table_constraints (handleReopenReport now db user i))
    /\ (forall update_ok insert_ok slaConfigs now escalations,
           table_constraints
             (sw_reports (check_sla_escalations update_ok insert_ok slaConfigs now
                            db escalations)))
    /\ (forall m json_number columns rules sla user can_create_report f evs,
           table_constraints
             (fst (form_run m json_number columns rules sla user can_create_report (db, f) evs))).
Proof.
  intros db Hdb. split; [|split; [|split; [|split]]].
  - intros rules sla now NEW db' H.
    exact (insert_civic_report_constraints rules sla now db NEW db' H Hdb).
  - intros. eapply table_constraints_columns;
      [apply handleUpdateReport_columns|exact Hdb].
  - intros. eapply table_constraints_columns;
      [apply handleReopenReport_columns|exact Hdb].
  - intros. eapply table_constraints_columns;
      [apply check_sla_escalations_columns|exact Hdb].
  - intros. now apply form_run_constraints.
Qed.

Lemma table_constraints_preserved_witness :
  (forall rules sla now NEW db',
      insert_civic_report rules sla now two_reports NEW = inr db' ->
      table_constraints db')
  /\ (forall now user s i report,
         table_constraints (handleUpdateReport now two_reports user s i report))
  /\ (forall now user i, table_constraints (handleReopenReport now two_reports user i))
  /\ (forall update_ok insert_ok slaConfigs now escalations,
         table_constraints
           (sw_reports (check_sla_escalations update_ok insert_ok slaConfigs now
                          two_reports escalations)))
  /\ (forall m json_number columns rules sla user can_create_report f evs,
         table_constraints
           (fst (form_run m json_number columns rules sla user can_create_report
                   (two_reports, f) evs))).
Proof.
  apply (table_constraints_preserved two_reports).
  split.
  - repeat constructor; cbn; intuition discriminate.
  - intros r d [<-|[<-|[]]]; cbn; intros [= <-]; reflexivity.
Defined.

(** ** The rate limit around the form *)

(** What the hour still allows a row. *)
Definition hourly_left (row : user_rate_limit) : Z :=
  Z.max 0 (max_hourly row - url_reports_this_hour row).

(** The reports submitted so far, [k] more the form would still take, and
    what the row still allows, stay within what the first row allowed. *)
Definition session_budget (u : uuid) (row0 : user_rate_limit)
    (tbl : list user_rate_limit) (n k : Z) : Prop :=
  exists row,
    select_rate_limit tbl u = Some row
    /\ url_hourly_reset_at row = url_hourly_reset_at row0
    /\ max_hourly row = max_hourly row0
    /\ n + k + hourly_left row <= hourly_left row0.

Lemma checkRateLimit_budget u row0 now tbl info n k :
  0 <= k ->
  date_trunc_hour now = url_hourly_reset_at row0 ->
  session_budget u row0 tbl n k ->
  exists b,
    snd (checkRateLimit now tbl (Some u) info) = Some b
    /\ session_budget u row0 (fst (checkRateLimit now tbl (Some u) info)) n
         (if b then 1 else 0).
Proof.
  intros Hk Hnow (row & Hsel & Hh & Hm & Hle).
  unfold checkRateLimit.
  destruct (check_and_update_existing now tbl u row Hsel) as [H1 H2].
  destruct (check_and_update_rate_limit now tbl u) as [tbl' data].
  cbn [fst snd] in *. subst data.
  exists (rl_is_allowed (snd (rate_limit_row_step now row))).
  split; [reflexivity|].
  exists (fst (rate_limit_row_step now row)). split; [exact H1|].
  pose proof (rate_limit_row_step_counters now row) as (Ht & _ & Hhour).
  cbv zeta in Ht, Hhour.
  assert (Hx : url_hourly_reset_at row = date_trunc_hour now) by congruence.
  destruct (Hhour Hx) as [Hr Hc].
  assert (Hmax : max_hourly (fst (rate_limit_row_step now row)) = max_hourly row)
    by (unfold max_hourly; now rewrite Ht).
  split; [congruence|]. split; [congruence|].
  unfold hourly_left in *. rewrite Hmax.
  destruct (rl_is_allowed (snd (rate_limit_row_step now row))); lia.
Qed.

Lemma rate_session_budget u row0 evs :
  forall tbl (b : bool) n,
    (forall ev, In ev evs -> date_trunc_hour (rate_event_time ev) = url_hourly_reset_at row0) ->
    session_budget u row0 tbl n (if b then 1 else 0) ->
    snd (rate_session (Some u) (tbl, Some b, n) evs) <= hourly_left row0.
Proof.
  induction evs as [|ev evs IH]; intros tbl b n Ht Hb.
  - cbn. destruct Hb as (row & _ & _ & _ & Hle). unfold hourly_left in *.
    destruct b; lia.
  - unfold rate_session. cbn [fold_left]. fold (rate_session (Some u)).
    assert (Hev : date_trunc_hour (rate_event_time ev) = url_hourly_reset_at row0)
      by (apply Ht; now left).
    assert (Ht' : forall ev', In ev' evs ->
               date_trunc_hour (rate_event_time ev') = url_hourly_reset_at row0)
      by (intros ev' Hin; apply Ht; now right).
    destruct ev as [now|now]; cbn [rate_session_step rate_event_time] in *.
    + destruct (checkRateLimit_budget u row0 now tbl (Some b) n (if b then 1 else 0))
        as (b' & Hinfo & Hbud); [destruct b; lia|exact Hev|exact Hb|].
      destruct (checkRateLimit now tbl (Some u) (Some b)) as [tbl' info'].
      cbn [fst snd] in *. subst info'. now apply IH.
    + destruct b; cbn [form_shown].
      * destruct (checkRateLimit_budget u row0 now tbl (Some true) (n + 1) 0)
          as (b' & Hinfo & Hbud); [lia|exact Hev| |].
        { destruct Hb as (row & Hsel & Hh & Hm & Hle).
          exists row. repeat split; try assumption. lia. }
        destruct (checkRateLimit now tbl (Some u) (Some true)) as [tbl' info'].
        cbn [fst snd] in *. subst info'. now apply IH.
      * now apply IH.
Qed.

(** X28. Through the form, a submitter who already has a row files at most as
    many reports within the hour as the row still allows: the hourly
    threshold (3, or 10 if trusted) less [reports_this_hour]. The check on
    mount counts against the same budget, and so does each reload of the
    form. The form takes the last report before the check that follows it
    is denied. *)
Theorem form_session_hourly_cap :
  forall tbl u row t0 evs,
    select_rate_limit tbl u = Some row ->
    (forall t, In t (t0 :: map rate_event_time evs) ->
               date_trunc_hour t = url_hourly_reset_at row) ->
    snd (rate_session (Some u) (tbl, None, 0) (RlMount t0 :: evs))
    <= Z.max 0 (max_hourly row - url_reports_this_hour row).
Proof.
  intros tbl u row t0 evs Hsel Ht.
  unfold rate_session. cbn [fold_left rate_session_step].
  fold (rate_session (Some u)).
  destruct (checkRateLimit_budget u row t0 tbl None 0 0) as (b & Hinfo & Hbud).
  - lia.
  - apply Ht. now left.
  - exists row. repeat split; try assumption. lia.
  - destruct (checkRateLimit t0 tbl (Some u) None) as [tbl' info'].
    cbn [fst snd] in *. subst info'.
    apply (rate_session_budget u row evs tbl' b 0); [|exact Hbud].
    intros ev Hin. apply Ht. right. now apply in_map.
Qed.

Lemma form_session_hourly_cap_witness :
  snd (rate_session (Some "u1"%string) ([sample_rate_row], None, 0)
         (RlMount 0 :: [RlSubmitted 1; RlSubmitted 2; RlSubmitted 3; RlSubmitted 4]))
  <= Z.max 0 (max_hourly sample_rate_row - url_reports_this_hour sample_rate_row).
Proof.
  apply (form_session_hourly_cap [sample_rate_row] "u1" sample_rate_row 0
           [RlSubmitted 1; RlSubmitted 2; RlSubmitted 3; RlSubmitted 4]).
  - reflexivity.
  - intros t Ht. cbn in Ht.
    repeat (destruct Ht as [<-|Ht]; [reflexivity|]). elim Ht.
Defined.

(** With nothing counted yet the bound is reached: three reports go in,
    the fourth finds the limit notice in place of the form. *)
Example form_session_three_reports :
  rate_session (Some "u1"%string)
    ([mk_user_rate_limit "u1" 0 0 None 0 0 false false None], None, 0)
    (RlMount 0 :: [RlSubmitted 1; RlSubmitted 2; RlSubmitted 3; RlSubmitted 4])
  = ([mk_user_rate_limit "u1" 3 3 (Some 2) 0 0 false false None], Some false, 3).
Proof. vm_compute. reflexivity. Qed.

(** ** Feedback is accepted once *)

(** X29. Feedback offered by the list is accepted once: for a report the button
    is shown for and a rating of 1 to 5 stars, the first submission adds the
    row (it passes the row-level policy, the CHECK and the keys); the button
    stays, since it looks at the report only, but every further submission
    for the same report is refused by [UNIQUE(report_id)] and changes
    nothing. *)
Theorem feedback_once_per_report :
  forall reports tbl u r rating satisfied rating2 satisfied2,
    In r reports ->
    canProvideFeedback (Some u) r = true ->
    1 <= rating <= 5 ->
    (forall f, In f tbl -> fb_report_id f <> cr_id r) ->
    let tbl1 := handleSubmitFeedback reports tbl (Some u) rating satisfied (cr_id r) in
    tbl1 = tbl ++ [mk_citizen_feedback (cr_id r) u (Some rating) satisfied]
    /\ canProvideFeedback (Some u) r = true
    /\ handleSubmitFeedback reports tbl1 (Some u) rating2 satisfied2 (cr_id r) = tbl1.
Proof.
  intros reports tbl u r rating sat rating2 sat2 Hin Hcan Hr Hnone tbl1.
  assert (Hown : (u =? cr_user_id r)%string = true).
  { unfold canProvideFeedback in Hcan. now apply andb_true_iff in Hcan as [Ho _]. }
  apply String.eqb_eq in Hown.
  assert (E1 : tbl1 = tbl ++ [mk_citizen_feedback (cr_id r) u (Some rating) sat]).
  { subst tbl1. unfold handleSubmitFeedback, insert_citizen_feedback.
    destruct (Z.eqb_spec rating 0) as [?|_]; [lia|].
    unfold feedback_insert_policy, rating_check.
    cbn [fb_user_id fb_report_id fb_rating].
    rewrite String.eqb_refl.
    assert (P : existsb (fun x => (cr_id x =? cr_id r)%string
                                  && (cr_user_id x =? u)%string) reports = true).
    { apply existsb_exists. exists r. split; [exact Hin|].
      rewrite String.eqb_refl. cbn [andb]. apply String.eqb_eq. congruence. }
    assert (K : has_id reports (cr_id r) = true).
    { apply has_id_iff. now apply in_map. }
    assert (U : existsb (fun f => (fb_report_id f =? cr_id r)%string) tbl = false).
    { destruct (existsb _ tbl) eqn:X; [|reflexivity].
      apply existsb_exists in X as (f & Hf & Ef). apply String.eqb_eq in Ef.
      elim (Hnone f Hf Ef). }
    assert (R : (1 <=? rating) && (rating <=? 5) = true).
    { apply andb_true_iff. split; apply Z.leb_le; lia. }
    now rewrite P, K, U, R. }
  split; [exact E1|]. split; [exact Hcan|].
  unfold handleSubmitFeedback, insert_citizen_feedback.
  destruct (rating2 =? 0); [reflexivity|].
  assert (U : existsb (fun f => (fb_report_id f
                                 =? fb_report_id (mk_citizen_feedback (cr_id r) u
                                                    (Some rating2) sat2))%string)
                tbl1 = true).
  { rewrite E1, existsb_app. apply orb_true_iff. right. cbn.
    now rewrite String.eqb_refl. }
  rewrite U. cbn [negb]. now rewrite andb_false_r.
Qed.

Lemma feedback_once_per_report_witness :
  let tbl1 := handleSubmitFeedback [sample_resolved_report] [] (Some "u1"%string)
                4 (Some true) (cr_id sample_resolved_report) in
  tbl1 = [] ++ [mk_citizen_feedback (cr_id sample_resolved_report) "u1" (Some 4)
                  (Some true)]
  /\ canProvideFeedback (Some "u1"%string) sample_resolved_report = true
  /\ handleSubmitFeedback [sample_resolved_report] tbl1 (Some "u1"%string)
       5 (Some false) (cr_id sample_resolved_report) = tbl1.
Proof.
  apply (feedback_once_per_report [sample_resolved_report] [] "u1"
           sample_resolved_report 4 (Some true) 5 (Some false)).
  - simpl. tauto.
  - reflexivity.
  - lia.
  - intros f [].
Defined.

(** ** What the form sends *)

(** The answer of [calculate_priority_score] to the call of
    [handleSubmit]. *)
Definition scorer_answer (rules : list priority_rule) (now : timestamptz)
    (f : form_state) : Q * Priority :=
  calculate_priority_score rules now (f_issueType f)
    (option_map fst (f_location f)) (option_map snd (f_location f))
    (Some (COALESCE (f_aiClassification f) 0.5%Q)).

(** No issue of the emergency category is an issue type the table
    accepts. *)
Lemma emergency_issue_type_check issueValue :
  isEmergencyIssue issueValue = true -> issue_type_check issueValue = false.
Proof.
  unfold isEmergencyIssue, getCategoryByIssue, ISSUE_CATEGORIES.
  cbn [find existsb fst snd].
  repeat match goal with
         | |- context [(?s =? issueValue)%string] =>
             destruct (String.eqb_spec s issueValue) as [<-|_];
             [cbn; try discriminate; reflexivity|]
         end.
  cbn. discriminate.
Qed.

Lemma set_sla_due_date_issue_type rules sla now NEW :
  cr_issue_type (set_sla_due_date rules sla now NEW) = cr_issue_type NEW.
Proof.
  rewrite set_sla_due_date_unfold. cbv zeta.
  destruct (with_computed_priority_keeps rules now NEW) as (_ & _ & _ & K & _).
  destruct (select_resolution_time_hours sla _); simpl; exact K.
Qed.

(** X30. The row the form asks the table to insert is owned by the user,
    of the chosen issue type, pending, at escalation level 0 and created
    now, and it is flagged as a duplicate exactly when the warning is on
    screen. For an issue that is not an emergency its tier is the scorer's
    (for the confidence of the classification, 0.5 without one) and its
    score is the scorer's as it comes back through the browser; for an
    emergency issue they are critical and 1.0. The table of the repository
    refuses the request, which names the column [municipality]; and
    whatever the columns, a request for an emergency issue is refused. *)
Theorem form_insert_request :
  forall json_number rules now new_id u can_create_report f NEW,
    handleSubmit_row json_number rules now new_id (Some u) can_create_report f
    = Some NEW ->
    (cr_id NEW = new_id
     /\ cr_user_id NEW = u
     /\ cr_issue_type NEW = f_issueType f
     /\ cr_status NEW = pending
     /\ cr_escalation_level NEW = 0
     /\ cr_created_at NEW = now
     /\ cr_is_duplicate NEW = dw_show (f_duplicateWarning f))
    /\ (isEmergencyIssue (f_issueType f) = false ->
        cr_priority NEW = snd (scorer_answer rules now f)
        /\ cr_priority_score NEW
           = Some (json_number (fst (scorer_answer rules now f))))
    /\ (forall sla db,
           handleSubmit json_number civic_reports_columns rules sla now new_id db
             (Some u) can_create_report f
           = Some (inl (PGRST204 "municipality")))
    /\ (isEmergencyIssue (f_issueType f) = true ->
        cr_priority NEW = critical
        /\ cr_priority_score NEW = Some 1.0%Q
        /\ forall columns sla db,
             exists e,
               handleSubmit json_number columns rules sla now new_id db (Some u)
                 can_create_report f
               = Some (inl e)).
Proof.
  intros json_number rules now new_id u can f NEW H.
  assert (Hrow := H). unfold handleSubmit_row in H.
  destruct (f_selectedCategory f); [|discriminate].
  destruct (f_issueType f =? "")%string; [discriminate|].
  destruct (negb can); [discriminate|].
  destruct (dw_show (f_duplicateWarning f) && negb (f_forceSubmit f)); [discriminate|].
  fold (scorer_answer rules now f) in H.
  destruct (isEmergencyIssue (f_issueType f)) eqn:He; cbv zeta in H;
    injection H as <-.
  - split; [cbn; repeat split; reflexivity|].
    split; [discriminate|]. split.
    + intros sla db. rewrite handleSubmit_refused, Hrow. reflexivity.
    + intros _. split; [reflexivity|]. split; [reflexivity|].
      intros columns sla db. unfold handleSubmit. rewrite Hrow.
      unfold postgrest_insert.
      destruct (find _ handleSubmit_keys) as [k|]; [eauto|].
      unfold insert_civic_report.
      rewrite set_sla_due_date_issue_type. cbn [cr_issue_type].
      rewrite (emergency_issue_type_check _ He). cbn. eauto.
  - split; [cbn; repeat split; reflexivity|].
    split; [intros _; split; reflexivity|]. split.
    + intros sla db. rewrite handleSubmit_refused, Hrow. reflexivity.
    + discriminate.
Qed.

(** The row of the third report of the pothole (hour 73, sent past the
    warning that names "b"). *)
Definition third_report_row : civic_report :=
  mk_civic_report "c" "u1" "pothole" "Pothole" (Some 0%Q) (Some 0%Q)
    pending medium (Some 0.52500%Q) 0%Q None 0 true (Some "b"%string) 0 None
    (73 * usec_per_hour) (73 * usec_per_hour).

Lemma form_insert_request_witness :
  (cr_id third_report_row = "c"%string
   /\ cr_user_id third_report_row = "u1"%string
   /\ cr_issue_type third_report_row = f_issueType (forced_form "b" 2)
   /\ cr_status third_report_row = pending
   /\ cr_escalation_level third_report_row = 0
   /\ cr_created_at third_report_row = 73 * usec_per_hour
   /\ cr_is_duplicate third_report_row
      = dw_show (f_duplicateWarning (forced_form "b" 2)))
  /\ (isEmergencyIssue (f_issueType (forced_form "b" 2)) = false ->
      cr_priority third_report_row
      = snd (scorer_answer default_priority_rules (73 * usec_per_hour)
               (forced_form "b" 2))
      /\ cr_priority_score third_report_row
         = Some ((fun q => q)
                   (fst (scorer_answer default_priority_rules
                           (73 * usec_per_hour) (forced_form "b" 2)))))
  /\ (forall sla db,
         handleSubmit (fun q => q) civic_reports_columns default_priority_rules sla
           (73 * usec_per_hour) "c" db (Some "u1"%string) true (forced_form "b" 2)
         = Some (inl (PGRST204 "municipality")))
  /\ (isEmergencyIssue (f_issueType (forced_form "b" 2)) = true ->
      cr_priority third_report_row = critical
      /\ cr_priority_score third_report_row = Some 1.0%Q
      /\ forall columns sla db,
           exists e,
             handleSubmit (fun q => q) columns default_priority_rules sla
               (73 * usec_per_hour) "c" db (Some "u1"%string) true
               (forced_form "b" 2)
             = Some (inl e)).
Proof.
  apply (form_insert_request (fun q => q) default_priority_rules
           (73 * usec_per_hour) "c" "u1" true (forced_form "b" 2) third_report_row).
  vm_compute. reflexivity.
Defined.

(** A gas leak reported from the form goes out as critical with score 1.0,
    and the CHECK on [issue_type] refuses it on a table that has every
    column the form names. *)
Example gas_leak_refused :
  let f := mk_form_state (Some "emergency"%string) "gas_leak" "Gas leak"
             (Some (0%Q, 0%Q)) None no_warning false in
  option_map (fun r => (cr_priority r, cr_priority_score r))
    (handleSubmit_row (fun q => q) default_priority_rules 0 "g"
       (Some "u1"%string) true f)
  = Some (critical, Some 1.0%Q)
  /\ handleSubmit (fun q => q) (civic_reports_columns ++ ["municipality"%string])
       default_priority_rules default_sla_config 0 "g" [] (Some "u1"%string) true f
     = Some (inl (sql_error check_violation)).
Proof. split; reflexivity. Qed.
